(** * nanobot: subagent manager and plugin loader

    A shallow embedding of [nanobot/agent/subagent.py] and
    [nanobot/agent/tools/plugins.py], and the properties of the subagent
    lifecycle, the capability assembler and the plugin loader.

    Conventions.
    - Python [str] is [string]; one Rocq character per Python character.
    - Python [int] is [Z].
    - A Python [dict] whose iteration order is observable ([PluginLoader.load]'s
      result, the registry's tool table) is an insertion-ordered association
      list ([PyDict]); a dict used as a plain map ([_running_tasks],
      [subagent_profiles]) is a [gmap string].
    - [loguru] calls are recorded as (level, template, arguments).
    - Exceptions are the instances of Python's [Exception], carried as their
      [str(e)] text. *)

From stdpp Require Import base option list gmap strings sorting pretty.
From Stdlib Require Import ZArith Lia.

Local Open Scope Z_scope.

(** ** Python values *)

(** The result of evaluating Python code that may raise. *)
Inductive Result (A : Type) : Type :=
| Ok (a : A)
| Raise (e : string).
Arguments Ok {A} a.
Arguments Raise {A} e.

(** [bool(s)] for a string. *)
Definition str_truthy (s : string) : bool :=
  match s with
  | EmptyString => false
  | String _ _ => true
  end.

(** [bool(o)] for an [Optional[str]]. *)
Definition opt_str_truthy (o : option string) : bool :=
  match o with
  | Some s => str_truthy s
  | None => false
  end.

(** [bool(l)] for a list. *)
Definition list_truthy {A} (l : list A) : bool :=
  match l with
  | [] => false
  | _ :: _ => true
  end.

(** [str(n)] for an [int]. *)
Definition py_str_int (n : Z) : string := pretty n.

(** [s[:n]]. *)
Definition py_slice_to (n : nat) (s : string) : string := String.substring 0 n s.

(** [sep.join(l)]. *)
Definition py_join (sep : string) (l : list string) : string := String.concat sep l.

(** [s.startswith(p)]. *)
Definition py_startswith (p s : string) : bool := String.prefix p s.

(** [sorted(l)] for a list of strings: code-point order. *)
Definition py_sorted (l : list string) : list string := merge_sort String.le l.

(** *** Insertion-ordered dictionaries *)

Module PyDict.
Definition t (V : Type) : Type := list (string * V).

Definition empty {V} : t V := [].

(** [d.get(k)] / [d[k]]. *)
Fixpoint get {V} (d : t V) (k : string) : option V :=
  match d with
  | [] => None
  | (k', v) :: d' => if decide (k' = k) then Some v else get d' k
  end.

(** [k in d]. *)
Definition mem {V} (d : t V) (k : string) : bool :=
  match get d k with
  | Some _ => true
  | None => false
  end.

(** [d[k] = v]: an existing key keeps its position, a new key goes last. *)
Fixpoint set {V} (d : t V) (k : string) (v : V) : t V :=
  match d with
  | [] => [(k, v)]
  | (k', v') :: d' =>
      if decide (k' = k) then (k, v) :: d' else (k', v') :: set d' k v
  end.

(** [d.items()], [d.values()], [d.keys()]. *)
Definition items {V} (d : t V) : list (string * V) := d.
Definition values {V} (d : t V) : list V := d.*2.
Definition keys {V} (d : t V) : list string := d.*1.
End PyDict.

(** ** Logging *)

Inductive Level : Set := DEBUG | INFO | WARNING | ERROR.

Record LogRecord : Type := mkLog {
  log_level : Level;
  log_template : string;
  log_args : list string
}.

(** ** Tools *)

Definition Path : Type := string.

(** [ToolContext] of [plugins.py] (a frozen dataclass). *)
Record ToolContext : Type := mkToolContext {
  ctx_workspace : Path;
  ctx_allowed_dir : option Path;
  ctx_working_dir : string;
  ctx_exec_timeout : Z;
  ctx_restrict_to_workspace : bool;
  ctx_brave_api_key : option string
}.

(** A constructed tool. The built-in classes are the ones [subagent.py]
    imports, with the constructor arguments it passes; a plugin instance is
    identified by its class, the [name] that was read from it and the context
    it was built with ([None] for the no-argument constructor). *)
Inductive Tool : Type :=
| ReadFileTool (workspace : Path) (allowed_dir : option Path)
| WriteFileTool (workspace : Path) (allowed_dir : option Path)
| EditFileTool (workspace : Path) (allowed_dir : option Path)
| ListDirTool (workspace : Path) (allowed_dir : option Path)
| ExecTool (working_dir : string) (timeout : Z) (restrict_to_workspace : bool)
| WebSearchTool (api_key : option string)
| WebFetchTool
| PluginTool (cls : string) (name : string) (context : option ToolContext).

(** [_TOOL_NAME_MAP]: tool name -> implementing class. *)
Definition _TOOL_NAME_MAP : PyDict.t string :=
  [ ("read_file", "ReadFileTool");
    ("write_file", "WriteFileTool");
    ("edit_file", "EditFileTool");
    ("list_dir", "ListDirTool");
    ("exec", "ExecTool");
    ("web_search", "WebSearchTool");
    ("web_fetch", "WebFetchTool") ].

(** [tool.name]: the built-in classes carry the names [_TOOL_NAME_MAP] gives
    them. *)
Definition tool_name (t : Tool) : string :=
  match t with
  | ReadFileTool _ _ => "read_file"
  | WriteFileTool _ _ => "write_file"
  | EditFileTool _ _ => "edit_file"
  | ListDirTool _ _ => "list_dir"
  | ExecTool _ _ _ => "exec"
  | WebSearchTool _ => "web_search"
  | WebFetchTool => "web_fetch"
  | PluginTool _ n _ => n
  end.

(** Modelled from the spec: [ToolRegistry] ([nanobot/agent/tools/registry.py]
    is not part of the sources). "An in-memory mapping from tool name to Tool
    instance"; [register(tool)] "inserts or overwrites by name";
    [has(name) -> bool]; [get_definitions()] lists the tools in registration
    order. *)
Module ToolRegistry.
Definition t : Type := PyDict.t Tool.
Definition new : t := PyDict.empty.
Definition register (r : t) (tool : Tool) : t := PyDict.set r (tool_name tool) tool.
Definition has (r : t) (name : string) : bool := PyDict.mem r name.
Definition get (r : t) (name : string) : option Tool := PyDict.get r name.
Definition get_definitions (r : t) : list Tool := PyDict.values r.
End ToolRegistry.

(** ** plugins.py *)

Module Plugins.

(** What calling a plugin class does. [name] is a property of the instance,
    so reading it runs plugin code: it gives a string or raises. *)
Inductive Ctor : Type :=
| Constructs (name : Result string)  (* returns an instance; [instance.name] gives this *)
| RaisesTypeError (e : string)
| RaisesException (e : string).      (* any other [Exception] *)

(** A class found in a plugin module by
    [inspect.getmembers(module, inspect.isclass)]. *)
Record PluginClass : Type := mkClass {
  cls_name : string;              (* [obj.__name__] *)
  cls_is_tool_subclass : bool;    (* [issubclass(obj, Tool)] *)
  cls_is_tool : bool;             (* [obj is Tool] *)
  cls_is_abstract : bool;         (* [inspect.isabstract(obj)] *)
  cls_with_context : Ctor;        (* [cls(context=self.context)] *)
  cls_no_arg : Ctor               (* [cls()] *)
}.

(** A path matched by [tools_dir.glob("*.py")]. *)
Record PluginFile : Type := mkFile {
  file_name : string;                              (* [path.name] *)
  file_has_spec : bool;                            (* spec and spec.loader are not None *)
  file_exec_module : Result (list PluginClass)    (* [exec_module], then the class members *)
}.

(** The tools directory as the loader sees it: [None] when
    [tools_dir.is_dir()] is false, else the paths [glob] yields. *)
Definition ToolsDir : Type := option (list PluginFile).

Record PluginLoader : Type := mkLoader {
  tools_dir : Path;
  context : ToolContext;
  _cache : option (PyDict.t Tool)
}.

(** The interpreter state the loader touches. *)
Record Env : Type := mkEnv {
  sys_path : list string;
  log : list LogRecord
}.

Definition emit (r : LogRecord) (env : Env) : Env :=
  {| sys_path := sys_path env; log := log env ++ [r] |}.

(** [s.endswith("/")]. *)
Fixpoint ends_with_slash (s : string) : bool :=
  match s with
  | EmptyString => false
  | String c rest =>
      match rest with
      | EmptyString => Ascii.eqb c (Ascii.ascii_of_nat 47)
      | String _ _ => ends_with_slash rest
      end
  end.

(** [p / name] of [pathlib], for a POSIX path carried as its [str] and a
    relative one-segment [name]: the current directory ["."] is dropped, a
    root (["/"] or ["//"], the only paths whose text ends in a slash) takes the
    name as it is, any other path takes a separator first. *)
Definition py_path_join (p : Path) (name : string) : Path :=
  if String.eqb p "." then name
  else if ends_with_slash p then p +:+ name
  else p +:+ "/" +:+ name.

(** [PluginLoader.__init__]. *)
Definition init (workspace : Path) (ctx : ToolContext) : PluginLoader :=
  {| tools_dir := py_path_join workspace "tools"; context := ctx; _cache := None |}.

(** An instance a plugin class returned, before [_load_file] has read its
    name. *)
Record Instance : Type := mkInstance {
  inst_cls : string;                   (* [type(instance).__name__] *)
  inst_name : Result string;           (* [instance.name] *)
  inst_context : option ToolContext    (* the [context=] it was built with, if any *)
}.

(** The instance as a tool, once [instance.name] has given [name]. *)
Definition plugin_tool (instance : Instance) (name : string) : Tool :=
  PluginTool (inst_cls instance) name (inst_context instance).

(** [PluginLoader._instantiate]. *)
Definition _instantiate (self : PluginLoader) (cls : PluginClass) : Result Instance :=
  match cls_with_context cls with
  | Constructs n => Ok (mkInstance (cls_name cls) n (Some (context self)))
  | RaisesTypeError _ =>
      match cls_no_arg cls with
      | Constructs n => Ok (mkInstance (cls_name cls) n None)
      | RaisesTypeError e => Raise e
      | RaisesException e => Raise e
      end
  | RaisesException e => Raise e
  end.

(** The [for ... in inspect.getmembers(...)] loop of [_load_file]; [tools] is
    the dict being filled in place. Only the call of [_instantiate] is inside
    the [try]: when [instance.name] raises, the exception leaves the loop, and
    with it [_load_file], and the classes after it are not looked at. *)
Fixpoint load_classes (self : PluginLoader) (fname : string)
    (classes : list PluginClass) (tools : PyDict.t Tool) (env : Env)
    : Result unit * PyDict.t Tool * Env :=
  match classes with
  | [] => (Ok tt, tools, env)
  | obj :: rest =>
      if negb (cls_is_tool_subclass obj) || cls_is_tool obj then
        load_classes self fname rest tools env
      else if cls_is_abstract obj then
        load_classes self fname rest tools env
      else
        match _instantiate self obj with
        | Ok instance =>
            match inst_name instance with
            | Ok name =>
                if PyDict.mem tools name then
                  load_classes self fname rest tools
                    (emit (mkLog DEBUG "Duplicate plugin tool name '{}' in {} -- skipped"
                             [name; fname]) env)
                else
                  load_classes self fname rest
                    (PyDict.set tools name (plugin_tool instance name)) env
            | Raise e => (Raise e, tools, env)
            end
        | Raise e =>
            load_classes self fname rest tools
              (emit (mkLog WARNING "Failed to instantiate {} from {}: {}"
                       [cls_name obj; fname; e]) env)
        end
  end.

(** [PluginLoader._load_file]. The outcome is [Ok] or the exception that
    escapes; [tools] is updated in place either way. *)
Definition _load_file (self : PluginLoader) (path : PluginFile)
    (tools : PyDict.t Tool) (env : Env) : Result unit * PyDict.t Tool * Env :=
  if negb (file_has_spec path) then
    (Ok tt, tools,
     emit (mkLog WARNING "Cannot create module spec for {}" [file_name path]) env)
  else
    match file_exec_module path with
    | Ok classes => load_classes self (file_name path) classes tools env
    | Raise e => (Raise e, tools, env)
    end.

(** [sorted(self.tools_dir.glob("*.py"))]: paths of one directory, ordered by
    file name. *)
Definition path_le (a b : PluginFile) : Prop := String.le (file_name a) (file_name b).

Global Instance path_le_dec : RelDecision path_le.
Proof. intros a b. unfold path_le. apply _. Defined.

Definition sorted_paths (files : list PluginFile) : list PluginFile :=
  merge_sort path_le files.

(** The [for path in sorted(...)] loop of [load]. *)
Fixpoint load_paths (self : PluginLoader) (paths : list PluginFile)
    (tools : PyDict.t Tool) (env : Env) : PyDict.t Tool * Env :=
  match paths with
  | [] => (tools, env)
  | path :: rest =>
      if py_startswith "_" (file_name path) then
        load_paths self rest tools env
      else
        match _load_file self path tools env with
        | (Ok _, tools', env') => load_paths self rest tools' env'
        | (Raise e, tools', env') =>
            load_paths self rest tools'
              (emit (mkLog WARNING "Failed to load plugin {}: {}" [file_name path; e]) env')
        end
  end.

(** [PluginLoader.load]: the returned mapping, the loader afterwards (its
    [_cache]) and the interpreter state. *)
Definition load (self : PluginLoader) (dir : ToolsDir) (env : Env)
    : PyDict.t Tool * PluginLoader * Env :=
  match _cache self with
  | Some cached => (cached, self, env)
  | None =>
      match dir with
      | None =>
          (PyDict.empty,
           {| tools_dir := tools_dir self; context := context self;
              _cache := Some PyDict.empty |},
           env)
      | Some files =>
          let tools_str := tools_dir self in
          let env1 :=
            if decide (tools_str ∈ sys_path env) then env
            else {| sys_path := tools_str :: sys_path env; log := log env |} in
          let '(tools, env2) := load_paths self (sorted_paths files) PyDict.empty env1 in
          (tools,
           {| tools_dir := tools_dir self; context := context self;
              _cache := Some tools |},
           env2)
      end
  end.

(** The [for name, tool in self.load().items()] loop of [register_into]. *)
Fixpoint register_items (items : list (string * Tool)) (registry : ToolRegistry.t)
    (env : Env) : ToolRegistry.t * Env :=
  match items with
  | [] => (registry, env)
  | (name, tool) :: rest =>
      if ToolRegistry.has registry name then
        register_items rest registry
          (emit (mkLog DEBUG "Plugin tool '{}' skipped -- built-in takes priority" [name]) env)
      else
        register_items rest (ToolRegistry.register registry tool)
          (emit (mkLog INFO "Registered plugin tool '{}'" [name]) env)
  end.

(** [PluginLoader.register_into]. *)
Definition register_into (self : PluginLoader) (dir : ToolsDir)
    (registry : ToolRegistry.t) (env : Env)
    : ToolRegistry.t * PluginLoader * Env :=
  let '(tools, self', env1) := load self dir env in
  let '(registry', env2) := register_items (PyDict.items tools) registry env1 in
  (registry', self', env2).

End Plugins.

(** *** Plugin files of [examples/tools/] and a few broken ones *)

Module PluginExamples.
Import Plugins.

(** [Tool] itself, imported by every plugin module. *)
Definition ToolBase : PluginClass :=
  mkClass "Tool" true true true (RaisesTypeError "abstract class") (RaisesTypeError "abstract class").

(** [ToolContext], imported by the plugins that take a context. *)
Definition ToolContextClass : PluginClass :=
  mkClass "ToolContext" false false false (RaisesTypeError "unexpected keyword argument")
    (RaisesTypeError "missing required arguments").

(** [DiceTool] of [dice.py]: no [__init__], so [context=] is rejected. *)
Definition DiceTool : PluginClass :=
  mkClass "DiceTool" true false false (RaisesTypeError "DiceTool() takes no arguments")
    (Constructs (Ok "roll_dice")).

(** [GreetTool] of [greet.py]: [__init__(self, context)]. *)
Definition GreetTool : PluginClass :=
  mkClass "GreetTool" true false false (Constructs (Ok "greet"))
    (RaisesTypeError "missing 1 required positional argument: 'context'").

Definition dice_py : PluginFile := mkFile "dice.py" true (Ok [DiceTool; ToolBase]).
Definition greet_py : PluginFile :=
  mkFile "greet.py" true (Ok [GreetTool; ToolBase; ToolContextClass]).

(** A second file that also defines a tool named [greet]. *)
Definition HelloTool : PluginClass :=
  mkClass "HelloTool" true false false (RaisesTypeError "HelloTool() takes no arguments")
    (Constructs (Ok "greet")).
Definition hello_py : PluginFile := mkFile "hello.py" true (Ok [HelloTool; ToolBase]).

(** A file that fails while it is imported. *)
Definition broken_py : PluginFile :=
  mkFile "broken.py" true (Raise "No module named 'missing_dependency'").

(** A file with one class whose constructor fails and one that works. *)
Definition FailingTool : PluginClass :=
  mkClass "FailingTool" true false false (RaisesException "cannot connect")
    (Constructs (Ok "failing")).
Definition mixed_py : PluginFile :=
  mkFile "mixed.py" true (Ok [DiceTool; FailingTool; ToolBase]).

(** A plugin that takes the name of a built-in. *)
Definition MyReadFile : PluginClass :=
  mkClass "MyReadFile" true false false (RaisesTypeError "takes no arguments")
    (Constructs (Ok "read_file")).
Definition read_py : PluginFile := mkFile "read.py" true (Ok [MyReadFile; ToolBase]).

(** A class that is built but whose [name] property raises (it looks its name
    up in a settings dict that has no such key), followed in the same file by
    a class with nothing wrong. [getmembers] lists the classes by name. *)
Definition NamelessTool : PluginClass :=
  mkClass "NamelessTool" true false false (RaisesTypeError "NamelessTool() takes no arguments")
    (Constructs (Raise "'name'")).
Definition ZTool : PluginClass :=
  mkClass "ZTool" true false false (RaisesTypeError "ZTool() takes no arguments")
    (Constructs (Ok "ztool")).
Definition flaky_py : PluginFile :=
  mkFile "flaky.py" true (Ok [NamelessTool; ToolBase; ZTool]).

(** The same [ZTool] in a file of its own. *)
Definition ztool_py : PluginFile := mkFile "ztool.py" true (Ok [ToolBase; ZTool]).

Definition example_context : ToolContext :=
  mkToolContext "/ws" None "/ws" 60 false None.

Definition example_loader : PluginLoader := init "/ws" example_context.

Definition empty_env : Env := mkEnv [] [].

End PluginExamples.


(** ** subagent.py *)

Module Subagent.

(** *** Data *)

(** [ExecToolConfig] ([nanobot/config/schema.py]): the two fields the manager
    reads. *)
Record ExecToolConfig : Type := mkExecConfig {
  enabled : bool;
  timeout : Z
}.

(** A profile of [subagent_profiles]: the four fields the manager reads. *)
Record SubagentProfile : Type := mkProfile {
  p_model : option string;
  p_max_iterations : Z;
  p_tools : option (list string);
  p_skills : option (list string)
}.

(** A [float], passed through to the provider and never computed with. *)
Inductive PyFloat : Type := FloatLit (literal : string).

(** A tool-call record of a provider response. [tc_arguments] is the argument
    mapping, carried as its JSON text, so that
    [json.dumps(tc.arguments, ensure_ascii=False)] is [tc_arguments]. *)
Record ToolCall : Type := mkToolCall {
  tc_id : string;
  tc_name : string;
  tc_arguments : string
}.

(** [LLMResponse]: the three members the loop reads. *)
Record LLMResponse : Type := mkResponse {
  r_content : option string;
  has_tool_calls : bool;
  tool_calls : list ToolCall
}.

(** The entries of an assistant message's ["tool_calls"] list:
    [{"id": .., "type": "function", "function": {"name": .., "arguments": ..}}]. *)
Record ToolCallDict : Type := mkToolCallDict {
  tcd_id : string;
  tcd_type : string;
  tcd_function_name : string;
  tcd_function_arguments : string
}.

(** The role-tagged dicts of the message list. *)
Inductive Message : Type :=
| SystemMessage (content : string)
| UserMessage (content : string)
| AssistantMessage (content : string) (tool_calls : list ToolCallDict)
| ToolMessage (tool_call_id : string) (name : string) (content : string).

(** The keyword arguments of one [provider.chat] call. *)
Record ChatRequest : Type := mkChatRequest {
  req_messages : list Message;
  req_tools : list Tool;
  req_model : string;
  req_temperature : PyFloat;
  req_max_tokens : Z
}.

(** [InboundMessage] ([nanobot/bus/events.py]): the fields the manager sets. *)
Record InboundMessage : Type := mkInbound {
  channel : string;
  sender_id : string;
  chat_id : string;
  msg_content : string
}.

(** The [origin] dict: [{"channel": .., "chat_id": ..}]. *)
Record Origin : Type := mkOrigin {
  origin_channel : string;
  origin_chat_id : string
}.

(** The manager's attributes that are set once in [__init__]. The dict
    [_running_tasks] is mutable and lives in [State]. *)
Record SubagentManager : Type := mkManager {
  workspace : Path;
  model : string;
  temperature : PyFloat;
  max_tokens : Z;
  brave_api_key : option string;
  exec_config : ExecToolConfig;
  restrict_to_workspace : bool;
  subagent_profiles : gmap string SubagentProfile;
  default_max_iterations : Z
}.

(** An [asyncio.Task] wrapping the coroutine
    [self._run_subagent(task_id, task, display_label, origin, profile)]. Its
    one done-callback pops [task_id] from [_running_tasks]. *)
Record BgTask : Type := mkBgTask {
  bg_task_id : string;
  bg_task : string;
  bg_label : string;
  bg_origin : Origin;
  bg_profile : option string
}.

(** *** The environment *)

(** Everything the manager calls but does not implement. [World] is the state
    of the outside (the provider's conversation, the file system, the clock,
    the random generator); each operation may read and change it. *)
Class Runtime : Type := mkRuntime {
  World : Type;
  (** [await provider.chat(...)]: a response, or a thrown failure. *)
  provider_chat : ChatRequest → World → Result LLMResponse * World;
  (** Modelled from the spec: [ToolRegistry.execute(name, arguments)] "looks
      up the tool and invokes it, catching any failure raised by the tool body
      and converting it to a descriptive error string rather than
      propagating". *)
  registry_execute : ToolRegistry.t → string → string → World → string * World;
  (** [SkillsLoader(workspace).load_skills_for_context(names)]. *)
  load_skills_for_context : Path → list string → World → Result string;
  (** [datetime.now().strftime("%Y-%m-%d %H:%M (%A)")]. *)
  strftime_now : World → string;
  (** [time.strftime("%Z")]. *)
  strftime_tz : World → string;
  (** [str(uuid.uuid4())]. *)
  uuid4_str : World → string * World
}.

Section WithRuntime.
Context {RT : Runtime}.

(** The mutable state a run can touch. [chat_log] and [loop_tasks] are
    observers: the requests the provider has received, and the tasks handed to
    the event loop by [asyncio.create_task], both oldest first. *)
Record State : Type := mkState {
  _running_tasks : gmap string BgTask;
  loop_tasks : list BgTask;
  bus : list InboundMessage;
  log : list LogRecord;
  chat_log : list ChatRequest;
  world : World
}.

(** A state and exception monad. [None] means that a bounded unrolling of a
    loop ran out of steps; it is not a Python outcome. *)
Definition M (A : Type) : Type := State → option (Result A * State).

Definition ret {A} (a : A) : M A := λ st, Some (Ok a, st).

Definition raise {A} (e : string) : M A := λ st, Some (Raise e, st).

Definition out_of_fuel {A} : M A := λ _, None.

Definition bind {A B} (m : M A) (k : A → M B) : M B := λ st,
  match m st with
  | Some (Ok a, st') => k a st'
  | Some (Raise e, st') => Some (Raise e, st')
  | None => None
  end.

(** [try: body except Exception as e: handler(str(e))]. *)
Definition try_except {A} (body : M A) (handler : string → M A) : M A := λ st,
  match body st with
  | Some (Ok a, st') => Some (Ok a, st')
  | Some (Raise e, st') => handler e st'
  | None => None
  end.

Notation "x <- m ;; k" := (bind m (λ x, k))
  (at level 100, m at next level, right associativity).
Notation "m ;;; k" := (bind m (λ _, k))
  (at level 100, right associativity).

Definition set_world (w : World) (st : State) : State :=
  {| _running_tasks := _running_tasks st; loop_tasks := loop_tasks st;
     bus := bus st; log := log st; chat_log := chat_log st; world := w |}.

(** [logger.<level>(template, *args)]. *)
Definition logger (lvl : Level) (template : string) (args : list string) : M unit := λ st,
  Some (Ok tt,
        {| _running_tasks := _running_tasks st; loop_tasks := loop_tasks st;
           bus := bus st; log := log st ++ [mkLog lvl template args];
           chat_log := chat_log st; world := world st |}).

(** [await self.bus.publish_inbound(msg)]. *)
Definition publish_inbound (msg : InboundMessage) : M unit := λ st,
  Some (Ok tt,
        {| _running_tasks := _running_tasks st; loop_tasks := loop_tasks st;
           bus := bus st ++ [msg]; log := log st;
           chat_log := chat_log st; world := world st |}).

(** [await self.provider.chat(...)]. *)
Definition chat (req : ChatRequest) : M LLMResponse := λ st,
  let '(r, w) := provider_chat req (world st) in
  Some (r,
        {| _running_tasks := _running_tasks st; loop_tasks := loop_tasks st;
           bus := bus st; log := log st;
           chat_log := chat_log st ++ [req]; world := w |}).

(** [await tools.execute(name, arguments)]. *)
Definition tools_execute (tools : ToolRegistry.t) (name arguments : string) : M string := λ st,
  let '(r, w) := registry_execute tools name arguments (world st) in
  Some (Ok r, set_world w st).

(** *** Capability assembler *)

(** [self.workspace if self.restrict_to_workspace else None]. *)
Definition allowed_dir_of (self : SubagentManager) : option Path :=
  if restrict_to_workspace self then Some (workspace self) else None.

(** [ExecTool(working_dir=str(self.workspace), timeout=..., restrict_to_workspace=...)]. *)
Definition make_exec_tool (self : SubagentManager) : Tool :=
  ExecTool (workspace self) (timeout (exec_config self)) (restrict_to_workspace self).

(** [SubagentManager._register_default_subagent_tools]. *)
Definition _register_default_subagent_tools (self : SubagentManager) : ToolRegistry.t :=
  let tools := ToolRegistry.new in
  let allowed_dir := allowed_dir_of self in
  let tools := ToolRegistry.register tools (ReadFileTool (workspace self) allowed_dir) in
  let tools := ToolRegistry.register tools (WriteFileTool (workspace self) allowed_dir) in
  let tools := ToolRegistry.register tools (EditFileTool (workspace self) allowed_dir) in
  let tools := ToolRegistry.register tools (ListDirTool (workspace self) allowed_dir) in
  let tools :=
    if enabled (exec_config self)
    then ToolRegistry.register tools (make_exec_tool self)
    else tools in
  let tools := ToolRegistry.register tools (WebSearchTool (brave_api_key self)) in
  let tools := ToolRegistry.register tools WebFetchTool in
  tools.

(** The [if name == ... elif ...] chain of [_register_profile_tools]. *)
Definition register_by_name (self : SubagentManager) (name : string)
    (tools : ToolRegistry.t) : ToolRegistry.t :=
  let allowed_dir := allowed_dir_of self in
  if String.eqb name "read_file" then
    ToolRegistry.register tools (ReadFileTool (workspace self) allowed_dir)
  else if String.eqb name "write_file" then
    ToolRegistry.register tools (WriteFileTool (workspace self) allowed_dir)
  else if String.eqb name "edit_file" then
    ToolRegistry.register tools (EditFileTool (workspace self) allowed_dir)
  else if String.eqb name "list_dir" then
    ToolRegistry.register tools (ListDirTool (workspace self) allowed_dir)
  else if String.eqb name "exec" then
    ToolRegistry.register tools (make_exec_tool self)
  else if String.eqb name "web_search" then
    ToolRegistry.register tools (WebSearchTool (brave_api_key self))
  else if String.eqb name "web_fetch" then
    ToolRegistry.register tools WebFetchTool
  else tools.

(** The [for name in tool_names] loop of [_register_profile_tools]. *)
Fixpoint register_names (self : SubagentManager) (tool_names : list string)
    (tools : ToolRegistry.t) : M ToolRegistry.t :=
  match tool_names with
  | [] => ret tools
  | name :: rest =>
      if negb (PyDict.mem _TOOL_NAME_MAP name) then
        logger WARNING "Unknown tool '{}' in subagent profile, skipping" [name] ;;;
        register_names self rest tools
      else if String.eqb name "exec" && negb (enabled (exec_config self)) then
        logger DEBUG "Tool 'exec' requested by profile but globally disabled, skipping" [] ;;;
        register_names self rest tools
      else
        register_names self rest (register_by_name self name tools)
  end.

(** [SubagentManager._register_profile_tools]. *)
Definition _register_profile_tools (self : SubagentManager) (tool_names : list string)
    : M ToolRegistry.t :=
  register_names self tool_names ToolRegistry.new.

(** [SubagentManager._load_skills]. *)
Definition _load_skills (self : SubagentManager) (skill_names : list string) : M string := λ st,
  Some (load_skills_for_context (workspace self) skill_names (world st), st).

(** *** Announcement *)

(** The characters ["\n"] and the double quote. *)
Definition nl : string := String (Ascii.ascii_of_nat 10) EmptyString.
Definition dquote : string := String (Ascii.ascii_of_nat 34) EmptyString.

(** The [status_text] of [_announce_result]. *)
Definition status_text (status : string) : string :=
  if String.eqb status "ok" then "completed successfully" else "failed".

(** The [announce_content] f-string of [_announce_result]. *)
Definition announce_content (label task result status : string) : string :=
  "[Subagent '" +:+ label +:+ "' " +:+ status_text status +:+ "]" +:+ nl +:+
  nl +:+
  "Task: " +:+ task +:+ nl +:+
  nl +:+
  "Result:" +:+ nl +:+
  result +:+ nl +:+
  nl +:+
  "Summarize this naturally for the user. Keep it brief (1-2 sentences). Do not mention technical details like "
    +:+ dquote +:+ "subagent" +:+ dquote +:+ " or task IDs.".

(** The [InboundMessage] that [_announce_result] builds. *)
Definition announcement (label task result : string) (origin : Origin) (status : string)
    : InboundMessage :=
  {| channel := "system";
     sender_id := "subagent";
     chat_id := origin_channel origin +:+ ":" +:+ origin_chat_id origin;
     msg_content := announce_content label task result status |}.

(** [SubagentManager._announce_result]. *)
Definition _announce_result (self : SubagentManager) (task_id label task result : string)
    (origin : Origin) (status : string) : M unit :=
  let msg := announcement label task result origin status in
  publish_inbound msg ;;;
  logger DEBUG "Subagent [{}] announced result to {}:{}"
    [task_id; origin_channel origin; origin_chat_id origin].

(** *** System prompt *)

(** The [can_do] list of [_build_subagent_prompt]. *)
Definition can_do (has_exec has_web has_files : bool) : list string :=
  (if has_files then ["- Read and write files in the workspace"] else []) ++
  (if has_exec then ["- Execute shell commands"] else []) ++
  (if has_web then ["- Search the web and fetch web pages"] else []) ++
  ["- Complete the task thoroughly"].

(** The [cannot_do] list of [_build_subagent_prompt]. *)
Definition cannot_do (has_exec has_web has_files : bool) : list string :=
  (if has_files then [] else ["- Read or write files (no file tools available)"]) ++
  (if has_exec then [] else ["- Execute shell commands (no exec tool available)"]) ++
  (if has_web then [] else ["- Search the web or fetch web pages (no web tools available)"]) ++
  ["- Send messages directly to users (no message tool available)";
   "- Spawn other subagents";
   "- Access the main agent's conversation history"].

(** The text before the capability sections. *)
Definition prompt_head (now tz : string) : string :=
  "# Subagent" +:+ nl +:+
  nl +:+
  "## Current Time" +:+ nl +:+
  now +:+ " (" +:+ tz +:+ ")" +:+ nl +:+
  nl +:+
  "You are a subagent spawned by the main agent to complete a specific task." +:+ nl +:+
  nl +:+
  "## Rules" +:+ nl +:+
  "1. Stay focused - complete only the assigned task, nothing else" +:+ nl +:+
  "2. Your final response will be reported back to the main agent" +:+ nl +:+
  "3. Do not initiate conversations or take on side tasks" +:+ nl +:+
  "4. Be concise but informative in your findings" +:+ nl +:+
  nl.

(** The text after the capability sections. *)
Definition prompt_tail (self : SubagentManager) (skills_section : string) : string :=
  nl +:+
  nl +:+
  "## Workspace" +:+ nl +:+
  "Your workspace is at: " +:+ workspace self +:+ nl +:+
  "Skills are available at: " +:+ workspace self +:+
    "/skills/ (read SKILL.md files as needed)" +:+ skills_section +:+ nl +:+
  nl +:+
  "When you have completed the task, provide a clear summary of your findings or actions.".

(** The f-string [_build_subagent_prompt] returns, for a given clock reading. *)
Definition prompt_text (self : SubagentManager) (now tz : string)
    (has_exec has_web has_files : bool) (skills_content : string) : string :=
  let can_section := py_join nl (can_do has_exec has_web has_files) in
  let cannot_section := py_join nl (cannot_do has_exec has_web has_files) in
  let skills_section :=
    if str_truthy skills_content
    then nl +:+ nl +:+ "## Pre-loaded Skills" +:+ nl +:+ skills_content
    else "" in
  prompt_head now tz +:+
  "## What You Can Do" +:+ nl +:+
  can_section +:+ nl +:+
  nl +:+
  "## What You Cannot Do" +:+ nl +:+
  cannot_section +:+
  prompt_tail self skills_section.

(** [SubagentManager._build_subagent_prompt]. The [task] argument is not used
    by the body. *)
Definition _build_subagent_prompt (self : SubagentManager) (task : string)
    (has_exec has_web has_files : bool) (skills_content : string) : M string := λ st,
  let now := strftime_now (world st) in
  let tz := if str_truthy (strftime_tz (world st)) then strftime_tz (world st) else "UTC" in
  Some (Ok (prompt_text self now tz has_exec has_web has_files skills_content), st).

(** *** The agent loop *)

(** One entry of [tool_call_dicts]. *)
Definition tool_call_dict (tc : ToolCall) : ToolCallDict :=
  {| tcd_id := tc_id tc;
     tcd_type := "function";
     tcd_function_name := tc_name tc;
     tcd_function_arguments := tc_arguments tc |}.

(** The [for tool_call in response.tool_calls] loop: one tool-result message
    per call, in call order. *)
Fixpoint execute_tools (tools : ToolRegistry.t) (task_id : string)
    (calls : list ToolCall) (messages : list Message) : M (list Message) :=
  match calls with
  | [] => ret messages
  | tool_call :: rest =>
      let args_str := tc_arguments tool_call in
      logger DEBUG "Subagent [{}] executing: {} with arguments: {}"
        [task_id; tc_name tool_call; args_str] ;;;
      result <- tools_execute tools (tc_name tool_call) (tc_arguments tool_call) ;;
      execute_tools tools task_id rest
        (messages ++ [ToolMessage (tc_id tool_call) (tc_name tool_call) result])
  end.

(** What the [while] loop leaves behind: [iteration], [messages] and
    [final_result]. *)
Record LoopExit : Type := mkLoopExit {
  iteration : Z;
  messages : list Message;
  final_result : option string
}.

(** [while iteration < max_iterations: ...], unrolled at most [fuel] times. *)
Fixpoint agent_loop (fuel : nat) (self : SubagentManager) (tools : ToolRegistry.t)
    (model : string) (max_iterations : Z) (task_id : string)
    (iteration : Z) (messages : list Message) : M LoopExit :=
  if iteration <? max_iterations then
    match fuel with
    | O => out_of_fuel
    | S fuel' =>
        let iteration := iteration + 1 in
        response <- chat {| req_messages := messages;
                            req_tools := ToolRegistry.get_definitions tools;
                            req_model := model;
                            req_temperature := temperature self;
                            req_max_tokens := max_tokens self |} ;;
        if has_tool_calls response then
          let tool_call_dicts := map tool_call_dict (tool_calls response) in
          let messages :=
            (messages ++
               [AssistantMessage (default "" (r_content response)) tool_call_dicts])%list in
          messages <- execute_tools tools task_id (tool_calls response) messages ;;
          agent_loop fuel' self tools model max_iterations task_id iteration messages
        else
          (* final_result = response.content; break *)
          ret (mkLoopExit iteration messages (r_content response))
    end
  else
    ret (mkLoopExit iteration messages None).

(** The text announced when [final_result is None] after the loop. *)
Definition exhausted_text (max_iterations : Z) : string :=
  "Task did NOT complete: the subagent ran out of iterations " +:+
  "(max " +:+ py_str_int max_iterations +:+ "). The task may need to be broken into " +:+
  "smaller pieces, or the iteration limit needs to be increased.".

(** What the [try] block has established when it reaches the loop. *)
Record RunSetup : Type := mkRunSetup {
  run_model : string;
  run_max_iterations : Z;
  run_tools : ToolRegistry.t;
  run_messages : list Message
}.

(** The [try] block of [_run_subagent] up to the loop: profile, model,
    iteration limit, tools, skills, capability flags, prompt, messages. *)
Definition prepare (self : SubagentManager) (task : string) (profile : option string)
    : M RunSetup :=
  (* Resolve profile config *)
  let profile_config : option SubagentProfile :=
    match profile with
    | Some p => if str_truthy p then subagent_profiles self !! p else None
    | None => None
    end in
  (* Determine model and iteration limit *)
  let model' :=
    match profile_config with
    | Some pc => if opt_str_truthy (p_model pc) then default "" (p_model pc) else model self
    | None => model self
    end in
  let max_iterations :=
    match profile_config with
    | Some pc => p_max_iterations pc
    | None => default_max_iterations self
    end in
  (* Build tools *)
  tools <- match profile_config with
           | Some (mkProfile _ _ (Some (n :: ns)) _) => _register_profile_tools self (n :: ns)
           | _ => ret (_register_default_subagent_tools self)
           end ;;
  (* Load skills content if profile specifies them *)
  skills_content <- match profile_config with
                    | Some (mkProfile _ _ _ (Some (s :: ss))) => _load_skills self (s :: ss)
                    | _ => ret ""
                    end ;;
  (* Determine capability flags from registered tools *)
  let has_exec := ToolRegistry.has tools "exec" in
  let has_web := ToolRegistry.has tools "web_search" || ToolRegistry.has tools "web_fetch" in
  let has_files := ToolRegistry.has tools "read_file" || ToolRegistry.has tools "write_file" in
  (* Build messages with subagent-specific prompt *)
  system_prompt <- _build_subagent_prompt self task has_exec has_web has_files skills_content ;;
  ret {| run_model := model';
         run_max_iterations := max_iterations;
         run_tools := tools;
         run_messages := [SystemMessage system_prompt; UserMessage task] |}.

(** The loop of a run: [iteration = 0], then the [while]. *)
Definition run_loop (self : SubagentManager) (task_id : string) (setup : RunSetup)
    : M LoopExit :=
  agent_loop (Z.to_nat (run_max_iterations setup)) self (run_tools setup) (run_model setup)
    (run_max_iterations setup) task_id 0 (run_messages setup).

(** The [try] block of [_run_subagent] after the loop:
    [if final_result is None: ... else: ...]. *)
Definition conclude (self : SubagentManager) (task_id task label : string)
    (origin : Origin) (max_iterations : Z) (final_result : option string) : M unit :=
  match final_result with
  | None =>
      logger WARNING "Subagent [{}] exhausted max iterations ({})"
        [task_id; py_str_int max_iterations] ;;;
      _announce_result self task_id label task (exhausted_text max_iterations) origin "error"
  | Some final =>
      logger INFO "Subagent [{}] completed successfully" [task_id] ;;;
      _announce_result self task_id label task final origin "ok"
  end.

(** The body of the [try] block of [_run_subagent]. *)
Definition run_body (self : SubagentManager) (task_id task label : string)
    (origin : Origin) (profile : option string) : M unit :=
  setup <- prepare self task profile ;;
  exit <- run_loop self task_id setup ;;
  conclude self task_id task label origin (run_max_iterations setup) (final_result exit).

(** [SubagentManager._run_subagent]. *)
Definition _run_subagent (self : SubagentManager) (task_id task label : string)
    (origin : Origin) (profile : option string) : M unit :=
  logger INFO "Subagent [{}] starting task: {}" [task_id; label] ;;;
  try_except
    (run_body self task_id task label origin profile)
    (λ e,
      let error_msg := "Error: " +:+ e in
      logger ERROR "Subagent [{}] failed: {}" [task_id; e] ;;;
      _announce_result self task_id label task error_msg origin "error").

(** *** Spawning and the live-task map *)

(** [asyncio.create_task(coro)]. *)
Definition create_task (bg : BgTask) : M unit := λ st,
  Some (Ok tt,
        {| _running_tasks := _running_tasks st; loop_tasks := loop_tasks st ++ [bg];
           bus := bus st; log := log st; chat_log := chat_log st; world := world st |}).

(** [self._running_tasks[task_id] = bg_task]. *)
Definition running_tasks_set (task_id : string) (bg : BgTask) : M unit := λ st,
  Some (Ok tt,
        {| _running_tasks := <[task_id := bg]> (_running_tasks st);
           loop_tasks := loop_tasks st;
           bus := bus st; log := log st; chat_log := chat_log st; world := world st |}).

(** [str(uuid.uuid4())]. *)
Definition uuid4 : M string := λ st,
  let '(u, w) := uuid4_str (world st) in Some (Ok u, set_world w st).

(** [", ".join(sorted(self.subagent_profiles)) or "(none)"]. *)
Definition available_profiles (self : SubagentManager) : string :=
  let joined := py_join ", " (py_sorted (elements (dom (subagent_profiles self)))) in
  if str_truthy joined then joined else "(none)".

(** [profile and profile not in self.subagent_profiles]. *)
Definition unknown_profile (self : SubagentManager) (profile : option string) : bool :=
  match profile with
  | Some p => str_truthy p && negb (bool_decide (is_Some (subagent_profiles self !! p)))
  | None => false
  end.

(** [label or task[:30] + ("..." if len(task) > 30 else "")]. *)
Definition display_label_of (task : string) (label : option string) : string :=
  if opt_str_truthy label then default "" label
  else py_slice_to 30 task +:+ (if (30 <? String.length task)%nat then "..." else "").

(** [SubagentManager.spawn]. *)
Definition spawn (self : SubagentManager) (task : string) (label : option string)
    (origin_channel origin_chat_id : string) (profile : option string) : M string :=
  if unknown_profile self profile then
    ret ("Error: Unknown profile '" +:+ default "" profile +:+
         "'. Available profiles: " +:+ available_profiles self)
  else
    u <- uuid4 ;;
    let task_id := py_slice_to 8 u in
    let display_label := display_label_of task label in
    let origin := {| origin_channel := origin_channel; origin_chat_id := origin_chat_id |} in
    (* Create background task *)
    let bg_task := mkBgTask task_id task display_label origin profile in
    create_task bg_task ;;;
    running_tasks_set task_id bg_task ;;;
    (* Cleanup when done: the callback is [done_callback] below *)
    let profile_hint :=
      if opt_str_truthy profile then ", profile: " +:+ default "" profile else "" in
    logger INFO "Spawned subagent [{}{}]: {}" [task_id; profile_hint; display_label] ;;;
    ret ("Subagent [" +:+ display_label +:+ "] started (id: " +:+ task_id +:+
         "). I'll notify you when it completes.").

(** The done-callback [lambda _: self._running_tasks.pop(task_id, None)]. *)
Definition done_callback (bg : BgTask) : M unit := λ st,
  Some (Ok tt,
        {| _running_tasks := delete (bg_task_id bg) (_running_tasks st);
           loop_tasks := loop_tasks st;
           bus := bus st; log := log st; chat_log := chat_log st; world := world st |}).

(** The coroutine a [BgTask] wraps. *)
Definition coroutine (self : SubagentManager) (bg : BgTask) : M unit :=
  _run_subagent self (bg_task_id bg) (bg_task bg) (bg_label bg) (bg_origin bg) (bg_profile bg).

(** What the event loop does with a task: it runs the coroutine to its end
    and then, whatever the outcome, the task's done-callbacks. *)
Definition run_task (self : SubagentManager) (bg : BgTask) : M unit := λ st,
  match coroutine self bg st with
  | Some (_, st') => done_callback bg st'
  | None => None
  end.


End WithRuntime.
End Subagent.

(** *** Scripted environments *)

Module SubagentExamples.
Import Subagent.

(** A scripted provider: the responses still to give, and what it answers
    once the script is used up. *)
Record ScriptWorld : Type := mkScript {
  script : list (Result LLMResponse);
  otherwise : Result LLMResponse
}.

Definition scripted_chat (req : ChatRequest) (w : ScriptWorld)
    : Result LLMResponse * ScriptWorld :=
  match script w with
  | [] => (otherwise w, w)
  | r :: rest => (r, {| script := rest; otherwise := otherwise w |})
  end.

Definition scripted : Runtime :=
  {| World := ScriptWorld;
     provider_chat := scripted_chat;
     registry_execute := λ _ name _ w, ("ran " +:+ name, w);
     load_skills_for_context := λ _ _ _, Ok "";
     strftime_now := λ _, "2026-01-05 09:00 (Monday)";
     strftime_tz := λ _, "UTC";
     uuid4_str := λ w, ("3f2b8c1e-5a7d-4e9f-8b6a-1c2d3e4f5a6b", w) |}.

(** A provider that asks for a web search on every call. *)
Definition search_call : LLMResponse :=
  mkResponse None true [mkToolCall "call_1" "web_search" "{}"].

Definition always_tools : Runtime :=
  {| World := unit;
     provider_chat := λ _ w, (Ok search_call, w);
     registry_execute := λ _ name _ w, ("ran " +:+ name, w);
     load_skills_for_context := λ _ _ _, Ok "";
     strftime_now := λ _, "2026-01-05 09:00 (Monday)";
     strftime_tz := λ _, "UTC";
     uuid4_str := λ w, ("3f2b8c1e-5a7d-4e9f-8b6a-1c2d3e4f5a6b", w) |}.

Definition research : SubagentProfile :=
  mkProfile None 3 (Some ["web_search"]) None.

Definition ops : SubagentProfile :=
  mkProfile None 2 (Some ["exec"; "telnet"; "read_file"]) None.

(** A manager with two profiles and shell execution globally disabled. *)
Definition example_manager : SubagentManager :=
  {| workspace := "/ws";
     model := "default-model";
     temperature := FloatLit "0.7";
     max_tokens := 4096;
     brave_api_key := None;
     exec_config := mkExecConfig false 60;
     restrict_to_workspace := false;
     subagent_profiles := <["research" := research]> (<["ops" := ops]> ∅);
     default_max_iterations := 15 |}.

Definition example_origin : Origin := mkOrigin "cli" "direct".

Definition initial_state {RT : Runtime} (w : World) : State :=
  {| _running_tasks := ∅; loop_tasks := []; bus := []; log := [];
     chat_log := []; world := w |}.

End SubagentExamples.

(** ** webhook.py *)

Module Webhook.
Import Subagent.

(** A decoded JSON value, as [json.loads] returns it. A float is carried as
    its [repr] and whether it is zero; an object as the dict it decodes to. *)
#[warnings="-register-all"]
Inductive Json : Type :=
| JNull
| JBool (b : bool)
| JInt (n : Z)
| JFloat (zero : bool) (repr : string)
| JString (s : string)
| JArray (items : list Json)
| JObject (members : PyDict.t Json).

(** [bool(v)]. *)
Definition json_truthy (v : Json) : bool :=
  match v with
  | JNull => false
  | JBool b => b
  | JInt n => negb (n =? 0)
  | JFloat zero _ => negb zero
  | JString s => str_truthy s
  | JArray items => list_truthy items
  | JObject members => list_truthy members
  end.

(** [d.get(key)]: [None] when the key is missing. *)
Definition json_get (members : PyDict.t Json) (key : string) : Json :=
  default JNull (PyDict.get members key).

(** [str(v)], as an f-string and [loguru] format a value. [repr] gives the
    text of floats, lists and dicts. *)
Definition py_format (repr : Json → string) (v : Json) : string :=
  match v with
  | JNull => "None"
  | JBool true => "True"
  | JBool false => "False"
  | JInt n => py_str_int n
  | JString s => s
  | _ => repr v
  end.

(** [s[n:]]. *)
Definition py_slice_from (n : nat) (s : string) : string :=
  String.substring n (String.length s - n) s.

(** The attributes of a [WebhookServer] that the handlers read. *)
Record WebhookServer : Type := mkServer {
  host : string;
  port : Z;
  secret : string;
  ephemeral : bool;
  default_channel : string;
  default_chat_id : string
}.

(** [WebhookServer.__init__]; [token] is what [secrets.token_urlsafe(24)]
    returns when it is called. *)
Definition init (host : string) (port : Z) (secret default_channel default_chat_id : string)
    (token : string) : WebhookServer :=
  if str_truthy secret then
    {| host := host; port := port; secret := secret; ephemeral := false;
       default_channel := default_channel; default_chat_id := default_chat_id |}
  else
    {| host := host; port := port; secret := token; ephemeral := true;
       default_channel := default_channel; default_chat_id := default_chat_id |}.

(** What a handler reads of a request: the [Authorization] header, if any, and
    what [await request.json()] gives. *)
Record Request : Type := mkRequest {
  authorization : option string;
  json_body : Result Json
}.

(** [web.json_response(payload, status=...)] with a one-entry payload. *)
Record Response : Type := mkJsonResponse {
  status : Z;
  payload_key : string;
  payload_value : string
}.

(** The bus and the log. *)
Record State : Type := mkHookState {
  bus : list InboundMessage;
  log : list LogRecord
}.

(** [isinstance(v, str)]. *)
Definition json_is_str (v : Json) : bool :=
  match v with
  | JString _ => true
  | _ => false
  end.

(** The text of a value that is a [str]. *)
Definition json_text (v : Json) : string :=
  match v with
  | JString s => s
  | _ => ""
  end.

(** [type(v).__name__]. *)
Definition py_type_name (v : Json) : string :=
  match v with
  | JNull => "NoneType"
  | JBool _ => "bool"
  | JInt _ => "int"
  | JFloat _ _ => "float"
  | JString _ => "str"
  | JArray _ => "list"
  | JObject _ => "dict"
  end.

(** The rest of [_handle_notify] once [body] is known to be a dict. *)
Definition notify_body (repr : Json → string) (self : WebhookServer)
    (body : PyDict.t Json) (st : State) : Result Response * State :=
  let message := json_get body "message" in
  if negb (json_truthy message) || negb (json_is_str message) then
    (Ok (mkJsonResponse 400 "error" "missing or invalid 'message' field"), st)
  else
    let channel :=
      if json_truthy (json_get body "channel") then json_get body "channel"
      else JString (default_channel self) in
    let chat_id :=
      if json_truthy (json_get body "chat_id") then json_get body "chat_id"
      else JString (default_chat_id self) in
    if negb (json_truthy channel) || negb (json_truthy chat_id) then
      (Ok (mkJsonResponse 400 "error"
             "no destination: provide 'channel' and 'chat_id' in payload or configure defaults"),
       st)
    else
      (* Publish to bus as a system-channel message *)
      let msg :=
        {| channel := "system";
           sender_id := "webhook";
           chat_id := py_format repr channel +:+ ":" +:+ py_format repr chat_id;
           msg_content := json_text message |} in
      (Ok (mkJsonResponse 202 "status" "accepted"),
       {| bus := bus st ++ [msg];
          log := log st ++
            [mkLog DEBUG "Webhook accepted message for {}:{}"
               [py_format repr channel; py_format repr chat_id]] |}).

(** [WebhookServer._handle_notify]. A decoded body that is not a dict has no
    [get]: the [AttributeError] leaves the handler. *)
Definition _handle_notify (repr : Json → string) (self : WebhookServer) (request : Request)
    (st : State) : Result Response * State :=
  (* Auth *)
  let auth := default "" (authorization request) in
  if negb (py_startswith "Bearer " auth) || negb (String.eqb (py_slice_from 7 auth) (secret self))
  then (Ok (mkJsonResponse 401 "error" "unauthorized"), st)
  else
    (* Parse body *)
    match json_body request with
    | Raise _ => (Ok (mkJsonResponse 400 "error" "invalid JSON body"), st)
    | Ok (JObject body) => notify_body repr self body st
    | Ok v => (Raise ("'" +:+ py_type_name v +:+ "' object has no attribute 'get'"), st)
    end.

(** [WebhookServer._handle_health]. *)
Definition _handle_health (self : WebhookServer) (request : Request) : Response :=
  mkJsonResponse 200 "status" "ok".

End Webhook.

(** ** examples/tools/notes.py *)

Module NotesPlugin.

Section SafeName.
(** [c.isalnum()] for a one-character string. *)
Variable isalnum : Ascii.ascii → bool.

(** [c in "-_ "]. *)
Definition in_extra (c : Ascii.ascii) : bool :=
  existsb (Ascii.eqb c) (String.list_ascii_of_string "-_ ").

(** [c.isalnum() or c in "-_ "]. *)
Definition kept (c : Ascii.ascii) : bool := isalnum c || in_extra c.

(** [safe_name] of [SaveNoteTool.execute]:
    ["".join(c if c.isalnum() or c in "-_ " else "_" for c in title)]. *)
Fixpoint safe_name (title : string) : string :=
  match title with
  | EmptyString => ""
  | String c rest => (if kept c then String c "" else "_") +:+ safe_name rest
  end.

(** The file name the note is written under, inside the notes directory:
    [f"{safe_name}.md"]. *)
Definition note_file_name (title : string) : string := safe_name title +:+ ".md".

End SafeName.
End NotesPlugin.


(** * Properties *)

(** ** Dictionaries *)

Module PyDictFacts.
Section Facts.
Context {V : Type}.
Implicit Types (d : PyDict.t V) (k : string) (v : V).

Lemma get_set_eq d k v : PyDict.get (PyDict.set d k v) k = Some v.
Proof.
  induction d as [|[k' v'] d IH]; simpl.
  - by rewrite decide_True.
  - destruct (decide (k' = k)) as [->|Hne]; simpl.
    + by rewrite decide_True.
    + by rewrite decide_False.
Qed.

Lemma get_set_ne d k k' v : k ≠ k' → PyDict.get (PyDict.set d k v) k' = PyDict.get d k'.
Proof.
  intros Hne. induction d as [|[k0 v0] d IH]; simpl.
  - by rewrite decide_False.
  - destruct (decide (k0 = k)) as [->|Hne0]; simpl.
    + by rewrite !decide_False.
    + destruct (decide (k0 = k')); [done | apply IH].
Qed.

Lemma mem_true d k : PyDict.mem d k = true ↔ is_Some (PyDict.get d k).
Proof.
  unfold PyDict.mem. destruct (PyDict.get d k) as [v|]; split; intros H.
  - by exists v.
  - done.
  - done.
  - by destruct H.
Qed.

Lemma mem_false d k : PyDict.mem d k = false ↔ PyDict.get d k = None.
Proof. unfold PyDict.mem. by destruct (PyDict.get d k). Qed.

End Facts.
End PyDictFacts.

(** ** The plugin loader *)

Module PluginFacts.
Import Plugins.

Global Instance Result_eq_dec {A} `{EqDecision A} : EqDecision (Result A).
Proof. solve_decision. Defined.
Global Instance Ctor_eq_dec : EqDecision Ctor.
Proof. solve_decision. Defined.
Global Instance PluginClass_eq_dec : EqDecision PluginClass.
Proof. solve_decision. Defined.
Global Instance PluginFile_eq_dec : EqDecision PluginFile.
Proof. solve_decision. Defined.

Global Instance path_le_trans : Transitive path_le.
Proof. intros a b c. unfold path_le. apply transitivity. Qed.
Global Instance path_le_total : Total path_le.
Proof. intros a b. unfold path_le. apply total, _. Qed.

(** *** What a file offers *)

(** A class is a candidate when [_load_file] tries to instantiate it: a
    concrete subclass of [Tool] other than [Tool] itself. *)
Definition candidate (cls : PluginClass) : bool :=
  cls_is_tool_subclass cls && negb (cls_is_tool cls) && negb (cls_is_abstract cls).

(** A file is an entry point when [load] imports it and the import gives a
    module. *)
Definition entry_point (f : PluginFile) : bool :=
  negb (py_startswith "_" (file_name f)) && file_has_spec f.

(** [_load_file] builds an instance of the class and cannot read its name. *)
Definition name_fails (self : PluginLoader) (cls : PluginClass) : bool :=
  candidate cls &&
  match _instantiate self cls with
  | Ok instance =>
      match inst_name instance with
      | Ok _ => false
      | Raise _ => true
      end
  | Raise _ => false
  end.

(** The scan of a class list gets past all of [classes]: none of them stops
    it. *)
Definition scan_passes (self : PluginLoader) (classes : list PluginClass) : bool :=
  forallb (λ cls, negb (name_fails self cls)) classes.

(** The tools the scan of a class list comes to, in class order; it ends at the
    first instance whose name cannot be read. *)
Fixpoint scan_tools (self : PluginLoader) (classes : list PluginClass) : list Tool :=
  match classes with
  | [] => []
  | cls :: rest =>
      if candidate cls then
        match _instantiate self cls with
        | Ok instance =>
            match inst_name instance with
            | Ok name => plugin_tool instance name :: scan_tools self rest
            | Raise _ => []
            end
        | Raise _ => scan_tools self rest
        end
      else scan_tools self rest
  end.

(** How the scan of a class list ends. *)
Fixpoint scan_outcome (self : PluginLoader) (classes : list PluginClass) : Result unit :=
  match classes with
  | [] => Ok tt
  | cls :: rest =>
      if candidate cls then
        match _instantiate self cls with
        | Ok instance =>
            match inst_name instance with
            | Ok _ => scan_outcome self rest
            | Raise e => Raise e
            end
        | Raise _ => scan_outcome self rest
        end
      else scan_outcome self rest
  end.

(** The tools a file contributes, in class order. *)
Definition file_tools (self : PluginLoader) (f : PluginFile) : list Tool :=
  if entry_point f then
    match file_exec_module f with
    | Ok classes => scan_tools self classes
    | Raise _ => []
    end
  else [].

(** Insertion that never overwrites. *)
Definition add_first (tools : PyDict.t Tool) (t : Tool) : PyDict.t Tool :=
  if PyDict.mem tools (tool_name t) then tools else PyDict.set tools (tool_name t) t.

(** The first tool of a list with a given name. *)
Definition first_named (n : string) (ts : list Tool) : option Tool :=
  List.find (λ t, bool_decide (tool_name t = n)) ts.

Lemma get_add_first tools t n :
  PyDict.get (add_first tools t) n =
    match PyDict.get tools n with
    | Some x => Some x
    | None => if decide (tool_name t = n) then Some t else None
    end.
Proof.
  unfold add_first. destruct (PyDict.mem tools (tool_name t)) eqn:Hm.
  - apply PyDictFacts.mem_true in Hm as [x Hx].
    destruct (PyDict.get tools n) eqn:Hn; [done|].
    destruct (decide (tool_name t = n)) as [<-|]; [congruence | done].
  - apply PyDictFacts.mem_false in Hm.
    destruct (decide (tool_name t = n)) as [<-|Hne].
    + by rewrite PyDictFacts.get_set_eq, Hm.
    + rewrite PyDictFacts.get_set_ne by done. by destruct (PyDict.get tools n).
Qed.

Lemma get_foldl_add_first ts tools n :
  PyDict.get (foldl add_first tools ts) n =
    match PyDict.get tools n with
    | Some x => Some x
    | None => first_named n ts
    end.
Proof.
  revert tools. induction ts as [|t ts IH]; intros tools; simpl.
  - by destruct (PyDict.get tools n).
  - rewrite IH, get_add_first. destruct (PyDict.get tools n); [done|].
    unfold bool_decide. by destruct (decide_rel eq (tool_name t) n).
Qed.


Lemma first_named_Some n ts t : first_named n ts = Some t → t ∈ ts ∧ tool_name t = n.
Proof.
  unfold first_named. intros [Hin Hb]%find_some. split.
  - by apply list_elem_of_In.
  - by apply bool_decide_eq_true in Hb.
Qed.

Lemma first_named_None n ts t : first_named n ts = None → t ∈ ts → tool_name t ≠ n.
Proof.
  unfold first_named. intros Hnone Hin%list_elem_of_In.
  by apply (find_none _ _ Hnone), bool_decide_eq_false in Hin.
Qed.

(** *** The scan of a class list *)

Lemma plugin_tool_name instance n : tool_name (plugin_tool instance n) = n.
Proof. done. Qed.

(** A candidate is what passes the two [continue] tests of the loop. *)
Lemma candidate_tests cls :
  candidate cls =
    negb (negb (cls_is_tool_subclass cls) || cls_is_tool cls) && negb (cls_is_abstract cls).
Proof.
  unfold candidate.
  by destruct (cls_is_tool_subclass cls), (cls_is_tool cls), (cls_is_abstract cls).
Qed.

(** One step of [load_classes], by what the head class is. *)
Lemma load_classes_skip self fname cls rest tools env :
  candidate cls = false →
  load_classes self fname (cls :: rest) tools env = load_classes self fname rest tools env.
Proof.
  rewrite candidate_tests. simpl.
  destruct (negb (cls_is_tool_subclass cls) || cls_is_tool cls); [done|].
  by destruct (cls_is_abstract cls).
Qed.

Lemma load_classes_candidate self fname cls rest tools env :
  candidate cls = true →
  load_classes self fname (cls :: rest) tools env =
    match _instantiate self cls with
    | Ok instance =>
        match inst_name instance with
        | Ok name =>
            if PyDict.mem tools name then
              load_classes self fname rest tools
                (emit (mkLog DEBUG "Duplicate plugin tool name '{}' in {} -- skipped"
                         [name; fname]) env)
            else
              load_classes self fname rest
                (PyDict.set tools name (plugin_tool instance name)) env
        | Raise e => (Raise e, tools, env)
        end
    | Raise e =>
        load_classes self fname rest tools
          (emit (mkLog WARNING "Failed to instantiate {} from {}: {}"
                   [cls_name cls; fname; e]) env)
    end.
Proof.
  rewrite candidate_tests. simpl.
  destruct (negb (cls_is_tool_subclass cls) || cls_is_tool cls); [done|].
  by destruct (cls_is_abstract cls).
Qed.

Lemma scan_passes_app self l1 l2 :
  scan_passes self (l1 ++ l2) = scan_passes self l1 && scan_passes self l2.
Proof. unfold scan_passes. apply forallb_app. Qed.

Lemma scan_tools_app self pre rest :
  scan_passes self pre = true →
  scan_tools self (pre ++ rest) = scan_tools self pre ++ scan_tools self rest.
Proof.
  induction pre as [|c pre IH]; [done|]. simpl. unfold name_fails.
  destruct (candidate c); simpl; [|exact IH].
  destruct (_instantiate self c) as [instance|e]; [|exact IH].
  destruct (inst_name instance) as [n|e]; simpl; [|done].
  intros Hp. by rewrite IH.
Qed.

Lemma scan_tools_reached self pre cls post instance n :
  scan_passes self pre = true → candidate cls = true →
  _instantiate self cls = Ok instance → inst_name instance = Ok n →
  plugin_tool instance n ∈ scan_tools self (pre ++ cls :: post).
Proof.
  intros Hp Hc Hi Hn. rewrite scan_tools_app by done. apply elem_of_app. right.
  simpl. rewrite Hc, Hi, Hn. left.
Qed.

Lemma scan_tools_elem_of self classes t :
  t ∈ scan_tools self classes →
  ∃ pre cls post instance,
    classes = pre ++ cls :: post ∧ scan_passes self pre = true ∧ candidate cls = true ∧
    _instantiate self cls = Ok instance ∧ inst_name instance = Ok (tool_name t) ∧
    t = plugin_tool instance (tool_name t).
Proof.
  induction classes as [|c classes IH]; [by intros ?%elem_of_nil|]. simpl.
  assert (scan_passes self [c] = true →
          t ∈ scan_tools self classes →
          ∃ pre cls post instance,
            c :: classes = pre ++ cls :: post ∧ scan_passes self pre = true ∧
            candidate cls = true ∧ _instantiate self cls = Ok instance ∧
            inst_name instance = Ok (tool_name t) ∧ t = plugin_tool instance (tool_name t))
    as Hlater.
  { intros Hc Hin. destruct (IH Hin) as (pre & cls & post & instance & -> & Hp & Hrest).
    exists (c :: pre), cls, post, instance. split; [done|]. split; [|done].
    change (c :: pre) with ([c] ++ pre). by rewrite scan_passes_app, Hc, Hp. }
  unfold scan_passes, name_fails in Hlater. simpl in Hlater.
  destruct (candidate c) eqn:Hcand; [|by apply Hlater].
  destruct (_instantiate self c) as [instance|e] eqn:Hi; [|by apply Hlater].
  destruct (inst_name instance) as [n|e] eqn:Hn; [|by intros ?%elem_of_nil].
  intros [->|Hin]%elem_of_cons; [|by apply Hlater].
  exists [], c, classes, instance. by rewrite plugin_tool_name.
Qed.

Lemma scan_outcome_passes self classes :
  scan_outcome self classes = Ok tt ↔ scan_passes self classes = true.
Proof.
  induction classes as [|c classes IH]; [done|]. simpl. unfold name_fails.
  destruct (candidate c); simpl; [|exact IH].
  destruct (_instantiate self c) as [instance|e]; [|exact IH].
  destruct (inst_name instance) as [n|e]; simpl; [exact IH | done].
Qed.

Lemma scan_outcome_app self pre rest :
  scan_passes self pre = true →
  scan_outcome self (pre ++ rest) = scan_outcome self rest.
Proof.
  induction pre as [|c pre IH]; [done|]. simpl. unfold name_fails.
  destruct (candidate c); simpl; [|exact IH].
  destruct (_instantiate self c) as [instance|e]; [|exact IH].
  destruct (inst_name instance) as [n|e]; simpl; [exact IH | done].
Qed.

Lemma scan_cut self pre cls post instance e :
  scan_passes self pre = true → candidate cls = true →
  _instantiate self cls = Ok instance → inst_name instance = Raise e →
  scan_tools self (pre ++ cls :: post) = scan_tools self pre
  ∧ scan_outcome self (pre ++ cls :: post) = Raise e.
Proof.
  intros Hp Hc Hi Hn. split.
  - rewrite scan_tools_app by done. simpl. by rewrite Hc, Hi, Hn, app_nil_r.
  - rewrite scan_outcome_app by done. simpl. by rewrite Hc, Hi, Hn.
Qed.

(** *** The loops as folds *)

Lemma load_classes_tools self fname classes tools env :
  (load_classes self fname classes tools env).1.2 =
    foldl add_first tools (scan_tools self classes).
Proof.
  revert tools env. induction classes as [|cls classes IH]; intros tools env; [done|].
  destruct (candidate cls) eqn:Hc.
  - rewrite load_classes_candidate by done. simpl. rewrite Hc.
    destruct (_instantiate self cls) as [instance|e]; [|apply IH].
    destruct (inst_name instance) as [n|e]; [|done].
    simpl. unfold add_first at 2. rewrite plugin_tool_name.
    destruct (PyDict.mem tools n); apply IH.
  - rewrite load_classes_skip by done. simpl. rewrite Hc. apply IH.
Qed.

Lemma load_classes_outcome self fname classes tools env :
  (load_classes self fname classes tools env).1.1 = scan_outcome self classes.
Proof.
  revert tools env. induction classes as [|cls classes IH]; intros tools env; [done|].
  destruct (candidate cls) eqn:Hc.
  - rewrite load_classes_candidate by done. simpl. rewrite Hc.
    destruct (_instantiate self cls) as [instance|e]; [|apply IH].
    destruct (inst_name instance) as [n|e]; [|done].
    destruct (PyDict.mem tools n); apply IH.
  - rewrite load_classes_skip by done. simpl. rewrite Hc. apply IH.
Qed.

Lemma load_classes_sys_path self fname classes tools env :
  sys_path (load_classes self fname classes tools env).2 = sys_path env.
Proof.
  revert tools env. induction classes as [|cls classes IH]; intros tools env; [done|].
  simpl. repeat case_match; rewrite ?IH; done.
Qed.

Lemma load_classes_log_mono self fname classes tools env r :
  r ∈ log env → r ∈ log (load_classes self fname classes tools env).2.
Proof.
  revert tools env. induction classes as [|cls classes IH]; intros tools env Hr; [done|].
  simpl. repeat case_match; try done; apply IH; simpl; set_solver.
Qed.

(** What comes after an instance whose name cannot be read has no effect:
    the scan of [pre ++ cls :: post] does what the scan of [pre] does, and
    then raises. *)
Lemma load_classes_cut self fname pre cls post instance e tools env :
  scan_passes self pre = true → candidate cls = true →
  _instantiate self cls = Ok instance → inst_name instance = Raise e →
  load_classes self fname (pre ++ cls :: post) tools env =
    (Raise e, (load_classes self fname pre tools env).1.2,
     (load_classes self fname pre tools env).2).
Proof.
  intros Hp Hc Hi Hn. revert tools env Hp.
  induction pre as [|c pre IH]; intros tools env Hp.
  - simpl app. rewrite load_classes_candidate by done. by rewrite Hi, Hn.
  - change (scan_passes self (c :: pre)) with
      (negb (name_fails self c) && scan_passes self pre) in Hp.
    apply andb_prop in Hp as [Hc0 Hp]. simpl app.
    destruct (candidate c) eqn:Hcand.
    + rewrite !(load_classes_candidate self fname c) by done.
      unfold name_fails in Hc0. rewrite Hcand in Hc0. simpl in Hc0.
      destruct (_instantiate self c) as [i0|e0]; [|by apply IH].
      destruct (inst_name i0) as [n0|e0]; [|done].
      destruct (PyDict.mem tools n0); by apply IH.
    + rewrite !(load_classes_skip self fname c) by done. by apply IH.
Qed.

Lemma load_file_tools self f tools env :
  py_startswith "_" (file_name f) = false →
  (_load_file self f tools env).1.2 = foldl add_first tools (file_tools self f).
Proof.
  intros Hp. unfold _load_file, file_tools, entry_point. rewrite Hp. simpl.
  destruct (file_has_spec f); simpl; [|done].
  destruct (file_exec_module f) as [classes|e]; simpl; [|done].
  apply load_classes_tools.
Qed.

Lemma load_file_log_mono self f tools env r :
  r ∈ log env → r ∈ log (_load_file self f tools env).2.
Proof.
  intros Hr. unfold _load_file.
  destruct (file_has_spec f); simpl; [|set_solver].
  destruct (file_exec_module f) as [classes|e]; simpl; [|done].
  by apply load_classes_log_mono.
Qed.

Lemma load_paths_tools self paths tools env :
  (load_paths self paths tools env).1 =
    foldl add_first tools (concat (file_tools self <$> paths)).
Proof.
  revert tools env. induction paths as [|f paths IH]; intros tools env; [done|].
  simpl. rewrite foldl_app.
  destruct (py_startswith "_" (file_name f)) eqn:Hp.
  - unfold file_tools at 1, entry_point. rewrite Hp. simpl. apply IH.
  - rewrite <- (load_file_tools self f tools env Hp).
    destruct (_load_file self f tools env) as [[[[]|e] tools'] env']; simpl; apply IH.
Qed.

Lemma load_paths_log_mono self paths tools env r :
  r ∈ log env → r ∈ log (load_paths self paths tools env).2.
Proof.
  revert tools env. induction paths as [|f paths IH]; intros tools env Hr; [done|].
  simpl. destruct (py_startswith "_" (file_name f)); [by apply IH|].
  pose proof (load_file_log_mono self f tools env r Hr) as Hf.
  destruct (_load_file self f tools env) as [[[[]|e] tools'] env']; simpl in *;
    apply IH; simpl; set_solver.
Qed.



Lemma mem_foldl_offered ts tools t :
  t ∈ ts → PyDict.mem (foldl add_first tools ts) (tool_name t) = true.
Proof.
  intros Hin. rewrite PyDictFacts.mem_true, get_foldl_add_first.
  destruct (PyDict.get tools (tool_name t)); [by eexists|].
  destruct (first_named (tool_name t) ts) eqn:Hf; [by eexists|].
  by destruct (first_named_None _ _ _ Hf Hin).
Qed.

Lemma file_tools_offers self f pre cls post instance n :
  entry_point f = true → file_exec_module f = Ok (pre ++ cls :: post) →
  scan_passes self pre = true → candidate cls = true →
  _instantiate self cls = Ok instance → inst_name instance = Ok n →
  plugin_tool instance n ∈ file_tools self f.
Proof.
  intros He Hm Hp Hc Hi Hn. unfold file_tools. rewrite He, Hm.
  by apply scan_tools_reached.
Qed.

Lemma concat_file_tools_offers self (paths : list PluginFile) f t :
  f ∈ paths → t ∈ file_tools self f → t ∈ concat (file_tools self <$> paths).
Proof.
  intros Hf Ht. apply list_elem_of_In, in_concat. exists (file_tools self f). split.
  - apply list_elem_of_In. by apply list_elem_of_fmap_2.
  - by apply list_elem_of_In.
Qed.

(** *** Diagnostics of the loops *)

Lemma load_classes_logs_failure self fname pre cls post tools env e :
  scan_passes self pre = true → candidate cls = true → _instantiate self cls = Raise e →
  mkLog WARNING "Failed to instantiate {} from {}: {}" [cls_name cls; fname; e]
    ∈ log (load_classes self fname (pre ++ cls :: post) tools env).2.
Proof.
  intros Hp Hc Hi. revert tools env Hp.
  induction pre as [|c pre IH]; intros tools env Hp.
  - simpl app. rewrite load_classes_candidate by done. rewrite Hi.
    apply load_classes_log_mono. simpl. set_solver.
  - change (scan_passes self (c :: pre)) with
      (negb (name_fails self c) && scan_passes self pre) in Hp.
    apply andb_prop in Hp as [Hc0 Hp]. simpl app.
    destruct (candidate c) eqn:Hcand.
    + rewrite (load_classes_candidate self fname c) by done.
      unfold name_fails in Hc0. rewrite Hcand in Hc0. simpl in Hc0.
      destruct (_instantiate self c) as [i0|e0]; [|by apply IH].
      destruct (inst_name i0) as [n0|e0]; [|done].
      destruct (PyDict.mem tools n0); by apply IH.
    + rewrite (load_classes_skip self fname c) by done. by apply IH.
Qed.


Lemma load_paths_logs_import_failure self paths tools env f e :
  f ∈ paths → entry_point f = true → file_exec_module f = Raise e →
  mkLog WARNING "Failed to load plugin {}: {}" [file_name f; e]
    ∈ log (load_paths self paths tools env).2.
Proof.
  intros Hin He Hm. revert tools env.
  induction paths as [|g paths IH]; intros tools env; [by apply elem_of_nil in Hin|].
  apply elem_of_cons in Hin as [<-|Hin].
  - simpl. unfold entry_point in He. apply andb_prop in He as [Hp Hs].
    apply negb_true_iff in Hp. rewrite Hp. unfold _load_file. rewrite Hs, Hm. simpl.
    apply load_paths_log_mono. simpl. set_solver.
  - simpl. destruct (py_startswith "_" (file_name g)); [by apply IH|].
    destruct (_load_file self g tools env) as [[[[]|e'] tools'] env']; by apply IH.
Qed.

(** A record that the scan of one file writes is in the log of the whole
    load. *)
Lemma load_paths_logs_of_file self paths tools env f r :
  f ∈ paths → py_startswith "_" (file_name f) = false →
  (∀ tools' env', r ∈ log (_load_file self f tools' env').2) →
  r ∈ log (load_paths self paths tools env).2.
Proof.
  intros Hin Hp Hr. revert tools env.
  induction paths as [|g paths IH]; intros tools env; [by apply elem_of_nil in Hin|].
  apply elem_of_cons in Hin as [<-|Hin].
  - simpl. rewrite Hp. pose proof (Hr tools env) as Hlog.
    destruct (_load_file self f tools env) as [[[[]|e'] tools'] env']; simpl in Hlog;
      apply load_paths_log_mono; simpl; set_solver.
  - simpl. destruct (py_startswith "_" (file_name g)); [by apply IH|].
    destruct (_load_file self g tools env) as [[[[]|e'] tools'] env']; by apply IH.
Qed.

Lemma load_paths_logs_instantiate_failure self paths tools env f pre cls post e :
  f ∈ paths → entry_point f = true → file_exec_module f = Ok (pre ++ cls :: post) →
  scan_passes self pre = true → candidate cls = true → _instantiate self cls = Raise e →
  mkLog WARNING "Failed to instantiate {} from {}: {}" [cls_name cls; file_name f; e]
    ∈ log (load_paths self paths tools env).2.
Proof.
  intros Hin He Hm Hpre Hc Hi.
  unfold entry_point in He. apply andb_prop in He as [Hp%negb_true_iff Hs].
  apply (load_paths_logs_of_file self paths tools env f); [done..|].
  intros tools' env'. unfold _load_file. rewrite Hs, Hm. simpl.
  by apply load_classes_logs_failure.
Qed.

Lemma load_paths_logs_name_failure self paths tools env f pre cls post instance e :
  f ∈ paths → entry_point f = true → file_exec_module f = Ok (pre ++ cls :: post) →
  scan_passes self pre = true → candidate cls = true →
  _instantiate self cls = Ok instance → inst_name instance = Raise e →
  mkLog WARNING "Failed to load plugin {}: {}" [file_name f; e]
    ∈ log (load_paths self paths tools env).2.
Proof.
  intros Hin He Hm Hpre Hc Hi Hn. revert tools env.
  unfold entry_point in He. apply andb_prop in He as [Hp%negb_true_iff Hs].
  induction paths as [|g paths IH]; intros tools env; [by apply elem_of_nil in Hin|].
  apply elem_of_cons in Hin as [<-|Hin].
  - simpl. rewrite Hp. unfold _load_file. rewrite Hs, Hm. simpl.
    rewrite (load_classes_cut self (file_name f) pre cls post instance e) by done.
    apply load_paths_log_mono. simpl. set_solver.
  - simpl. destruct (py_startswith "_" (file_name g)); [by apply IH|].
    destruct (_load_file self g tools env) as [[[[]|e'] tools'] env']; by apply IH.
Qed.


(** *** The cold path of [load] *)

Lemma load_cold self files env :
  _cache self = None →
  (load self (Some files) env).1.1 =
    foldl add_first PyDict.empty (concat (file_tools self <$> sorted_paths files)).
Proof.
  intros Hc. unfold load. rewrite Hc.
  rewrite <- load_paths_tools with (env :=
    if decide (tools_dir self ∈ sys_path env) then env
    else {| sys_path := tools_dir self :: sys_path env; log := log env |}).
  by destruct (load_paths _ _ _ _).
Qed.

Lemma load_cold_log self files env :
  _cache self = None →
  ∃ env1, log env1 = log env ∧
    (load self (Some files) env).2 =
      (load_paths self (sorted_paths files) PyDict.empty env1).2 ∧
    (load self (Some files) env).1.1 =
      (load_paths self (sorted_paths files) PyDict.empty env1).1.
Proof.
  intros Hc. unfold load. rewrite Hc.
  eexists (if decide (tools_dir self ∈ sys_path env) then env
           else {| sys_path := tools_dir self :: sys_path env; log := log env |}).
  split; [by case_decide|].
  by destruct (load_paths _ _ _ _).
Qed.

Lemma sorted_paths_elem_of files f : f ∈ sorted_paths files ↔ f ∈ files.
Proof. unfold sorted_paths. by rewrite merge_sort_Permutation. Qed.


(** *** Merging into a registry *)

(** Every key of the dict is the name of the tool it holds. *)
Definition keyed_by_name (d : PyDict.t Tool) : Prop :=
  Forall (λ kt, kt.1 = tool_name kt.2) d.

Lemma keyed_by_name_set d t :
  keyed_by_name d → keyed_by_name (PyDict.set d (tool_name t) t).
Proof.
  unfold keyed_by_name. induction d as [|[k v] d IH]; intros Hd; simpl.
  - by repeat constructor.
  - inversion Hd; subst. case_decide; constructor; auto.
Qed.

Lemma keyed_by_name_foldl ts d :
  keyed_by_name d → keyed_by_name (foldl add_first d ts).
Proof.
  revert d. induction ts as [|t ts IH]; intros d Hd; [done|].
  simpl. apply IH. unfold add_first. case_match; [done|]. by apply keyed_by_name_set.
Qed.

Lemma load_cold_keyed self files env :
  _cache self = None → keyed_by_name (load self (Some files) env).1.1.
Proof.
  intros Hc. rewrite load_cold by done. apply keyed_by_name_foldl. constructor.
Qed.

Lemma load_missing_dir self env :
  _cache self = None → (load self None env).1.1 = PyDict.empty.
Proof. intros Hc. unfold load. by rewrite Hc. Qed.





(** *** The first file wins *)


End PluginFacts.

(** ** Claims about the plugin loader *)

Module PluginClaims.
Import Plugins PluginFacts PluginExamples.

(** C9. Loading is memoized for the lifetime of a loader: whatever the loader's
    state, the first [load] returns a mapping and leaves a loader for which
    every later [load] returns that same mapping and that same loader, without
    looking at the directory (the result does not depend on it) and without
    touching [sys.path] or the log. *)
Theorem load_memoized (self : PluginLoader) (dir : ToolsDir) (env : Env) :
  ∀ (dir' : ToolsDir) (env' : Env),
    load (load self dir env).1.2 dir' env' =
      ((load self dir env).1.1, (load self dir env).1.2, env').
Proof.
  intros dir' env'. unfold load at 1.
  assert (_cache (load self dir env).1.2 = Some (load self dir env).1.1) as ->; [|done].
  unfold load. destruct (_cache self) as [cached|] eqn:Hc; [done|].
  destruct dir as [files|]; [|done].
  by destruct (load_paths _ _ _ _).
Qed.

(** C8, as the code has it. Import failures and construction failures are
    isolated; a failure to read the name of an instance is isolated from the
    other files only. With the tools directory present:
    - a candidate class that the scan of its file reaches, that can be built
      and whose name can be read has its name bound in the result, whatever
      the other files, and the other classes of its file, do; the scan reaches
      a class when no class before it in the file gave an instance whose name
      cannot be read;
    - a file that raises during import leaves a "Failed to load plugin"
      warning;
    - a class that is reached and raises during construction leaves a "Failed
      to instantiate" warning;
    - an instance that is reached and whose name cannot be read leaves a
      "Failed to load plugin" warning for its file, and [_load_file] does with
      the file what it does with the classes before that one, and raises: the
      classes after it are not loaded.
    With the directory missing the result is empty and nothing is scanned or
    logged. *)
Theorem load_isolates_failures (self : PluginLoader) (files : list PluginFile) (env : Env) :
  _cache self = None →
  (∀ f pre cls post instance n,
      f ∈ files → entry_point f = true → file_exec_module f = Ok (pre ++ cls :: post) →
      scan_passes self pre = true → candidate cls = true →
      _instantiate self cls = Ok instance → inst_name instance = Ok n →
      PyDict.mem (load self (Some files) env).1.1 n = true)
  ∧ (∀ f e,
      f ∈ files → entry_point f = true → file_exec_module f = Raise e →
      mkLog WARNING "Failed to load plugin {}: {}" [file_name f; e]
        ∈ log (load self (Some files) env).2)
  ∧ (∀ f pre cls post e,
      f ∈ files → entry_point f = true → file_exec_module f = Ok (pre ++ cls :: post) →
      scan_passes self pre = true → candidate cls = true →
      _instantiate self cls = Raise e →
      mkLog WARNING "Failed to instantiate {} from {}: {}" [cls_name cls; file_name f; e]
        ∈ log (load self (Some files) env).2)
  ∧ (∀ f pre cls post instance e,
      f ∈ files → entry_point f = true → file_exec_module f = Ok (pre ++ cls :: post) →
      scan_passes self pre = true → candidate cls = true →
      _instantiate self cls = Ok instance → inst_name instance = Raise e →
      mkLog WARNING "Failed to load plugin {}: {}" [file_name f; e]
        ∈ log (load self (Some files) env).2
      ∧ ∀ tools env',
          _load_file self f tools env' =
            (Raise e,
             (_load_file self (mkFile (file_name f) true (Ok pre)) tools env').1.2,
             (_load_file self (mkFile (file_name f) true (Ok pre)) tools env').2))
  ∧ (load self None env).1.1 = PyDict.empty
  ∧ (load self None env).2 = env.
Proof.
  intros Hc. split; [|split; [|split; [|split; [|split]]]].
  - intros f pre cls post instance n Hf He Hm Hpre Hcand Hi Hn.
    rewrite load_cold by done.
    rewrite <- (plugin_tool_name instance n). apply mem_foldl_offered.
    apply (concat_file_tools_offers self _ f).
    + by apply sorted_paths_elem_of.
    + by apply (file_tools_offers self f pre cls post).
  - intros f e Hf He Hm.
    destruct (load_cold_log self files env Hc) as (env1 & _ & -> & _).
    apply load_paths_logs_import_failure; [by apply sorted_paths_elem_of|done..].
  - intros f pre cls post e Hf He Hm Hpre Hcand Hi.
    destruct (load_cold_log self files env Hc) as (env1 & _ & -> & _).
    eapply load_paths_logs_instantiate_failure; [by apply sorted_paths_elem_of|done..].
  - intros f pre cls post instance e Hf He Hm Hpre Hcand Hi Hn. split.
    + destruct (load_cold_log self files env Hc) as (env1 & _ & -> & _).
      eapply load_paths_logs_name_failure; [by apply sorted_paths_elem_of|done..].
    + intros tools env'. unfold entry_point in He.
      apply andb_prop in He as [_ Hs]. unfold _load_file. rewrite Hs, Hm. simpl.
      by apply (load_classes_cut self (file_name f) pre cls post instance).
  - by apply load_missing_dir.
  - unfold load. by rewrite Hc.
Qed.

Lemma load_isolates_failures_witness :
  PyDict.mem
    (load example_loader (Some [mixed_py; flaky_py; greet_py; broken_py]) empty_env).1.1
    "roll_dice" = true
  ∧ mkLog WARNING "Failed to instantiate {} from {}: {}"
      ["FailingTool"; "mixed.py"; "cannot connect"]
      ∈ log (load example_loader (Some [mixed_py; flaky_py; greet_py; broken_py])
               empty_env).2
  ∧ mkLog WARNING "Failed to load plugin {}: {}" ["flaky.py"; "'name'"]
      ∈ log (load example_loader (Some [mixed_py; flaky_py; greet_py; broken_py])
               empty_env).2.
Proof.
  destruct (load_isolates_failures example_loader [mixed_py; flaky_py; greet_py; broken_py]
              empty_env eq_refl) as (Hbound & _ & Hctor & Hname & _).
  split; [|split].
  - apply (Hbound mixed_py [] DiceTool [FailingTool; ToolBase]
             (mkInstance "DiceTool" (Ok "roll_dice") None) "roll_dice");
      [by repeat constructor | reflexivity..].
  - apply (Hctor mixed_py [DiceTool] FailingTool [ToolBase] "cannot connect");
      [by repeat constructor | reflexivity..].
  - apply (Hname flaky_py [] NamelessTool [ToolBase; ZTool]
             (mkInstance "NamelessTool" (Raise "'name'") None) "'name'");
      [by repeat constructor | reflexivity..].
Defined.

(** C8, as stated, fails: not every failure of a tool type is isolated from
    the remaining types. [ZTool] is a concrete tool class that is built
    without error and has a name; a directory that holds it in a file of its
    own loads it. In [flaky.py] it comes after a class whose instance has no
    readable name: that one failure ends the scan of the file, [ZTool] is not
    loaded, and the log has the one record of the file's failure and none for
    [ZTool]. *)
Lemma name_failure_counterexample :
  candidate ZTool = true
  ∧ _instantiate example_loader ZTool = Ok (mkInstance "ZTool" (Ok "ztool") None)
  ∧ (load example_loader (Some [ztool_py; greet_py]) empty_env).1.1 =
      [("greet", PluginTool "GreetTool" "greet" (Some example_context));
       ("ztool", PluginTool "ZTool" "ztool" None)]
  ∧ file_exec_module flaky_py = Ok [NamelessTool; ToolBase; ZTool]
  ∧ (load example_loader (Some [flaky_py; greet_py]) empty_env).1.1 =
      [("greet", PluginTool "GreetTool" "greet" (Some example_context))]
  ∧ log (load example_loader (Some [flaky_py; greet_py]) empty_env).2 =
      [mkLog WARNING "Failed to load plugin {}: {}" ["flaky.py"; "'name'"]].
Proof. repeat split; vm_compute; reflexivity. Qed.



End PluginClaims.

(** ** The subagent manager *)

Module SubagentFacts.
Import Subagent.

Section Facts.
Context {RT : Runtime}.
Implicit Types (st : State) (self : SubagentManager).

(** *** What a step may change *)

(** Only the log grows. *)
Definition quiet (st st' : State) : Prop :=
  _running_tasks st' = _running_tasks st ∧ loop_tasks st' = loop_tasks st ∧
  bus st' = bus st ∧ chat_log st' = chat_log st ∧ world st' = world st ∧
  ∃ l, log st' = log st ++ l.

(** The live-task map, the created tasks and the bus are untouched, and the
    log and the provider's history only grow. *)
Definition frame (st st' : State) : Prop :=
  _running_tasks st' = _running_tasks st ∧ loop_tasks st' = loop_tasks st ∧
  bus st' = bus st ∧ (∃ l, log st' = log st ++ l) ∧
  ∃ c, chat_log st' = chat_log st ++ c.

Lemma quiet_refl st : quiet st st.
Proof. repeat split; try done. exists []. by rewrite app_nil_r. Qed.

Lemma quiet_trans st1 st2 st3 : quiet st1 st2 → quiet st2 st3 → quiet st1 st3.
Proof.
  intros (? & ? & ? & ? & ? & l1 & Hl1) (? & ? & ? & ? & ? & l2 & Hl2).
  repeat split; try congruence. exists (l1 ++ l2). rewrite Hl2, Hl1. by rewrite app_assoc.
Qed.

Lemma frame_refl st : frame st st.
Proof. repeat split; try done; exists []; by rewrite app_nil_r. Qed.

Lemma frame_trans st1 st2 st3 : frame st1 st2 → frame st2 st3 → frame st1 st3.
Proof.
  intros (? & ? & ? & (l1 & Hl1) & c1 & Hc1) (? & ? & ? & (l2 & Hl2) & c2 & Hc2).
  repeat split; try congruence.
  - exists (l1 ++ l2). rewrite Hl2, Hl1. by rewrite app_assoc.
  - exists (c1 ++ c2). rewrite Hc2, Hc1. by rewrite app_assoc.
Qed.

Lemma quiet_frame st st' : quiet st st' → frame st st'.
Proof.
  intros (? & ? & ? & Hc & ? & ?). repeat split; try done.
  exists []. by rewrite app_nil_r.
Qed.

Lemma quiet_log_mono st st' r : quiet st st' → r ∈ log st → r ∈ log st'.
Proof. intros (_ & _ & _ & _ & _ & l & ->) ?. set_solver. Qed.

Lemma frame_log_mono st st' r : frame st st' → r ∈ log st → r ∈ log st'.
Proof. intros (_ & _ & _ & (l & ->) & _) ?. set_solver. Qed.

Lemma logger_spec lvl template args st :
  ∃ st', logger lvl template args st = Some (Ok tt, st') ∧ quiet st st' ∧
         log st' = log st ++ [mkLog lvl template args].
Proof. eexists. split; [done|]. split; [|done]. repeat split; try done. by eexists. Qed.

(** *** The capability assembler *)

Lemma register_names_spec self names tools st :
  ∃ tools' st', register_names self names tools st = Some (Ok tools', st') ∧ quiet st st'.
Proof.
  revert tools st. induction names as [|name names IH]; intros tools st.
  - exists tools, st. split; [done | apply quiet_refl].
  - simpl. destruct (negb (PyDict.mem _TOOL_NAME_MAP name)).
    { unfold bind.
      destruct (logger_spec WARNING "Unknown tool '{}' in subagent profile, skipping"
                  [name] st) as (st1 & -> & Hq & _).
      destruct (IH tools st1) as (tools' & st' & -> & Hq').
      exists tools', st'. split; [done | by eapply quiet_trans]. }
    destruct (String.eqb name "exec" && negb (enabled (exec_config self))).
    { unfold bind.
      destruct (logger_spec DEBUG
                  "Tool 'exec' requested by profile but globally disabled, skipping"
                  [] st) as (st1 & -> & Hq & _).
      destruct (IH tools st1) as (tools' & st' & -> & Hq').
      exists tools', st'. split; [done | by eapply quiet_trans]. }
    apply IH.
Qed.

(** The names a registry can hold after [register_by_name]. *)
Lemma has_register r t n :
  ToolRegistry.has (ToolRegistry.register r t) n =
    bool_decide (tool_name t = n) || ToolRegistry.has r n.
Proof.
  unfold ToolRegistry.has, ToolRegistry.register, PyDict.mem.
  destruct (decide (tool_name t = n)) as [<-|Hne].
  - by rewrite PyDictFacts.get_set_eq, bool_decide_eq_true_2.
  - by rewrite PyDictFacts.get_set_ne, bool_decide_eq_false_2.
Qed.

Lemma has_register_by_name self name r n :
  ToolRegistry.has (register_by_name self name r) n = true →
  ToolRegistry.has r n = true ∨ (n = name ∧ PyDict.mem _TOOL_NAME_MAP name = true).
Proof.
  unfold register_by_name.
  repeat (destruct (String.eqb name _) eqn:E;
    [ apply String.eqb_eq in E; subst name; rewrite has_register;
      intros [Hn%bool_decide_eq_true| ->]%orb_prop; simpl in *; subst; auto
    | clear E ]).
  auto.
Qed.

Lemma register_names_has self names tools st tools' st' n :
  register_names self names tools st = Some (Ok tools', st') →
  ToolRegistry.has tools' n = true →
  ToolRegistry.has tools n = true ∨
  (n ∈ names ∧ PyDict.mem _TOOL_NAME_MAP n = true ∧
   (n = "exec" → enabled (exec_config self) = true)).
Proof.
  revert tools st. induction names as [|name names IH]; intros tools st Hrun Hhas.
  - injection Hrun as <- <-. by left.
  - simpl in Hrun. destruct (negb (PyDict.mem _TOOL_NAME_MAP name)) eqn:Hknown.
    { unfold bind in Hrun. simpl in Hrun.
      destruct (IH _ _ Hrun Hhas) as [?|(? & ? & ?)]; [by left|right].
      split; [by right|done]. }
    destruct (String.eqb name "exec" && negb (enabled (exec_config self))) eqn:Hgate.
    { unfold bind in Hrun. simpl in Hrun.
      destruct (IH _ _ Hrun Hhas) as [?|(? & ? & ?)]; [by left|right].
      split; [by right|done]. }
    destruct (IH _ _ Hrun Hhas) as [Hreg|(? & ? & ?)]; [|right; split; [by right|done]].
    apply has_register_by_name in Hreg as [?|[-> Hmem]]; [by left|right].
    split; [by left|]. split; [done|]. intros ->. simpl in Hgate.
    by destruct (enabled (exec_config self)).
Qed.

Lemma has_new n : ToolRegistry.has ToolRegistry.new n = false.
Proof. done. Qed.

Lemma register_names_logs_unknown self names tools st tools' st' name :
  register_names self names tools st = Some (Ok tools', st') →
  name ∈ names → PyDict.mem _TOOL_NAME_MAP name = false →
  mkLog WARNING "Unknown tool '{}' in subagent profile, skipping" [name] ∈ log st'.
Proof.
  revert tools st. induction names as [|name0 names IH]; intros tools st Hrun Hin Hmem;
    [by apply elem_of_nil in Hin|].
  simpl in Hrun. apply elem_of_cons in Hin as [<-|Hin].
  - rewrite Hmem in Hrun. simpl in Hrun. unfold bind in Hrun. simpl in Hrun.
    destruct (register_names_spec self names tools
                {| _running_tasks := _running_tasks st; loop_tasks := loop_tasks st;
                   bus := bus st;
                   log := log st ++
                     [mkLog WARNING "Unknown tool '{}' in subagent profile, skipping" [name]];
                   chat_log := chat_log st; world := world st |})
      as (t2 & st2 & Heq & Hq).
    rewrite Heq in Hrun. injection Hrun as <- <-.
    eapply quiet_log_mono; [done|]. simpl. set_solver.
  - destruct (negb (PyDict.mem _TOOL_NAME_MAP name0)).
    { unfold bind in Hrun. simpl in Hrun. by eapply IH. }
    destruct (String.eqb name0 "exec" && negb (enabled (exec_config self))).
    { unfold bind in Hrun. simpl in Hrun. by eapply IH. }
    by eapply IH.
Qed.

Lemma register_names_logs_exec self names tools st tools' st' :
  register_names self names tools st = Some (Ok tools', st') →
  "exec" ∈ names → enabled (exec_config self) = false →
  mkLog DEBUG "Tool 'exec' requested by profile but globally disabled, skipping" []
    ∈ log st'.
Proof.
  revert tools st. induction names as [|name0 names IH]; intros tools st Hrun Hin Hoff;
    [by apply elem_of_nil in Hin|].
  simpl in Hrun. apply elem_of_cons in Hin as [<-|Hin].
  - rewrite Hoff in Hrun. simpl in Hrun. unfold bind in Hrun. simpl in Hrun.
    destruct (register_names_spec self names tools
                {| _running_tasks := _running_tasks st; loop_tasks := loop_tasks st;
                   bus := bus st;
                   log := log st ++
                     [mkLog DEBUG
                        "Tool 'exec' requested by profile but globally disabled, skipping" []];
                   chat_log := chat_log st; world := world st |})
      as (t2 & st2 & Heq & Hq).
    rewrite Heq in Hrun. injection Hrun as <- <-.
    eapply quiet_log_mono; [done|]. simpl. set_solver.
  - destruct (negb (PyDict.mem _TOOL_NAME_MAP name0)).
    { unfold bind in Hrun. simpl in Hrun. by eapply IH. }
    destruct (String.eqb name0 "exec" && negb (enabled (exec_config self))).
    { unfold bind in Hrun. simpl in Hrun. by eapply IH. }
    by eapply IH.
Qed.

Lemma default_tools_has_exec self :
  ToolRegistry.has (_register_default_subagent_tools self) "exec" = enabled (exec_config self).
Proof.
  unfold _register_default_subagent_tools. by destruct (enabled (exec_config self)).
Qed.

(** *** The run up to the loop *)

(** [self.subagent_profiles.get(profile) if profile else None]. *)
Definition profile_config_of self (profile : option string) : option SubagentProfile :=
  match profile with
  | Some p => if str_truthy p then subagent_profiles self !! p else None
  | None => None
  end.

(** The whitelist the run uses, when it uses one. *)
Definition whitelist_of (pc : option SubagentProfile) : option (list string) :=
  match pc with
  | Some (mkProfile _ _ (Some (n :: ns)) _) => Some (n :: ns)
  | _ => None
  end.

(** The iteration bound of the run. *)
Definition max_iterations_of self (profile : option string) : Z :=
  match profile_config_of self profile with
  | Some pc => p_max_iterations pc
  | None => default_max_iterations self
  end.

Lemma prepare_spec self task profile st :
  ∃ r st', prepare self task profile st = Some (r, st') ∧ quiet st st' ∧
    ∀ setup, r = Ok setup →
      run_max_iterations setup = max_iterations_of self profile ∧
      (∃ now tz skills_content,
          run_messages setup =
            [SystemMessage
               (prompt_text self now tz
                  (ToolRegistry.has (run_tools setup) "exec")
                  (ToolRegistry.has (run_tools setup) "web_search" ||
                   ToolRegistry.has (run_tools setup) "web_fetch")
                  (ToolRegistry.has (run_tools setup) "read_file" ||
                   ToolRegistry.has (run_tools setup) "write_file")
                  skills_content);
             UserMessage task]) ∧
      match whitelist_of (profile_config_of self profile) with
      | Some names =>
          ∃ st1, _register_profile_tools self names st = Some (Ok (run_tools setup), st1) ∧
                 quiet st1 st'
      | None => run_tools setup = _register_default_subagent_tools self
      end.
Proof.
  unfold prepare, max_iterations_of. fold (profile_config_of self profile).
  set (pc := profile_config_of self profile).
  assert (∃ tools st1,
    (match pc with
     | Some (mkProfile _ _ (Some (n :: ns)) _) => _register_profile_tools self (n :: ns)
     | _ => ret (_register_default_subagent_tools self)
     end) st = Some (Ok tools, st1) ∧ quiet st st1 ∧
    match whitelist_of pc with
    | Some names => _register_profile_tools self names st = Some (Ok tools, st1)
    | None => tools = _register_default_subagent_tools self
    end) as (tools & st1 & Htools & Hq1 & Hsrc).
  { destruct pc as [[? ? [[|n ns]|] ?]|]; simpl;
      try (eexists _, st; split; [done|]; split; [apply quiet_refl | done]).
    destruct (register_names_spec self (n :: ns) ToolRegistry.new st)
      as (tools & st1 & Hrun & Hq).
    by exists tools, st1. }
  unfold bind at 1. rewrite Htools.
  assert (∃ r,
    (match pc with
     | Some (mkProfile _ _ _ (Some (s :: ss))) => _load_skills self (s :: ss)
     | _ => ret ""
     end) st1 = Some (r, st1)) as [rs Hskills].
  { destruct pc as [[? ? ? [[|sk ss]|]]|]; by eexists. }
  unfold bind at 1. rewrite Hskills.
  destruct rs as [skills_content|e].
  - unfold bind, _build_subagent_prompt, ret. simpl.
    eexists _, st1. split; [done|]. split; [done|].
    intros setup [= <-]. simpl. split; [done|]. split; [by eexists _, _, _|].
    destruct (whitelist_of pc); [|done]. exists st1. split; [done | apply quiet_refl].
  - eexists _, st1. split; [done|]. split; [done|]. intros setup [=].
Qed.

(** *** The loop *)

(** The request of an iteration that starts with [messages]. *)
Definition request_of self (tools : ToolRegistry.t) (model : string)
    (messages : list Message) : ChatRequest :=
  {| req_messages := messages;
     req_tools := ToolRegistry.get_definitions tools;
     req_model := model;
     req_temperature := temperature self;
     req_max_tokens := max_tokens self |}.

(** The state after the provider has answered [req] and left the world [w]. *)
Definition after_chat (req : ChatRequest) (w : World) st : State :=
  {| _running_tasks := _running_tasks st; loop_tasks := loop_tasks st;
     bus := bus st; log := log st;
     chat_log := chat_log st ++ [req]; world := w |}.

Lemma chat_eq req st :
  chat req st =
    Some ((provider_chat req (world st)).1,
          after_chat req (provider_chat req (world st)).2 st).
Proof. unfold chat. by destruct (provider_chat req (world st)). Qed.

Lemma after_chat_frame req w st : frame st (after_chat req w st).
Proof. repeat split; try done; [exists [] | by eexists]. by rewrite app_nil_r. Qed.

Lemma execute_tools_spec tools task_id calls messages st :
  ∃ msgs st', execute_tools tools task_id calls messages st = Some (Ok msgs, st') ∧
    frame st st' ∧ chat_log st' = chat_log st ∧
    length msgs = (length messages + length calls)%nat.
Proof.
  revert messages st. induction calls as [|tc calls IH]; intros messages st.
  - exists messages, st. split; [done|]. split; [apply frame_refl|]. split; [done|].
    simpl. lia.
  - simpl. unfold bind at 1. simpl. unfold bind at 1. unfold tools_execute.
    destruct (registry_execute tools (tc_name tc) (tc_arguments tc) (world st))
      as [result w] eqn:Hexec. simpl. rewrite Hexec.
    match goal with |- context [execute_tools _ _ _ ?m ?s] =>
      destruct (IH m s) as (msgs & st' & -> & Hf & Hc & Hlen) end.
    exists msgs, st'. split; [done|]. split; [|split].
    + eapply frame_trans; [|done]. repeat split; try done; [by eexists|exists []].
      by rewrite app_nil_r.
    + by rewrite Hc.
    + rewrite Hlen, length_app. simpl. lia.
Qed.

Lemma agent_loop_unfold fuel self tools model max_iterations task_id iteration messages st :
  iteration < max_iterations →
  agent_loop (S fuel) self tools model max_iterations task_id iteration messages st =
    match provider_chat (request_of self tools model messages) (world st) with
    | (Ok response, w) =>
        let st1 := after_chat (request_of self tools model messages) w st in
        if has_tool_calls response then
          match execute_tools tools task_id (tool_calls response)
                  (messages ++
                     [AssistantMessage (default "" (r_content response))
                        (map tool_call_dict (tool_calls response))]) st1 with
          | Some (Ok msgs, st2) =>
              agent_loop fuel self tools model max_iterations task_id (iteration + 1) msgs st2
          | Some (Raise e, st2) => Some (Raise e, st2)
          | None => None
          end
        else Some (Ok (mkLoopExit (iteration + 1) messages (r_content response)), st1)
    | (Raise e, w) =>
        Some (Raise e, after_chat (request_of self tools model messages) w st)
    end.
Proof.
  intros Hlt. simpl. apply Z.ltb_lt in Hlt. rewrite Hlt.
  unfold bind at 1. rewrite chat_eq. fold (request_of self tools model messages).
  destruct (provider_chat (request_of self tools model messages) (world st))
    as [[response|e] w]; simpl; [|done].
  destruct (has_tool_calls response); [|done].
  unfold bind. by destruct (execute_tools _ _ _ _ _) as [[[msgs|e] st2]|].
Qed.

Lemma agent_loop_exit fuel self tools model max_iterations task_id iteration messages st :
  max_iterations ≤ iteration →
  agent_loop fuel self tools model max_iterations task_id iteration messages st =
    Some (Ok (mkLoopExit iteration messages None), st).
Proof.
  intros Hge. apply Z.ltb_ge in Hge. destruct fuel; simpl; by rewrite Hge.
Qed.

(** The loop always ends when it is given [max_iterations - iteration] steps. *)
Lemma agent_loop_total fuel self tools model max_iterations task_id iteration messages st :
  (Z.to_nat (max_iterations - iteration) ≤ fuel)%nat →
  ∃ r st', agent_loop fuel self tools model max_iterations task_id iteration messages st
             = Some (r, st') ∧ frame st st'.
Proof.
  revert iteration messages st. induction fuel as [|fuel IH]; intros iteration messages st Hf.
  - rewrite agent_loop_exit by lia. eexists _, st. split; [done | apply frame_refl].
  - destruct (decide (iteration < max_iterations)) as [Hlt|Hge].
    + rewrite agent_loop_unfold by done.
      destruct (provider_chat (request_of self tools model messages) (world st))
        as [[response|e] w].
      * simpl. destruct (has_tool_calls response).
        -- match goal with |- context [execute_tools ?a ?b ?c ?m ?s] =>
             destruct (execute_tools_spec a b c m s) as (msgs & st2 & -> & Hfr & _) end.
           destruct (IH (iteration + 1) msgs st2) as (r & st' & -> & Hfr'); [lia|].
           exists r, st'. split; [done|].
           eapply frame_trans; [apply after_chat_frame|]. by eapply frame_trans.
        -- eexists _, _. split; [done | apply after_chat_frame].
      * eexists _, _. split; [done | apply after_chat_frame].
    + rewrite agent_loop_exit by lia. eexists _, st. split; [done | apply frame_refl].
Qed.

(** A provider that always asks for tools keeps the loop going to the bound. *)
Lemma agent_loop_always_tools fuel self tools model max_iterations task_id iteration messages st :
  (∀ req w, ∃ response w', provider_chat req w = (Ok response, w') ∧
                           has_tool_calls response = true) →
  iteration ≤ max_iterations →
  (Z.to_nat (max_iterations - iteration) ≤ fuel)%nat →
  ∃ msgs st', agent_loop fuel self tools model max_iterations task_id iteration messages st
                = Some (Ok (mkLoopExit max_iterations msgs None), st') ∧
    frame st st' ∧
    length (chat_log st') = (length (chat_log st) + Z.to_nat (max_iterations - iteration))%nat.
Proof.
  intros Halways. revert iteration messages st.
  induction fuel as [|fuel IH]; intros iteration messages st Hle Hf.
  - assert (iteration = max_iterations) as -> by lia.
    rewrite agent_loop_exit by lia. eexists _, st. split; [done|].
    split; [apply frame_refl|]. rewrite Z.sub_diag. simpl. lia.
  - destruct (decide (iteration < max_iterations)) as [Hlt|Hge].
    + rewrite agent_loop_unfold by done.
      destruct (Halways (request_of self tools model messages) (world st))
        as (response & w & -> & ->). simpl.
      match goal with |- context [execute_tools ?a ?b ?c ?m ?s] =>
        destruct (execute_tools_spec a b c m s) as (msgs & st2 & -> & Hfr & Hc & _) end.
      destruct (IH (iteration + 1) msgs st2) as (msgs' & st' & -> & Hfr' & Hlen); [lia..|].
      exists msgs', st'. split; [done|]. split.
      * eapply frame_trans; [apply after_chat_frame|]. by eapply frame_trans.
      * rewrite Hlen, Hc. simpl. rewrite length_app. simpl. lia.
    + assert (iteration = max_iterations) as -> by lia.
      rewrite agent_loop_exit by lia. eexists _, st. split; [done|].
      split; [apply frame_refl|]. rewrite Z.sub_diag. simpl. lia.
Qed.

(** *** Passes of the loop that end in tool calls *)




(** *** The end of a run *)

(** The state after [logger.<..>(first)] and [_announce_result(...)]. *)
Definition after_announce (first : LogRecord) (task_id label task result : string)
    (origin : Origin) (status : string) st : State :=
  {| _running_tasks := _running_tasks st; loop_tasks := loop_tasks st;
     bus := bus st ++ [announcement label task result origin status];
     log := (log st ++ [first]) ++
            [mkLog DEBUG "Subagent [{}] announced result to {}:{}"
               [task_id; origin_channel origin; origin_chat_id origin]];
     chat_log := chat_log st; world := world st |}.

(** The state after the first line of [_run_subagent]. *)
Definition started (task_id label : string) st : State :=
  {| _running_tasks := _running_tasks st; loop_tasks := loop_tasks st;
     bus := bus st;
     log := log st ++ [mkLog INFO "Subagent [{}] starting task: {}" [task_id; label]];
     chat_log := chat_log st; world := world st |}.

Definition completed_record (task_id : string) : LogRecord :=
  mkLog INFO "Subagent [{}] completed successfully" [task_id].

Definition exhausted_record (task_id : string) (max_iterations : Z) : LogRecord :=
  mkLog WARNING "Subagent [{}] exhausted max iterations ({})"
    [task_id; py_str_int max_iterations].

Definition failed_record (task_id e : string) : LogRecord :=
  mkLog ERROR "Subagent [{}] failed: {}" [task_id; e].

Lemma started_quiet task_id label st : quiet st (started task_id label st).
Proof. repeat split; try done. by eexists. Qed.

Lemma after_announce_bus first task_id label task result origin status st :
  bus (after_announce first task_id label task result origin status st) =
    bus st ++ [announcement label task result origin status].
Proof. done. Qed.

Lemma conclude_some self task_id task label origin max_iterations final st :
  conclude self task_id task label origin max_iterations (Some final) st =
    Some (Ok tt, after_announce (completed_record task_id) task_id label task final origin
                   "ok" st).
Proof. done. Qed.

Lemma conclude_none self task_id task label origin max_iterations st :
  conclude self task_id task label origin max_iterations None st =
    Some (Ok tt, after_announce (exhausted_record task_id max_iterations) task_id label task
                   (exhausted_text max_iterations) origin "error" st).
Proof. done. Qed.

(** [_run_subagent] in terms of its [try] block. *)
Lemma run_subagent_eq self task_id task label origin profile st :
  _run_subagent self task_id task label origin profile st =
    match run_body self task_id task label origin profile (started task_id label st) with
    | Some (Ok a, st') => Some (Ok a, st')
    | Some (Raise e, st') =>
        Some (Ok tt, after_announce (failed_record task_id e) task_id label task
                       ("Error: " +:+ e) origin "error" st')
    | None => None
    end.
Proof.
  unfold _run_subagent, bind, try_except. simpl. fold (started task_id label st).
  by destruct (run_body _ _ _ _ _ _ _) as [[[[]|e] st']|].
Qed.

(** [run_body] in terms of its three parts. *)
Lemma run_body_eq self task_id task label origin profile st :
  run_body self task_id task label origin profile st =
    match prepare self task profile st with
    | Some (Ok setup, st1) =>
        match run_loop self task_id setup st1 with
        | Some (Ok exit, st2) =>
            conclude self task_id task label origin (run_max_iterations setup)
              (final_result exit) st2
        | Some (Raise e, st2) => Some (Raise e, st2)
        | None => None
        end
    | Some (Raise e, st1) => Some (Raise e, st1)
    | None => None
    end.
Proof.
  unfold run_body, bind.
  destruct (prepare self task profile st) as [[[setup|e] st1]|]; [|done..].
  by destruct (run_loop self task_id setup st1) as [[[exit|e] st2]|].
Qed.

Lemma run_loop_total self task_id setup st :
  ∃ r st', run_loop self task_id setup st = Some (r, st') ∧ frame st st'.
Proof. unfold run_loop. apply agent_loop_total. lia. Qed.

(** Every run returns normally, having published exactly one announcement and
    left the live-task map and the created tasks alone. *)
Lemma run_subagent_spec self task_id task label origin profile st :
  ∃ msg st', _run_subagent self task_id task label origin profile st = Some (Ok tt, st') ∧
    bus st' = bus st ++ [msg] ∧
    _running_tasks st' = _running_tasks st ∧ loop_tasks st' = loop_tasks st.
Proof.
  rewrite run_subagent_eq, run_body_eq.
  destruct (prepare_spec self task profile (started task_id label st))
    as (r & st1 & -> & Hq & _).
  apply quiet_frame in Hq.
  pose proof (quiet_frame _ _ (started_quiet task_id label st)) as Hq0.
  pose proof (frame_trans _ _ _ Hq0 Hq) as (Ht1 & Hl1 & Hb1 & _).
  destruct r as [setup|e].
  - destruct (run_loop_total self task_id setup st1) as (r & st2 & -> & Hf).
    destruct Hf as (Ht2 & Hl2 & Hb2 & _).
    destruct r as [exit|e].
    + destruct (final_result exit) as [final|].
      * rewrite conclude_some. eexists _, _. split; [done|]. simpl.
        by rewrite Hb2, Hb1, Ht2, Ht1, Hl2, Hl1.
      * rewrite conclude_none. eexists _, _. split; [done|]. simpl.
        by rewrite Hb2, Hb1, Ht2, Ht1, Hl2, Hl1.
    + eexists _, _. split; [done|]. simpl. by rewrite Hb2, Hb1, Ht2, Ht1, Hl2, Hl1.
  - eexists _, _. split; [done|]. simpl. by rewrite Hb1, Ht1, Hl1.
Qed.

(** *** Spawning *)

Lemma unknown_profile_true self p :
  p ≠ "" → subagent_profiles self !! p = None → unknown_profile self (Some p) = true.
Proof.
  intros Hp Hnone. unfold unknown_profile. rewrite Hnone.
  destruct p; [done|]. reflexivity.
Qed.

Lemma unknown_profile_known self p :
  is_Some (subagent_profiles self !! p) → unknown_profile self (Some p) = false.
Proof.
  intros Hknown. unfold unknown_profile.
  destruct (str_truthy p); simpl; [|done]. by rewrite bool_decide_eq_true_2.
Qed.

(** The task that [spawn] creates in state [st]. *)
Definition spawned_task (task : string) (label : option string)
    (origin_channel origin_chat_id : string) (profile : option string) st : BgTask :=
  mkBgTask (py_slice_to 8 (uuid4_str (world st)).1) task (display_label_of task label)
    (mkOrigin origin_channel origin_chat_id) profile.

Lemma spawn_started self task label oc ocid profile st :
  unknown_profile self profile = false →
  let bg := spawned_task task label oc ocid profile st in
  ∃ st', spawn self task label oc ocid profile st =
           Some (Ok ("Subagent [" +:+ bg_label bg +:+ "] started (id: " +:+ bg_task_id bg +:+
                     "). I'll notify you when it completes."), st')
    ∧ loop_tasks st' = loop_tasks st ++ [bg]
    ∧ _running_tasks st' = <[bg_task_id bg := bg]> (_running_tasks st)
    ∧ bus st' = bus st ∧ chat_log st' = chat_log st.
Proof.
  intros Hknown bg. unfold spawn. rewrite Hknown.
  unfold bind at 1. unfold uuid4. subst bg. unfold spawned_task.
  destruct (uuid4_str (world st)) as [u w]. simpl.
  eexists. split; [reflexivity|]. done.
Qed.

Lemma spawn_rejected self task label oc ocid profile st :
  unknown_profile self profile = true →
  spawn self task label oc ocid profile st =
    Some (Ok ("Error: Unknown profile '" +:+ default "" profile +:+
              "'. Available profiles: " +:+ available_profiles self), st).
Proof. intros Hunknown. unfold spawn. by rewrite Hunknown. Qed.

(** *** Strings *)

Lemma append_cons a (s1 s2 : string) : String a s1 +:+ s2 = String a (s1 +:+ s2).
Proof. reflexivity. Qed.

Lemma append_nil_l (s : string) : "" +:+ s = s.
Proof. reflexivity. Qed.

Lemma append_nil_r (s : string) : s +:+ "" = s.
Proof. induction s as [|a s IH]; [done|]. by rewrite append_cons, IH. Qed.

Lemma append_assoc (s1 s2 s3 : string) : (s1 +:+ s2) +:+ s3 = s1 +:+ (s2 +:+ s3).
Proof.
  induction s1 as [|a s1 IH]; [by rewrite !append_nil_l|]. by rewrite !append_cons, IH.
Qed.

Lemma append_empty (s1 s2 : string) : s1 +:+ s2 = "" → s1 = "" ∧ s2 = "".
Proof. destruct s1; [by rewrite append_nil_l | by rewrite append_cons]. Qed.

(** [q] occurs in [s]. *)
Definition occurs_in (q s : string) : Prop := ∃ pre post, s = pre +:+ q +:+ post.

Lemma py_join_occurs sep (l : list string) q : q ∈ l → occurs_in q (py_join sep l).
Proof.
  induction l as [|x l IH]; intros Hin; [by apply elem_of_nil in Hin|].
  apply elem_of_cons in Hin as [->|Hin].
  - destruct l as [|y l]; simpl.
    + exists "", "". by rewrite append_nil_l, append_nil_r.
    + by exists "", (sep +:+ py_join sep (y :: l)).
  - destruct (IH Hin) as (pre & post & Heq).
    destruct l as [|y l]; [by apply elem_of_nil in Hin|].
    change (py_join sep (x :: y :: l)) with (x +:+ sep +:+ py_join sep (y :: l)).
    rewrite Heq. exists (x +:+ sep +:+ pre), post. by rewrite !append_assoc.
Qed.

Lemma available_profiles_names self q :
  is_Some (subagent_profiles self !! q) → occurs_in q (available_profiles self).
Proof.
  intros Hq. unfold available_profiles.
  assert (q ∈ py_sorted (elements (dom (subagent_profiles self)))) as Hin.
  { unfold py_sorted. rewrite merge_sort_Permutation. by apply elem_of_elements, elem_of_dom. }
  pose proof (py_join_occurs ", " _ q Hin) as Hocc.
  destruct (py_join ", " _) as [|a joined] eqn:Hj; [|done].
  destruct Hocc as (pre & post & Heq). symmetry in Heq.
  apply append_empty in Heq as [-> [-> ->]%append_empty].
  by exists "", "(none)".
Qed.

End Facts.
End SubagentFacts.

(** ** Claims about the subagent manager *)

Module SubagentClaims.
Import Subagent SubagentFacts SubagentExamples.

Section Claims.
Context {RT : Runtime}.
Implicit Types (st : State) (self : SubagentManager).

(** A first response without tool calls ends the loop at once: [final_result]
    is its content, null or not. *)
Lemma first_response_ends_loop self task_id task label origin profile st setup st1 response w :
  prepare self task profile (started task_id label st) = Some (Ok setup, st1) →
  1 ≤ run_max_iterations setup →
  provider_chat (request_of self (run_tools setup) (run_model setup) (run_messages setup))
    (world st1) = (Ok response, w) →
  has_tool_calls response = false →
  let first := request_of self (run_tools setup) (run_model setup) (run_messages setup) in
  run_loop self task_id setup st1 =
    Some (Ok (mkLoopExit 1 (run_messages setup) (r_content response)), after_chat first w st1)
  ∧ chat_log (after_chat first w st1) = chat_log st ++ [first]
  ∧ _run_subagent self task_id task label origin profile st =
      conclude self task_id task label origin (run_max_iterations setup) (r_content response)
        (after_chat first w st1).
Proof.
  intros Hprep Hmax Hchat Hcalls first.
  assert (run_loop self task_id setup st1 =
    Some (Ok (mkLoopExit 1 (run_messages setup) (r_content response)), after_chat first w st1))
    as Hloop.
  { unfold run_loop.
    destruct (Z.to_nat (run_max_iterations setup)) as [|fuel] eqn:Hfuel; [lia|].
    rewrite agent_loop_unfold by lia. rewrite Hchat. simpl. by rewrite Hcalls. }
  split; [done|]. split.
  - destruct (prepare_spec self task profile (started task_id label st))
      as (r & st' & Heq & Hq & _).
    rewrite Hprep in Heq. simplify_eq.
    destruct Hq as (_ & _ & _ & Hc & _). simpl. rewrite Hc. reflexivity.
  - rewrite run_subagent_eq, run_body_eq, Hprep, Hloop. simpl.
    by destruct (r_content response).
Qed.

(** C1. Loop termination with a scripted provider. For a run that reaches the
    loop with a bound of at least one: if the first response carries no tool
    calls and has content [c], the loop ends after one iteration and one
    provider call, and the run is logged and announced as completed (status
    [ok]); if every response carries tool calls, the loop ends with
    [iteration = max_iterations] after [max_iterations] provider calls, with no
    final result, and the run is logged and announced as exhausted. *)
Theorem loop_termination self task_id task label origin profile st setup st1 :
  prepare self task profile (started task_id label st) = Some (Ok setup, st1) →
  1 ≤ run_max_iterations setup →
  let first := request_of self (run_tools setup) (run_model setup) (run_messages setup) in
  (∀ response w c,
      provider_chat first (world st1) = (Ok response, w) →
      has_tool_calls response = false → r_content response = Some c →
      run_loop self task_id setup st1 =
        Some (Ok (mkLoopExit 1 (run_messages setup) (Some c)), after_chat first w st1)
      ∧ chat_log (after_chat first w st1) = chat_log st ++ [first]
      ∧ _run_subagent self task_id task label origin profile st =
          Some (Ok tt, after_announce (completed_record task_id) task_id label task c origin
                         "ok" (after_chat first w st1)))
  ∧ ((∀ req w, ∃ response w', provider_chat req w = (Ok response, w') ∧
                              has_tool_calls response = true) →
      ∃ msgs st2,
        run_loop self task_id setup st1 =
          Some (Ok (mkLoopExit (run_max_iterations setup) msgs None), st2)
        ∧ length (chat_log st2) =
            (length (chat_log st) + Z.to_nat (run_max_iterations setup))%nat
        ∧ _run_subagent self task_id task label origin profile st =
            Some (Ok tt, after_announce (exhausted_record task_id (run_max_iterations setup))
                           task_id label task (exhausted_text (run_max_iterations setup))
                           origin "error" st2)).
Proof.
  intros Hprep Hmax first. split.
  - intros response w c Hchat Hcalls Hc.
    destruct (first_response_ends_loop self task_id task label origin profile st setup st1
                response w Hprep Hmax Hchat Hcalls) as (Hloop & Hlog & Hrun).
    rewrite Hc in Hloop, Hrun. by rewrite conclude_some in Hrun.
  - intros Halways.
    destruct (agent_loop_always_tools (Z.to_nat (run_max_iterations setup)) self
                (run_tools setup) (run_model setup) (run_max_iterations setup) task_id 0
                (run_messages setup) st1 Halways) as (msgs & st2 & Hloop & _ & Hlen);
      [lia..|].
    fold (run_loop self task_id setup st1) in Hloop.
    exists msgs, st2. split; [done|]. split.
    + destruct (prepare_spec self task profile (started task_id label st))
        as (r & st' & Heq & Hq & _).
      rewrite Hprep in Heq. simplify_eq.
      destruct Hq as (_ & _ & _ & Hc & _). rewrite Hlen, Hc, Z.sub_0_r. reflexivity.
    + rewrite run_subagent_eq, run_body_eq, Hprep, Hloop. reflexivity.
Qed.


(** C2, as the code has it. A run whose loop ends without a final result is
    announced with the out-of-iterations text under the same status, [error],
    that a thrown failure is announced with; the two announcements differ in
    their result text (and in the level of their log record: a warning for
    exhaustion, an error for a thrown failure), not in their status. *)
Theorem exhaustion_shares_error_status self task_id task label origin profile st :
  (∀ setup st1 exit st2,
      prepare self task profile (started task_id label st) = Some (Ok setup, st1) →
      run_loop self task_id setup st1 = Some (Ok exit, st2) →
      final_result exit = None →
      _run_subagent self task_id task label origin profile st =
        Some (Ok tt, after_announce (exhausted_record task_id (run_max_iterations setup))
                       task_id label task (exhausted_text (run_max_iterations setup))
                       origin "error" st2))
  ∧ (∀ e st1,
      run_body self task_id task label origin profile (started task_id label st)
        = Some (Raise e, st1) →
      _run_subagent self task_id task label origin profile st =
        Some (Ok tt, after_announce (failed_record task_id e) task_id label task
                       ("Error: " +:+ e) origin "error" st1))
  ∧ (∀ max_iterations e, exhausted_text max_iterations ≠ "Error: " +:+ e)
  ∧ (∀ max_iterations e,
      log_level (exhausted_record task_id max_iterations) = WARNING ∧
      log_level (failed_record task_id e) = ERROR)
  ∧ status_text "error" = "failed".
Proof.
  split; [|split; [|split; [|split]]].
  - intros setup st1 exit st2 Hprep Hloop Hnone.
    rewrite run_subagent_eq, run_body_eq, Hprep, Hloop, Hnone. reflexivity.
  - intros e st1 Hbody. by rewrite run_subagent_eq, Hbody.
  - intros max_iterations e. unfold exhausted_text. discriminate.
  - done.
  - done.
Qed.

(** C3, as the code has it. A spawn that is accepted puts the task in the
    live-task map under its id, the first eight characters of a fresh UUID.
    From any later state in which the task is still there, its coroutine
    returns normally after publishing exactly one announcement, with the entry
    still in the map when it returns; the done-callback that the event loop
    runs next removes the entry. This covers every way the run can end:
    success, exhaustion and a thrown failure all go through [_announce_result]
    once. Until then the entry stays as long as ids do not collide: neither
    the completion of a task with another id nor a later spawn that draws
    another id touches it. [spawn] does not check that the id it draws is
    new. *)
Theorem one_announcement_then_removal self task label oc ocid profile st :
  unknown_profile self profile = false →
  ∃ ack bg st1,
    spawn self task label oc ocid profile st = Some (Ok ack, st1)
    ∧ loop_tasks st1 = loop_tasks st ++ [bg]
    ∧ _running_tasks st1 !! bg_task_id bg = Some bg
    ∧ (∀ st', _running_tasks st' !! bg_task_id bg = Some bg →
        ∃ msg st2 st3,
          coroutine self bg st' = Some (Ok tt, st2)
          ∧ bus st2 = bus st' ++ [msg]
          ∧ _running_tasks st2 !! bg_task_id bg = Some bg
          ∧ run_task self bg st' = Some (Ok tt, st3)
          ∧ bus st3 = bus st' ++ [msg]
          ∧ _running_tasks st3 = delete (bg_task_id bg) (_running_tasks st')
          ∧ _running_tasks st3 !! bg_task_id bg = None)
    ∧ (∀ bg' st' st'',
          bg_task_id bg' ≠ bg_task_id bg →
          _running_tasks st' !! bg_task_id bg = Some bg →
          run_task self bg' st' = Some (Ok tt, st'') →
          _running_tasks st'' !! bg_task_id bg = Some bg)
    ∧ (∀ task' label' oc' ocid' profile' st' ack' st'',
          py_slice_to 8 (uuid4_str (world st')).1 ≠ bg_task_id bg →
          _running_tasks st' !! bg_task_id bg = Some bg →
          spawn self task' label' oc' ocid' profile' st' = Some (Ok ack', st'') →
          _running_tasks st'' !! bg_task_id bg = Some bg).
Proof.
  intros Hknown.
  destruct (spawn_started self task label oc ocid profile st Hknown)
    as (st1 & Hspawn & Htasks & Hmap & _).
  eexists _, (spawned_task task label oc ocid profile st), st1.
  split; [exact Hspawn|]. split; [done|]. split.
  { rewrite Hmap. apply lookup_insert_eq. }
  set (bg := spawned_task task label oc ocid profile st) in *.
  split; [|split].
  - intros st' Hlive.
    destruct (run_subagent_spec self (bg_task_id bg) (bg_task bg) (bg_label bg)
                (bg_origin bg) (bg_profile bg) st') as (msg & st2 & Hrun & Hbus & Hmap2 & _).
    exists msg, st2. eexists. split; [exact Hrun|]. split; [done|].
    split; [by rewrite Hmap2|]. unfold run_task, coroutine. rewrite Hrun.
    split; [reflexivity|]. simpl. split; [done|]. rewrite Hmap2. split; [done|].
    apply lookup_delete_eq.
  - intros bg' st' st'' Hne Hlive Hrun'.
    destruct (run_subagent_spec self (bg_task_id bg') (bg_task bg') (bg_label bg')
                (bg_origin bg') (bg_profile bg') st') as (msg & st2 & Hrun & _ & Hmap2 & _).
    unfold run_task, coroutine in Hrun'. rewrite Hrun in Hrun'.
    injection Hrun' as <-. simpl. rewrite Hmap2. by rewrite lookup_delete_ne.
  - intros task' label' oc' ocid' profile' st' ack' st'' Hne Hlive Hspawn'.
    destruct (unknown_profile self profile') eqn:Hp.
    + rewrite spawn_rejected in Hspawn' by done. by simplify_eq.
    + destruct (spawn_started self task' label' oc' ocid' profile' st' Hp)
        as (s2 & Hs & _ & Hmap' & _).
      rewrite Hs in Hspawn'. simplify_eq. rewrite Hmap'. by rewrite lookup_insert_ne.
Qed.


(** C5. Building a registry from a whitelist always succeeds and only writes
    to the log. With shell execution globally disabled the registry has no
    [exec], and a whitelisted [exec] leaves only a debug record; a name that is
    not a known tool name is not registered and leaves a warning. The same
    holds for the registry of a whole run, whichever way it is built. *)
Theorem exec_gate_and_unknown_names self names st :
  ∃ tools st',
    _register_profile_tools self names st = Some (Ok tools, st')
    ∧ quiet st st'
    ∧ (enabled (exec_config self) = false → ToolRegistry.has tools "exec" = false)
    ∧ (enabled (exec_config self) = false → "exec" ∈ names →
         mkLog DEBUG "Tool 'exec' requested by profile but globally disabled, skipping" []
           ∈ log st')
    ∧ (∀ name, name ∈ names → PyDict.mem _TOOL_NAME_MAP name = false →
         ToolRegistry.has tools name = false ∧
         mkLog WARNING "Unknown tool '{}' in subagent profile, skipping" [name] ∈ log st')
    ∧ (∀ task profile st0 setup st1,
         prepare self task profile st0 = Some (Ok setup, st1) →
         enabled (exec_config self) = false →
         ToolRegistry.has (run_tools setup) "exec" = false).
Proof.
  destruct (register_names_spec self names ToolRegistry.new st) as (tools & st' & Hrun & Hq).
  assert (∀ ns s t s', register_names self ns ToolRegistry.new s = Some (Ok t, s') →
            enabled (exec_config self) = false → ToolRegistry.has t "exec" = false) as Hgate.
  { intros ns s t s' Hr Hoff. destruct (ToolRegistry.has t "exec") eqn:Hhas; [|done].
    destruct (register_names_has self ns _ s t s' "exec" Hr Hhas) as [Hnew|(_ & _ & Hon)].
    - by rewrite has_new in Hnew.
    - rewrite Hon in Hoff; done. }
  exists tools, st'. split; [exact Hrun|]. split; [done|]. split; [by eapply Hgate|].
  split; [intros; by eapply register_names_logs_exec|]. split.
  - intros name Hin Hunknown. split; [|by eapply register_names_logs_unknown].
    destruct (ToolRegistry.has tools name) eqn:Hhas; [|done].
    destruct (register_names_has self names _ st tools st' name Hrun Hhas)
      as [Hnew|(_ & Hknown & _)].
    + by rewrite has_new in Hnew.
    + congruence.
  - intros task profile st0 setup st1 Hprep Hoff.
    destruct (prepare_spec self task profile st0) as (r & s' & Heq & _ & Hsetup).
    rewrite Hprep in Heq. simplify_eq.
    destruct (Hsetup setup eq_refl) as (_ & _ & Hsrc).
    destruct (whitelist_of (profile_config_of self profile)) as [ns|].
    + destruct Hsrc as (s1 & Hr & _). by eapply Hgate.
    + by rewrite Hsrc, default_tools_has_exec.
Qed.

(** C6. [spawn] with a non-empty profile name that is not a key of
    [subagent_profiles] returns the error string, which names every available
    profile, and changes nothing: no task is created and the live-task map is
    as it was. With a known profile name it creates exactly one task, records
    it in the live-task map under its id, and returns the acknowledgement,
    which carries the task's label and id. *)
Theorem spawn_checks_profile self task label oc ocid p st :
  (p ≠ "" → subagent_profiles self !! p = None →
     spawn self task label oc ocid (Some p) st =
       Some (Ok ("Error: Unknown profile '" +:+ p +:+ "'. Available profiles: " +:+
                 available_profiles self), st)
     ∧ ∀ q, is_Some (subagent_profiles self !! q) → occurs_in q (available_profiles self))
  ∧ (is_Some (subagent_profiles self !! p) →
     ∃ bg st',
       spawn self task label oc ocid (Some p) st =
         Some (Ok ("Subagent [" +:+ bg_label bg +:+ "] started (id: " +:+ bg_task_id bg +:+
                   "). I'll notify you when it completes."), st')
       ∧ bg = mkBgTask (py_slice_to 8 (uuid4_str (world st)).1) task
                (display_label_of task label) (mkOrigin oc ocid) (Some p)
       ∧ loop_tasks st' = loop_tasks st ++ [bg]
       ∧ _running_tasks st' = <[bg_task_id bg := bg]> (_running_tasks st)
       ∧ bus st' = bus st
       ∧ (∀ l, label = Some l → l ≠ "" → bg_label bg = l)).
Proof.
  split.
  - intros Hp Hnone. split.
    + by rewrite spawn_rejected by by apply unknown_profile_true.
    + intros q. apply available_profiles_names.
  - intros Hknown. apply unknown_profile_known in Hknown.
    destruct (spawn_started self task label oc ocid (Some p) st Hknown)
      as (st' & Hspawn & Htasks & Hmap & Hbus & _).
    eexists _, st'. split; [exact Hspawn|]. split; [reflexivity|].
    split; [done|]. split; [done|]. split; [done|].
    intros l -> Hl. simpl. unfold display_label_of. by destruct l.
Qed.

End Claims.

(** The [setup] and the state with which a concrete run reaches the loop. *)
Ltac prepared RT self task_id task label profile st k :=
  let r := eval vm_compute in
    (@prepare RT self task profile (@started RT task_id label st)) in
  lazymatch r with
  | Some (Ok ?setup, ?st1) =>
      let H := fresh "Hprep" in
      assert (@prepare RT self task profile (@started RT task_id label st)
                = Some (Ok setup, st1)) as H by (vm_compute; reflexivity);
      k setup st1 H
  end.

Definition answer_at_once : ScriptWorld :=
  mkScript [Ok (mkResponse (Some "done") false [])] (Raise "script exhausted").


Lemma loop_termination_witness :
  (∃ st', @_run_subagent scripted example_manager "id1" "find x" "find x" example_origin
            (Some "research") (@initial_state scripted answer_at_once) = Some (Ok tt, st')
          ∧ length (chat_log st') = 1%nat
          ∧ bus st' = [announcement "find x" "find x" "done" example_origin "ok"])
  ∧ (∃ st', @_run_subagent always_tools example_manager "id1" "find x" "find x" example_origin
              (Some "research") (@initial_state always_tools tt) = Some (Ok tt, st')
            ∧ length (chat_log st') = 3%nat
            ∧ bus st' = [announcement "find x" "find x" (exhausted_text 3) example_origin
                           "error"]).
Proof.
  split.
  - prepared scripted example_manager "id1" "find x" "find x" (Some "research")
      (@initial_state scripted answer_at_once)
      ltac:(fun setup st1 H =>
        destruct (proj1 (@loop_termination scripted example_manager "id1" "find x" "find x"
                           example_origin (Some "research") _ setup st1 H ltac:(simpl; lia))
                    (mkResponse (Some "done") false [])
                    (mkScript [] (Raise "script exhausted")) "done"
                    eq_refl eq_refl eq_refl) as (_ & Hlog & Hrun)).
    eexists. split; [exact Hrun|]. split; reflexivity.
  - prepared always_tools example_manager "id1" "find x" "find x" (Some "research")
      (@initial_state always_tools tt)
      ltac:(fun setup st1 H =>
        destruct (proj2 (@loop_termination always_tools example_manager "id1" "find x" "find x"
                           example_origin (Some "research") _ setup st1 H ltac:(simpl; lia))
                    (λ req w, ex_intro _ search_call (ex_intro _ w (conj eq_refl eq_refl))))
          as (msgs & st2 & Hloop & Hlen & Hrun)).
    eexists. split; [exact Hrun|]. split.
    + simpl. exact Hlen.
    + simpl. vm_compute in Hloop. injection Hloop as _ <-. reflexivity.
Defined.



Definition provider_down : ScriptWorld := mkScript [] (Raise "connection refused").

Lemma exhaustion_shares_error_status_witness :
  ∃ st', @_run_subagent scripted example_manager "id1" "find x" "find x" example_origin
           (Some "research") (@initial_state scripted provider_down) = Some (Ok tt, st')
         ∧ bus st' = [announcement "find x" "find x" "Error: connection refused"
                        example_origin "error"].
Proof.
  assert (∃ st1, @run_body scripted example_manager "id1" "find x" "find x" example_origin
                   (Some "research")
                   (@started scripted "id1" "find x" (@initial_state scripted provider_down))
                 = Some (Raise "connection refused", st1)) as [st1 Hbody].
  { eexists. vm_compute. reflexivity. }
  pose proof (proj1 (proj2 (@exhaustion_shares_error_status scripted example_manager "id1"
                              "find x" "find x" example_origin (Some "research")
                              (@initial_state scripted provider_down)))
                "connection refused" st1 Hbody) as Hrun.
  eexists. split; [exact Hrun|].
  vm_compute in Hbody. injection Hbody as <-. reflexivity.
Defined.

(** C2, as stated, fails: the run that exhausts its iterations and the run
    whose provider throws are both announced under status [error], and no
    status that renders differently from [error] gives the exhaustion
    announcement. *)
Lemma exhaustion_status_counterexample :
  ∃ st_exhausted st_failed,
    @_run_subagent always_tools example_manager "id1" "find x" "find x" example_origin
      (Some "research") (@initial_state always_tools tt) = Some (Ok tt, st_exhausted)
    ∧ @_run_subagent scripted example_manager "id1" "find x" "find x" example_origin
        (Some "research") (@initial_state scripted provider_down) = Some (Ok tt, st_failed)
    ∧ bus st_exhausted =
        [announcement "find x" "find x" (exhausted_text 3) example_origin "error"]
    ∧ bus st_failed =
        [announcement "find x" "find x" "Error: connection refused" example_origin "error"]
    ∧ ∀ status,
        bus st_exhausted =
          [announcement "find x" "find x" (exhausted_text 3) example_origin status] →
        status_text status = status_text "error".
Proof.
  eexists _, _. split; [vm_compute; reflexivity|]. split; [vm_compute; reflexivity|].
  split; [vm_compute; reflexivity|]. split; [vm_compute; reflexivity|].
  intros status Hbus. unfold status_text at 1.
  destruct (String.eqb status "ok") eqn:Hok; [|reflexivity].
  apply String.eqb_eq in Hok. subst status. vm_compute in Hbus. discriminate Hbus.
Qed.

Lemma one_announcement_then_removal_witness :
  ∃ ack bg st1 msg st3,
    @spawn scripted example_manager "find x" None "cli" "direct" (Some "research")
      (@initial_state scripted answer_at_once) = Some (Ok ack, st1)
    ∧ _running_tasks st1 !! bg_task_id bg = Some bg
    ∧ @run_task scripted example_manager bg st1 = Some (Ok tt, st3)
    ∧ bus st3 = bus st1 ++ [msg]
    ∧ _running_tasks st3 !! bg_task_id bg = None.
Proof.
  destruct (@one_announcement_then_removal scripted example_manager "find x" None "cli"
              "direct" (Some "research") (@initial_state scripted answer_at_once)
              ltac:(vm_compute; reflexivity))
    as (ack & bg & st1 & Hspawn & _ & Hlive & Hrun & _).
  destruct (Hrun st1 Hlive) as (msg & st2 & st3 & _ & _ & _ & Htask & Hbus & _ & Hgone).
  by exists ack, bg, st1, msg, st3.
Defined.

(** Two answers, for two runs. *)
Definition two_answers : ScriptWorld :=
  mkScript [Ok (mkResponse (Some "done") false []); Ok (mkResponse (Some "done") false [])]
    (Raise "script exhausted").

(** C3, as stated, fails when two live tasks share an id. Two spawns draw the
    same eight characters: the second overwrites the first task's entry while
    the first task has not run, and when the first task completes, its
    done-callback removes the entry under that id, which is the second
    task's: the second run has lost its entry before it has started, with a
    single announcement on the bus, the first run's. *)
Lemma shared_id_counterexample :
  ∃ ack1 ack2 bg1 bg2 st1 st2 st3,
    @spawn scripted example_manager "find x" None "cli" "direct" (Some "research")
      (@initial_state scripted two_answers) = Some (Ok ack1, st1)
    ∧ @spawn scripted example_manager "find y" None "cli" "direct" (Some "research") st1
        = Some (Ok ack2, st2)
    ∧ loop_tasks st2 = [bg1; bg2]
    ∧ bg_task bg1 = "find x" ∧ bg_task bg2 = "find y"
    ∧ bg_task_id bg1 = "3f2b8c1e" ∧ bg_task_id bg2 = "3f2b8c1e"
    ∧ _running_tasks st1 !! "3f2b8c1e" = Some bg1
    ∧ _running_tasks st2 !! "3f2b8c1e" = Some bg2
    ∧ @run_task scripted example_manager bg1 st2 = Some (Ok tt, st3)
    ∧ bus st3 = [announcement "find x" "find x" "done" example_origin "ok"]
    ∧ _running_tasks st3 !! "3f2b8c1e" = None.
Proof.
  eexists _, _, _, _, _, _, _.
  split; [vm_compute; reflexivity|]. split; [vm_compute; reflexivity|].
  split; [reflexivity|].
  split; [reflexivity|]. split; [reflexivity|].
  split; [reflexivity|]. split; [reflexivity|].
  split; [vm_compute; reflexivity|]. split; [vm_compute; reflexivity|].
  split; [vm_compute; reflexivity|]. split; vm_compute; reflexivity.
Qed.


Lemma exec_gate_and_unknown_names_witness :
  ∃ tools st',
    @_register_profile_tools scripted example_manager ["exec"; "telnet"; "read_file"]
      (@initial_state scripted answer_at_once) = Some (Ok tools, st')
    ∧ ToolRegistry.has tools "exec" = false
    ∧ ToolRegistry.has tools "telnet" = false
    ∧ mkLog WARNING "Unknown tool '{}' in subagent profile, skipping" ["telnet"] ∈ log st'.
Proof.
  destruct (@exec_gate_and_unknown_names scripted example_manager
              ["exec"; "telnet"; "read_file"] (@initial_state scripted answer_at_once))
    as (tools & st' & Hrun & _ & Hexec & _ & Hunknown & _).
  exists tools, st'. split; [exact Hrun|]. split; [exact (Hexec eq_refl)|].
  apply (Hunknown "telnet"); [by repeat constructor | reflexivity].
Defined.

Lemma spawn_checks_profile_witness :
  @spawn scripted example_manager "find x" None "cli" "direct" (Some "nope")
    (@initial_state scripted answer_at_once)
    = Some (Ok "Error: Unknown profile 'nope'. Available profiles: ops, research",
            @initial_state scripted answer_at_once)
  ∧ ∃ bg st',
      @spawn scripted example_manager "find x" None "cli" "direct" (Some "research")
        (@initial_state scripted answer_at_once)
        = Some (Ok "Subagent [find x] started (id: 3f2b8c1e). I'll notify you when it completes.",
                st')
      ∧ loop_tasks st' = [bg] ∧ _running_tasks st' !! "3f2b8c1e" = Some bg.
Proof.
  split.
  - apply (proj1 (@spawn_checks_profile scripted example_manager "find x" None "cli" "direct"
                    "nope" (@initial_state scripted answer_at_once))
             ltac:(discriminate) ltac:(vm_compute; reflexivity)).
  - destruct (proj2 (@spawn_checks_profile scripted example_manager "find x" None "cli"
                       "direct" "research" (@initial_state scripted answer_at_once))
                ltac:(vm_compute; eexists; reflexivity))
      as (bg & st' & Hspawn & -> & Htasks & Hmap & _).
    eexists _, st'. split; [exact Hspawn|]. split; [exact Htasks|].
    rewrite Hmap. apply lookup_insert_eq.
Defined.

End SubagentClaims.

(** ** Further properties of the plugin loader *)

Module PluginMore.
Import Plugins PluginFacts PluginExamples.

(** *** The tools directory *)

(** [workspace / "tools"]: one separator between the workspace and the name,
    none after a root, and no [./] in front of a relative name. *)
Lemma init_tools_dir (ctx : ToolContext) :
  tools_dir (init "/home/user/.nanobot/workspace" ctx) = "/home/user/.nanobot/workspace/tools"
  ∧ tools_dir (init "/" ctx) = "/tools"
  ∧ tools_dir (init "." ctx) = "tools"
  ∧ tools_dir (init "ws" ctx) = "ws/tools".
Proof. done. Qed.

(** *** Where loaded tools come from *)

Lemma instantiate_Ok self cls instance n :
  _instantiate self cls = Ok instance → inst_name instance = Ok n →
  (plugin_tool instance n = PluginTool (cls_name cls) n (Some (context self))
   ∧ cls_with_context cls = Constructs (Ok n))
  ∨ (plugin_tool instance n = PluginTool (cls_name cls) n None
     ∧ (∃ e, cls_with_context cls = RaisesTypeError e)
     ∧ cls_no_arg cls = Constructs (Ok n)).
Proof.
  unfold _instantiate. destruct (cls_with_context cls) as [r|e|e].
  - intros [= <-]. simpl. intros ->. by left.
  - destruct (cls_no_arg cls) as [r|e'|e']; intros [= <-]. simpl. intros ->. right. eauto.
  - intros [=].
Qed.

(** X1. Every tool of a loaded mapping is keyed by its own name and was built
    from a class of a file of the directory: the file is not a [_] helper and
    was imported, the class is a concrete subclass of [Tool] other than [Tool]
    itself, and the instance came from the context constructor or, only when
    that one raised [TypeError], from the no-argument constructor. *)
Theorem loaded_tools_come_from_candidates (self : PluginLoader) (files : list PluginFile)
    (env : Env) (n : string) (t : Tool) :
  _cache self = None →
  PyDict.get (load self (Some files) env).1.1 n = Some t →
  tool_name t = n
  ∧ ∃ f classes cls,
      f ∈ files
      ∧ py_startswith "_" (file_name f) = false
      ∧ file_has_spec f = true
      ∧ file_exec_module f = Ok classes
      ∧ cls ∈ classes
      ∧ cls_is_tool_subclass cls = true
      ∧ cls_is_tool cls = false
      ∧ cls_is_abstract cls = false
      ∧ ((t = PluginTool (cls_name cls) n (Some (context self))
          ∧ cls_with_context cls = Constructs (Ok n))
         ∨ (t = PluginTool (cls_name cls) n None
            ∧ (∃ e, cls_with_context cls = RaisesTypeError e)
            ∧ cls_no_arg cls = Constructs (Ok n))).
Proof.
  intros Hc Hget. rewrite load_cold, get_foldl_add_first in Hget by done. simpl in Hget.
  apply first_named_Some in Hget as [Hin Hname]. split; [done|].
  apply list_elem_of_In, in_concat in Hin as (ts & Hts & Ht).
  apply list_elem_of_In, list_elem_of_fmap in Hts as (f & -> & Hf).
  rewrite sorted_paths_elem_of in Hf. apply list_elem_of_In in Ht.
  unfold file_tools in Ht. destruct (entry_point f) eqn:He; [|by apply elem_of_nil in Ht].
  destruct (file_exec_module f) as [classes|e] eqn:Hm; [|by apply elem_of_nil in Ht].
  apply scan_tools_elem_of in Ht
    as (pre & cls & post & instance & -> & _ & Hcand & Hi & Hn & Heq).
  rewrite Hname in Hn, Heq.
  unfold entry_point in He. apply andb_prop in He as [Hp%negb_true_iff Hs].
  unfold candidate in Hcand.
  apply andb_prop in Hcand as [[Hsub Htool%negb_true_iff]%andb_prop Habs%negb_true_iff].
  exists f, (pre ++ cls :: post), cls. split; [done|]. split; [done|]. split; [done|].
  split; [done|]. split; [set_solver|]. split; [done|]. split; [done|]. split; [done|].
  rewrite Heq. by apply instantiate_Ok.
Qed.

Lemma loaded_tools_come_from_candidates_witness :
  ∃ f classes cls,
    f ∈ [broken_py; greet_py; mixed_py]
    ∧ file_exec_module f = Ok classes
    ∧ cls ∈ classes
    ∧ cls_is_abstract cls = false
    ∧ cls_with_context cls = Constructs (Ok "greet").
Proof.
  destruct (loaded_tools_come_from_candidates example_loader [broken_py; greet_py; mixed_py]
              empty_env "greet" (PluginTool "GreetTool" "greet" (Some example_context))
              eq_refl ltac:(vm_compute; reflexivity))
    as (_ & f & classes & cls & Hf & _ & _ & Hm & Hcls & _ & _ & Habs & Hctor).
  exists f, classes, cls. repeat (split; [done|]).
  destruct Hctor as [[_ Hctx]|[Heq _]]; [exact Hctx | discriminate Heq].
Defined.

(** *** Merging *)

Lemma get_register_items items registry env n :
  keyed_by_name items →
  ToolRegistry.get (register_items items registry env).1 n =
    match ToolRegistry.get registry n with
    | Some b => Some b
    | None => PyDict.get items n
    end.
Proof.
  revert registry env. induction items as [|[k t] items IH]; intros registry env Hk.
  - simpl. by destruct (ToolRegistry.get registry n).
  - inversion Hk as [|? ? Hkt Hk']; subst. simpl in Hkt. subst k. simpl.
    destruct (ToolRegistry.has registry (tool_name t)) eqn:Hh.
    + rewrite IH by done. destruct (ToolRegistry.get registry n) eqn:Hn; [done|].
      case_decide as Heq; [|done]. subst n.
      apply PyDictFacts.mem_true in Hh as [x Hx]. unfold ToolRegistry.get in Hn. congruence.
    + rewrite IH by done. unfold ToolRegistry.get, ToolRegistry.register.
      apply PyDictFacts.mem_false in Hh.
      case_decide as Heq.
      * subst n. by rewrite PyDictFacts.get_set_eq, Hh.
      * rewrite PyDictFacts.get_set_ne by done. done.
Qed.

Lemma register_items_all_present items registry env :
  (∀ k t, (k, t) ∈ items → ToolRegistry.has registry k = true) →
  (register_items items registry env).1 = registry.
Proof.
  revert env. induction items as [|[k t] items IH]; intros env Hall; [done|].
  simpl. rewrite (Hall k t) by left. apply IH. intros k' t' Hin. eapply Hall. by right.
Qed.

Lemma load_again self dir env dir' env' :
  load (load self dir env).1.2 dir' env' =
    ((load self dir env).1.1, (load self dir env).1.2, env').
Proof.
  assert (_cache (load self dir env).1.2 = Some (load self dir env).1.1) as Hcache.
  { unfold load. destruct (_cache self) as [cached|] eqn:Hc; [done|].
    destruct dir as [files|]; [|done]. by destruct (load_paths _ _ _ _). }
  unfold load at 1. by rewrite Hcache.
Qed.

(** X2. Merging a cold loader's plugins into a registry is a union in which the
    registry wins: afterwards a name is bound to what the registry had under
    it and, only if it had nothing, to the plugin of that name. Merging the
    same loader a second time changes nothing in the registry. *)
Theorem register_into_is_union (self : PluginLoader) (dir : ToolsDir)
    (registry : ToolRegistry.t) (env : Env) :
  _cache self = None →
  (∀ n, ToolRegistry.get (register_into self dir registry env).1.1 n =
          match ToolRegistry.get registry n with
          | Some b => Some b
          | None => PyDict.get (load self dir env).1.1 n
          end)
  ∧ (∀ dir' env',
        (register_into (register_into self dir registry env).1.2 dir'
           (register_into self dir registry env).1.1 env').1.1
        = (register_into self dir registry env).1.1).
Proof.
  intros Hc.
  assert (keyed_by_name (load self dir env).1.1) as Hk.
  { destruct dir as [fs|]; [by apply load_cold_keyed|].
    rewrite load_missing_dir by done. constructor. }
  assert (∀ n, ToolRegistry.get (register_into self dir registry env).1.1 n =
            match ToolRegistry.get registry n with
            | Some b => Some b
            | None => PyDict.get (load self dir env).1.1 n
            end) as Hunion.
  { intros n. unfold register_into.
    destruct (load self dir env) as [[tools self'] env1] eqn:Hload. simpl in *.
    pose proof (get_register_items (PyDict.items tools) registry env1 n Hk) as Hget.
    by destruct (register_items (PyDict.items tools) registry env1). }
  split; [exact Hunion|]. intros dir' env'.
  pose proof (load_again self dir env dir' env') as Hmemo.
  assert ((register_into self dir registry env).1.2 = (load self dir env).1.2) as Hself.
  { unfold register_into. destruct (load self dir env) as [[tools self'] env1].
    by destruct (register_items (PyDict.items tools) registry env1). }
  set (registry' := (register_into self dir registry env).1.1) in *.
  unfold register_into at 1. rewrite Hself, Hmemo.
  pose proof (register_items_all_present (PyDict.items (load self dir env).1.1) registry' env')
    as Hsame.
  destruct (register_items (PyDict.items (load self dir env).1.1) registry' env')
    as [r2 e2]. simpl in *. apply Hsame. intros k t Hin.
  apply PyDictFacts.mem_true. unfold ToolRegistry.get in Hunion. rewrite Hunion.
  destruct (PyDict.get registry k); [by eexists|].
  destruct (PyDict.get (load self dir env).1.1 k) eqn:Hg; [by eexists|].
  exfalso. clear -Hin Hg. unfold PyDict.items in Hin.
  induction (load self dir env).1.1 as [|[k' t'] d IH]; [by apply elem_of_nil in Hin|].
  simpl in Hg. case_decide; [done|].
  apply elem_of_cons in Hin as [[= -> ->]|Hin]; [done | by apply IH].
Qed.

Lemma register_into_is_union_witness :
  ToolRegistry.get
    (register_into example_loader (Some [read_py; greet_py])
       (ToolRegistry.register ToolRegistry.new (ReadFileTool "/ws" None)) empty_env).1.1
    "greet"
  = PyDict.get (load example_loader (Some [read_py; greet_py]) empty_env).1.1 "greet".
Proof.
  exact (proj1 (register_into_is_union example_loader (Some [read_py; greet_py])
                  (ToolRegistry.register ToolRegistry.new (ReadFileTool "/ws" None))
                  empty_env eq_refl) "greet").
Defined.

(** *** Discovery order *)

Lemma set_absent {V} (d : PyDict.t V) k v :
  PyDict.get d k = None → PyDict.set d k v = d ++ [(k, v)].
Proof.
  induction d as [|[k' v'] d IH]; simpl; [done|].
  case_decide; [done|]. intros Hd. by rewrite IH.
Qed.

Lemma values_foldl_add_first ts d :
  ∃ l, PyDict.values (foldl add_first d ts) = PyDict.values d ++ l ∧ l `sublist_of` ts.
Proof.
  revert d. induction ts as [|t ts IH]; intros d.
  - exists []. simpl. by rewrite app_nil_r.
  - simpl. unfold add_first at 2. destruct (PyDict.mem d (tool_name t)) eqn:Hm.
    + destruct (IH d) as (l & -> & Hl). exists l. split; [done|]. by apply sublist_cons.
    + apply PyDictFacts.mem_false in Hm. rewrite set_absent by done.
      destruct (IH (d ++ [(tool_name t, t)])) as (l & -> & Hl).
      exists (t :: l). split.
      * unfold PyDict.values. rewrite fmap_app. simpl. by rewrite <- app_assoc.
      * by apply sublist_skip.
Qed.

(** X3. The tools of a loaded mapping are listed in discovery order: the files by
    ascending name, and within a file the classes in the order the module
    lists them; dropping duplicates never reorders what is kept. *)
Theorem loaded_in_discovery_order (self : PluginLoader) (files : list PluginFile) (env : Env) :
  _cache self = None →
  PyDict.values (load self (Some files) env).1.1
    `sublist_of` concat (file_tools self <$> sorted_paths files)
  ∧ StronglySorted path_le (sorted_paths files)
  ∧ sorted_paths files ≡ₚ files.
Proof.
  intros Hc. split; [|split].
  - rewrite load_cold by done.
    destruct (values_foldl_add_first (concat (file_tools self <$> sorted_paths files))
                PyDict.empty) as (l & -> & Hl). done.
  - apply (StronglySorted_merge_sort _).
  - apply merge_sort_Permutation.
Qed.

Lemma loaded_in_discovery_order_witness :
  PyDict.values (load example_loader (Some [hello_py; greet_py; dice_py]) empty_env).1.1
    `sublist_of` [PluginTool "DiceTool" "roll_dice" None;
                  PluginTool "GreetTool" "greet" (Some example_context);
                  PluginTool "HelloTool" "greet" None].
Proof.
  exact (proj1 (loaded_in_discovery_order example_loader [hello_py; greet_py; dice_py]
                  empty_env eq_refl)).
Defined.

End PluginMore.

(** ** Further properties of the subagent manager *)

Module SubagentMore.
Import Subagent SubagentFacts SubagentExamples.

Section More.
Context {RT : Runtime}.
Implicit Types (st : State) (self : SubagentManager).

(** *** Tool dispatch *)

(** The tool-result message for a call and the text its tool returned. *)
Definition tool_message (tc : ToolCall) (result : string) : Message :=
  ToolMessage (tc_id tc) (tc_name tc) result.

(** X4. Executing the calls of a response appends one tool-result message per
    call, in call order, after the messages already there; it never calls the
    provider and never publishes. *)
Theorem tool_results_in_call_order (tools : ToolRegistry.t) (task_id : string)
    (calls : list ToolCall) (messages : list Message) st :
  ∃ results st',
    execute_tools tools task_id calls messages st =
      Some (Ok (messages ++ zip_with tool_message calls results), st')
    ∧ length results = length calls
    ∧ chat_log st' = chat_log st
    ∧ bus st' = bus st.
Proof.
  revert messages st. induction calls as [|tc calls IH]; intros messages st.
  - exists [], st. simpl. by rewrite app_nil_r.
  - simpl. unfold bind at 1. simpl. unfold bind at 1. unfold tools_execute.
    destruct (registry_execute tools (tc_name tc) (tc_arguments tc) (world st))
      as [result w] eqn:Hexec. simpl. rewrite Hexec.
    match goal with |- context [execute_tools _ _ _ ?m ?s] =>
      destruct (IH m s) as (results & st' & -> & Hlen & Hc & Hb) end.
    exists (result :: results), st'. simpl. rewrite <- app_assoc. simpl.
    split; [done|]. split; [by rewrite Hlen|]. done.
Qed.

(** *** The iteration bound *)

(** What every request of a run has in common. *)
Definition request_of_run self (setup : RunSetup) (req : ChatRequest) : Prop :=
  req_tools req = ToolRegistry.get_definitions (run_tools setup)
  ∧ req_model req = run_model setup
  ∧ req_temperature req = temperature self
  ∧ req_max_tokens req = max_tokens self
  ∧ run_messages setup `prefix_of` req_messages req.

Lemma agent_loop_requests fuel self tools model max_iterations task_id iteration messages st :
  (Z.to_nat (max_iterations - iteration) ≤ fuel)%nat →
  ∃ r st' reqs,
    agent_loop fuel self tools model max_iterations task_id iteration messages st
      = Some (r, st')
    ∧ chat_log st' = chat_log st ++ reqs
    ∧ (length reqs ≤ Z.to_nat (max_iterations - iteration))%nat
    ∧ Forall (λ req, req_tools req = ToolRegistry.get_definitions tools
                     ∧ req_model req = model
                     ∧ req_temperature req = temperature self
                     ∧ req_max_tokens req = max_tokens self
                     ∧ messages `prefix_of` req_messages req) reqs
    ∧ ∀ exit, r = Ok exit →
        Subagent.iteration exit = iteration + Z.of_nat (length reqs)
        ∧ messages `prefix_of` Subagent.messages exit.
Proof.
  assert (∀ iteration messages st, max_iterations ≤ iteration →
    ∃ r st' reqs,
      Some (Ok (mkLoopExit iteration messages None), st) = Some (r, st')
      ∧ chat_log st' = chat_log st ++ reqs
      ∧ (length reqs ≤ Z.to_nat (max_iterations - iteration))%nat
      ∧ Forall (λ req, req_tools req = ToolRegistry.get_definitions tools
                       ∧ req_model req = model
                       ∧ req_temperature req = temperature self
                       ∧ req_max_tokens req = max_tokens self
                       ∧ messages `prefix_of` req_messages req) reqs
      ∧ ∀ exit, r = Ok exit →
          Subagent.iteration exit = iteration + Z.of_nat (length reqs)
          ∧ messages `prefix_of` Subagent.messages exit) as Hstop.
  { intros i m s Hge. exists (Ok (mkLoopExit i m None)), s, [].
    split; [done|]. rewrite app_nil_r. split; [done|]. split; [simpl; lia|].
    split; [constructor|]. intros exit [= <-]. simpl. split; [lia | done]. }
  revert iteration messages st. induction fuel as [|fuel IH]; intros iteration messages st Hf.
  { rewrite agent_loop_exit by lia. apply Hstop. lia. }
  destruct (decide (iteration < max_iterations)) as [Hlt|Hge]; cycle 1.
  { rewrite agent_loop_exit by lia. apply Hstop. lia. }
  rewrite agent_loop_unfold by done.
  set (req := request_of self tools model messages).
  assert (req_tools req = ToolRegistry.get_definitions tools
          ∧ req_model req = model
          ∧ req_temperature req = temperature self
          ∧ req_max_tokens req = max_tokens self
          ∧ messages `prefix_of` req_messages req) as Hreq by done.
  destruct (provider_chat req (world st)) as [[response|e] w]; simpl.
  - destruct (has_tool_calls response).
    + match goal with |- context [execute_tools ?a ?b ?c ?m ?s] =>
        destruct (tool_results_in_call_order a b c m s)
          as (results & st2 & -> & _ & Hc & _) end.
      match goal with |- context [agent_loop fuel _ _ _ _ _ _ ?m st2] =>
        destruct (IH (iteration + 1) m st2) as (r & st' & reqs & -> & Hlog & Hlen & Hall & Hexit);
          [lia|] end.
      exists r, st', (req :: reqs). split; [done|]. split.
      { rewrite Hlog, Hc. simpl. by rewrite <- app_assoc. }
      split; [simpl; lia|]. split.
      { constructor; [done|]. eapply Forall_impl; [exact Hall|].
        intros q (? & ? & ? & ? & Hpre). repeat split; try done.
        etrans; [|exact Hpre]. rewrite <- app_assoc. by apply prefix_app_r. }
      intros exit ->. destruct (Hexit exit eq_refl) as [Hit Hpre]. split.
      { rewrite Hit. simpl length. lia. }
      etrans; [|exact Hpre]. rewrite <- app_assoc. by apply prefix_app_r.
    + eexists _, _, [req]. split; [done|]. split; [done|]. split; [simpl; lia|].
      split; [by constructor|]. intros exit [= <-]. simpl. split; [lia | done].
  - eexists _, _, [req]. split; [done|]. split; [done|]. split; [simpl; lia|].
    split; [by constructor|]. intros exit [=].
Qed.

(** X5. Whatever the provider answers, the loop of a run ends, after at most
    [max_iterations] provider calls. Every call carries the run's tool
    definitions, model, temperature and token limit and a message list that
    extends the initial one; when the loop ends without an exception its
    counter is the number of calls made and its messages extend the initial
    ones. *)
Theorem provider_calls_bounded self (task_id : string) (setup : RunSetup) st :
  ∃ r st' reqs,
    run_loop self task_id setup st = Some (r, st')
    ∧ chat_log st' = chat_log st ++ reqs
    ∧ (length reqs ≤ Z.to_nat (run_max_iterations setup))%nat
    ∧ Forall (request_of_run self setup) reqs
    ∧ bus st' = bus st
    ∧ ∀ exit, r = Ok exit →
        Subagent.iteration exit = Z.of_nat (length reqs)
        ∧ run_messages setup `prefix_of` Subagent.messages exit.
Proof.
  unfold run_loop.
  destruct (agent_loop_requests (Z.to_nat (run_max_iterations setup)) self (run_tools setup)
              (run_model setup) (run_max_iterations setup) task_id 0 (run_messages setup) st)
    as (r & st' & reqs & Hrun & Hlog & Hlen & Hall & Hexit); [lia|].
  destruct (agent_loop_total (Z.to_nat (run_max_iterations setup)) self (run_tools setup)
              (run_model setup) (run_max_iterations setup) task_id 0 (run_messages setup) st)
    as (r' & st'' & Hrun' & Hframe); [lia|].
  rewrite Hrun in Hrun'. simplify_eq.
  exists r', st'', reqs. split; [done|]. split; [done|].
  split; [by rewrite Z.sub_0_r in Hlen|]. split; [done|].
  split; [by destruct Hframe as (_ & _ & ? & _)|].
  intros exit ->. destruct (Hexit exit eq_refl) as [Hit Hpre]. split; [lia | done].
Qed.

(** X6. With a bound of zero or less the provider is never called: the run goes
    straight to the out-of-iterations announcement. *)
Theorem nonpositive_bound_calls_nothing self task_id task label origin profile st setup st1 :
  prepare self task profile (started task_id label st) = Some (Ok setup, st1) →
  run_max_iterations setup ≤ 0 →
  _run_subagent self task_id task label origin profile st =
    Some (Ok tt, after_announce (exhausted_record task_id (run_max_iterations setup))
                   task_id label task (exhausted_text (run_max_iterations setup))
                   origin "error" st1)
  ∧ chat_log st1 = chat_log st.
Proof.
  intros Hprep Hmax. split.
  - rewrite run_subagent_eq, run_body_eq, Hprep. unfold run_loop.
    rewrite agent_loop_exit by lia. reflexivity.
  - destruct (prepare_spec self task profile (started task_id label st))
      as (r & st' & Heq & Hq & _).
    rewrite Hprep in Heq. simplify_eq. by destruct Hq as (_ & _ & _ & -> & _).
Qed.

(** *** The announcement *)

(** X7. Whatever happens in a run, its one announcement is a [system] message from
    [subagent], addressed to [origin_channel:origin_chat_id], built by
    [_announce_result] with status [ok] or [error]. *)
Theorem announcement_goes_to_origin self task_id task label origin profile st :
  ∃ result status st',
    _run_subagent self task_id task label origin profile st = Some (Ok tt, st')
    ∧ bus st' = bus st ++
        [mkInbound "system" "subagent"
           (origin_channel origin +:+ ":" +:+ origin_chat_id origin)
           (announce_content label task result status)]
    ∧ (status = "ok" ∨ status = "error").
Proof.
  rewrite run_subagent_eq, run_body_eq.
  destruct (prepare_spec self task profile (started task_id label st))
    as (r & st1 & -> & Hq & _).
  destruct Hq as (_ & _ & Hb1 & _).
  destruct r as [setup|e].
  - destruct (run_loop_total self task_id setup st1) as (r & st2 & -> & Hf).
    destruct Hf as (_ & _ & Hb2 & _).
    destruct r as [exit|e].
    + destruct (final_result exit) as [final|].
      * rewrite conclude_some. eexists final, "ok", _. split; [done|]. simpl.
        rewrite Hb2, Hb1. split; [done | by left].
      * rewrite conclude_none. eexists _, "error", _. split; [done|]. simpl.
        rewrite Hb2, Hb1. split; [done | by right].
    + eexists _, "error", _. split; [done|]. simpl. rewrite Hb2, Hb1.
      split; [done | by right].
  - eexists _, "error", _. split; [done|]. simpl. rewrite Hb1. split; [done | by right].
Qed.

(** *** The registry of a run *)

(** The tool the manager builds for a name: what the [if/elif] chain registers
    under it, if anything. *)
Definition builtin_for self (name : string) : option Tool :=
  ToolRegistry.get (register_by_name self name ToolRegistry.new) name.

Lemma get_register r t n :
  ToolRegistry.get (ToolRegistry.register r t) n =
    if decide (tool_name t = n) then Some t else ToolRegistry.get r n.
Proof.
  unfold ToolRegistry.get, ToolRegistry.register. case_decide as Hn.
  - subst n. apply PyDictFacts.get_set_eq.
  - by apply PyDictFacts.get_set_ne.
Qed.

Lemma known_name_cases name :
  PyDict.mem _TOOL_NAME_MAP name = true →
  name = "read_file" ∨ name = "write_file" ∨ name = "edit_file" ∨ name = "list_dir" ∨
  name = "exec" ∨ name = "web_search" ∨ name = "web_fetch".
Proof.
  unfold PyDict.mem, _TOOL_NAME_MAP. simpl.
  repeat (case_decide; [subst; tauto|]). done.
Qed.

Lemma get_register_by_name self name r n :
  ToolRegistry.get (register_by_name self name r) n =
    if decide (name = n ∧ PyDict.mem _TOOL_NAME_MAP name = true)
    then builtin_for self n else ToolRegistry.get r n.
Proof.
  destruct (PyDict.mem _TOOL_NAME_MAP name) eqn:Hknown.
  - apply known_name_cases in Hknown.
    destruct Hknown as [->|[->|[->|[->|[->|[->| ->]]]]]];
      unfold builtin_for, register_by_name; simpl; rewrite get_register; simpl;
      (case_decide as Hn; [subst n; rewrite decide_True by done; simpl;
                           by rewrite get_register, decide_True
                          |rewrite decide_False; [done | intros [? _]; done]]).
  - rewrite decide_False by (intros [_ ?]; done).
    unfold register_by_name.
    repeat (destruct (String.eqb name _) eqn:E;
      [apply String.eqb_eq in E; subst name; discriminate Hknown | clear E]).
    done.
Qed.

Lemma register_names_builtins self names tools st tools' st' :
  register_names self names tools st = Some (Ok tools', st') →
  (∀ n t, ToolRegistry.get tools n = Some t → builtin_for self n = Some t) →
  ∀ n t, ToolRegistry.get tools' n = Some t → builtin_for self n = Some t.
Proof.
  revert tools st. induction names as [|name names IH]; intros tools st Hrun Hinv.
  - injection Hrun as <- _. exact Hinv.
  - simpl in Hrun. destruct (negb (PyDict.mem _TOOL_NAME_MAP name)).
    { unfold bind in Hrun. simpl in Hrun. by eapply IH. }
    destruct (String.eqb name "exec" && negb (enabled (exec_config self))).
    { unfold bind in Hrun. simpl in Hrun. by eapply IH. }
    eapply IH; [exact Hrun|]. intros n t. rewrite get_register_by_name.
    case_decide; [done | apply Hinv].
Qed.

Lemma default_tools_builtins self n t :
  ToolRegistry.get (_register_default_subagent_tools self) n = Some t →
  builtin_for self n = Some t.
Proof.
  unfold _register_default_subagent_tools.
  destruct (enabled (exec_config self));
    rewrite !get_register; simpl;
    repeat (case_decide as Hn; [subst n; intros [= <-]; reflexivity | clear Hn]);
    done.
Qed.

(** X8. Whatever the profile says, the registry of a run holds only tools the
    manager builds itself from its own settings, under the names of
    [_TOOL_NAME_MAP]: the file tools with the manager's workspace and
    confinement directory, the shell tool with its timeout, the web tools. In
    particular it never holds a [message] or a [spawn] tool. *)
Theorem run_registry_holds_builtins self task profile st setup st1 :
  prepare self task profile st = Some (Ok setup, st1) →
  (∀ n t, ToolRegistry.get (run_tools setup) n = Some t →
          builtin_for self n = Some t ∧ PyDict.mem _TOOL_NAME_MAP n = true ∧ tool_name t = n)
  ∧ (∀ t, ToolRegistry.get (run_tools setup) "read_file" = Some t →
          t = ReadFileTool (workspace self)
                (if restrict_to_workspace self then Some (workspace self) else None))
  ∧ (∀ t, ToolRegistry.get (run_tools setup) "write_file" = Some t →
          t = WriteFileTool (workspace self)
                (if restrict_to_workspace self then Some (workspace self) else None))
  ∧ ToolRegistry.has (run_tools setup) "message" = false
  ∧ ToolRegistry.has (run_tools setup) "spawn" = false.
Proof.
  intros Hprep.
  assert (∀ n t, ToolRegistry.get (run_tools setup) n = Some t → builtin_for self n = Some t)
    as Hb.
  { destruct (prepare_spec self task profile st) as (r & s' & Heq & _ & Hsetup).
    rewrite Hprep in Heq. simplify_eq.
    destruct (Hsetup setup eq_refl) as (_ & _ & Hsrc).
    destruct (whitelist_of (profile_config_of self profile)) as [ns|].
    - destruct Hsrc as (s1 & Hr & _). intros n t.
      eapply register_names_builtins; [exact Hr|]. intros ? ? [=].
    - rewrite Hsrc. apply default_tools_builtins. }
  assert (∀ n t, builtin_for self n = Some t →
            PyDict.mem _TOOL_NAME_MAP n = true ∧ tool_name t = n) as Hk.
  { intros n t. unfold builtin_for. rewrite get_register_by_name.
    case_decide as Hn; [|intros [=]]. destruct Hn as [_ Hknown]. intros Ht.
    split; [done|]. apply known_name_cases in Hknown.
    destruct Hknown as [->|[->|[->|[->|[->|[->| ->]]]]]];
      vm_compute in Ht; by simplify_eq. }
  split; [|split; [|split; [|split]]].
  - intros n t Ht. split; [by apply Hb | by apply Hk, Hb].
  - intros t Ht%Hb. vm_compute in Ht. by simplify_eq.
  - intros t Ht%Hb. vm_compute in Ht. by simplify_eq.
  - apply PyDictFacts.mem_false. destruct (ToolRegistry.get (run_tools setup) "message") eqn:Hg;
      [|done]. apply Hb in Hg. discriminate Hg.
  - apply PyDictFacts.mem_false. destruct (ToolRegistry.get (run_tools setup) "spawn") eqn:Hg;
      [|done]. apply Hb in Hg. discriminate Hg.
Qed.

Lemma has_register_by_name_known self name r :
  PyDict.mem _TOOL_NAME_MAP name = true →
  ToolRegistry.has (register_by_name self name r) name = true.
Proof.
  intros Hknown. apply known_name_cases in Hknown.
  destruct Hknown as [->|[->|[->|[->|[->|[->| ->]]]]]];
    unfold register_by_name; simpl; by rewrite has_register.
Qed.

Lemma has_register_by_name_mono self name r n :
  ToolRegistry.has r n = true → ToolRegistry.has (register_by_name self name r) n = true.
Proof.
  intros Hn. unfold register_by_name.
  repeat (destruct (String.eqb name _); [by rewrite has_register, Hn, orb_true_r|]).
  done.
Qed.

Lemma register_names_mono self names tools st tools' st' n :
  register_names self names tools st = Some (Ok tools', st') →
  ToolRegistry.has tools n = true → ToolRegistry.has tools' n = true.
Proof.
  revert tools st. induction names as [|name names IH]; intros tools st Hrun Hn.
  - by injection Hrun as <- _.
  - simpl in Hrun. destruct (negb (PyDict.mem _TOOL_NAME_MAP name)).
    { unfold bind in Hrun. simpl in Hrun. by eapply IH. }
    destruct (String.eqb name "exec" && negb (enabled (exec_config self))).
    { unfold bind in Hrun. simpl in Hrun. by eapply IH. }
    eapply IH; [exact Hrun|]. by apply has_register_by_name_mono.
Qed.

Lemma register_names_complete self names tools st tools' st' n :
  register_names self names tools st = Some (Ok tools', st') →
  n ∈ names → PyDict.mem _TOOL_NAME_MAP n = true →
  (n = "exec" → enabled (exec_config self) = true) →
  ToolRegistry.has tools' n = true.
Proof.
  revert tools st. induction names as [|name names IH]; intros tools st Hrun Hin Hknown Hexec;
    [by apply elem_of_nil in Hin|].
  simpl in Hrun. apply elem_of_cons in Hin as [<-|Hin].
  - rewrite Hknown in Hrun. simpl in Hrun.
    destruct (String.eqb n "exec" && negb (enabled (exec_config self))) eqn:Hgate.
    { apply andb_prop in Hgate as [Hn%String.eqb_eq Hoff%negb_true_iff].
      rewrite (Hexec Hn) in Hoff. discriminate Hoff. }
    eapply register_names_mono; [exact Hrun|]. by apply has_register_by_name_known.
  - destruct (negb (PyDict.mem _TOOL_NAME_MAP name)).
    { unfold bind in Hrun. simpl in Hrun. by eapply IH. }
    destruct (String.eqb name "exec" && negb (enabled (exec_config self))).
    { unfold bind in Hrun. simpl in Hrun. by eapply IH. }
    by eapply IH.
Qed.

(** X9. A whitelist yields exactly its known names: a name is in the registry if
    and only if it is on the whitelist, is a key of [_TOOL_NAME_MAP] and, for
    [exec], shell execution is globally enabled. Repeating a name or changing
    the order of the whitelist does not change which tools are granted. *)
Theorem whitelist_registers_exactly self (names : list string) st :
  ∃ tools st',
    _register_profile_tools self names st = Some (Ok tools, st')
    ∧ ∀ n, ToolRegistry.has tools n = true ↔
             n ∈ names ∧ PyDict.mem _TOOL_NAME_MAP n = true ∧
             (n = "exec" → enabled (exec_config self) = true).
Proof.
  destruct (register_names_spec self names ToolRegistry.new st) as (tools & st' & Hrun & _).
  exists tools, st'. split; [exact Hrun|]. intros n. split.
  - intros Hhas.
    destruct (register_names_has self names _ st tools st' n Hrun Hhas) as [Hnew|?]; [|done].
    by rewrite has_new in Hnew.
  - intros (Hin & Hknown & Hexec). by eapply register_names_complete.
Qed.

(** *** Profiles *)

Lemma prepare_model self task profile st setup st1 :
  prepare self task profile st = Some (Ok setup, st1) →
  run_model setup =
    match profile_config_of self profile with
    | Some pc => if opt_str_truthy (p_model pc) then default "" (p_model pc) else model self
    | None => model self
    end.
Proof.
  unfold prepare. fold (profile_config_of self profile).
  set (pc := profile_config_of self profile). intros Hprep.
  unfold bind in Hprep.
  destruct (match pc with
            | Some (mkProfile _ _ (Some (n :: ns)) _) => _register_profile_tools self (n :: ns)
            | _ => ret (_register_default_subagent_tools self)
            end st) as [[[tools|e] s1]|]; [|done..].
  destruct (match pc with
            | Some (mkProfile _ _ _ (Some (s :: ss))) => _load_skills self (s :: ss)
            | _ => ret ""
            end s1) as [[[skills|e] s2]|]; [|done..].
  unfold _build_subagent_prompt, ret in Hprep. by simplify_eq.
Qed.

(** X10. How a profile shapes a run that reaches the loop. A profile with no
    whitelist, or with an empty one, gets the whole default tool set, not an
    empty registry; a profile with no model, or an empty one, runs on the
    manager's model; the profile's iteration bound always replaces the
    manager's. *)
Theorem empty_whitelist_means_default_tools self task p pc st setup st1 :
  p ≠ "" → subagent_profiles self !! p = Some pc →
  prepare self task (Some p) st = Some (Ok setup, st1) →
  run_max_iterations setup = p_max_iterations pc
  ∧ ((p_tools pc = None ∨ p_tools pc = Some []) →
       run_tools setup = _register_default_subagent_tools self)
  ∧ ((p_model pc = None ∨ p_model pc = Some "") → run_model setup = model self)
  ∧ (∀ m, p_model pc = Some m → m ≠ "" → run_model setup = m).
Proof.
  intros Hp Hpc Hprep.
  assert (profile_config_of self (Some p) = Some pc) as Hcfg.
  { unfold profile_config_of. by destruct p. }
  destruct (prepare_spec self task (Some p) st) as (r & s' & Heq & _ & Hsetup).
  rewrite Hprep in Heq. simplify_eq.
  destruct (Hsetup setup eq_refl) as (Hmax & _ & Hsrc).
  pose proof (prepare_model self task (Some p) st setup s' Hprep) as Hmodel.
  rewrite Hcfg in Hmodel, Hsrc. unfold max_iterations_of in Hmax. rewrite Hcfg in Hmax.
  split; [done|]. split; [|split].
  - intros Htools. destruct pc as [? ? tl ?]. simpl in *.
    by destruct Htools as [-> | ->].
  - intros Hm. rewrite Hmodel. by destruct Hm as [-> | ->].
  - intros m Hm Hne. rewrite Hmodel, Hm. simpl. by destruct m.
Qed.

(** X11. Without a profile (none given, or the empty string) the run uses the
    manager's model and iteration bound and the default tool set. *)
Theorem no_profile_means_defaults self task profile st setup st1 :
  opt_str_truthy profile = false →
  prepare self task profile st = Some (Ok setup, st1) →
  run_model setup = model self
  ∧ run_max_iterations setup = default_max_iterations self
  ∧ run_tools setup = _register_default_subagent_tools self.
Proof.
  intros Hp Hprep.
  assert (profile_config_of self profile = None) as Hcfg.
  { unfold profile_config_of. destruct profile as [p|]; [|done]. simpl in Hp. by rewrite Hp. }
  destruct (prepare_spec self task profile st) as (r & s' & Heq & _ & Hsetup).
  rewrite Hprep in Heq. simplify_eq.
  destruct (Hsetup setup eq_refl) as (Hmax & _ & Hsrc).
  pose proof (prepare_model self task profile st setup s' Hprep) as Hmodel.
  rewrite Hcfg in Hmodel, Hsrc. unfold max_iterations_of in Hmax. rewrite Hcfg in Hmax.
  done.
Qed.

(** *** Spawning *)

Lemma substring_all (n : nat) (s : string) :
  (String.length s ≤ n)%nat → String.substring 0 n s = s.
Proof.
  revert n. induction s as [|c s IH]; intros n Hn; [by destruct n|].
  destruct n as [|n]; simpl in *; [lia|]. rewrite IH; [done | lia].
Qed.

Lemma length_substring (n : nat) (s : string) :
  (n ≤ String.length s)%nat → String.length (String.substring 0 n s) = n.
Proof.
  revert n. induction s as [|c s IH]; intros n Hn; destruct n as [|n]; simpl in *;
    try done; try lia. rewrite IH; [done | lia].
Qed.

Lemma length_substring_le (n : nat) (s : string) :
  (String.length (String.substring 0 n s) ≤ n)%nat.
Proof.
  revert n. induction s as [|c s IH]; intros n; destruct n as [|n]; simpl; try lia.
  specialize (IH n). lia.
Qed.

Lemma length_append (s1 s2 : string) :
  String.length (s1 +:+ s2) = (String.length s1 + String.length s2)%nat.
Proof.
  induction s1 as [|c s1 IH]; [done|]. rewrite append_cons. simpl. by rewrite IH.
Qed.

(** X12. The label a task is shown under: the caller's label when it gives a
    non-empty one; otherwise the task text itself when it has at most 30
    characters, and its first 30 characters followed by three dots, 33
    characters in all, when it is longer. The task id has at most 8
    characters. *)
Theorem display_label_cases (task : string) (label : option string) (u : string) :
  (∀ l, label = Some l → l ≠ "" → display_label_of task label = l)
  ∧ (opt_str_truthy label = false → (String.length task ≤ 30)%nat →
       display_label_of task label = task)
  ∧ (opt_str_truthy label = false → (30 < String.length task)%nat →
       display_label_of task label = py_slice_to 30 task +:+ "..."
       ∧ String.length (display_label_of task label) = 33%nat)
  ∧ (String.length (py_slice_to 8 u) ≤ 8)%nat.
Proof.
  split; [|split; [|split]].
  - intros l -> Hl. unfold display_label_of. by destruct l.
  - intros Hl Hlen. unfold display_label_of, py_slice_to. rewrite Hl.
    rewrite substring_all by done.
    assert ((30 <? String.length task)%nat = false) as -> by (apply Nat.ltb_ge; lia).
    apply append_nil_r.
  - intros Hl Hlen. unfold display_label_of, py_slice_to. rewrite Hl.
    assert ((30 <? String.length task)%nat = true) as -> by (apply Nat.ltb_lt; lia).
    split; [done|]. rewrite length_append, length_substring by lia. done.
  - apply length_substring_le.
Qed.


(** X14. The profile names of the "unknown profile" error: every key of
    [subagent_profiles], once each, in ascending code-point order; with no
    profiles at all the error says [(none)]. *)
Theorem available_profiles_listing self :
  let names := py_sorted (elements (dom (subagent_profiles self))) in
  StronglySorted String.le names
  ∧ NoDup names
  ∧ (∀ q, q ∈ names ↔ is_Some (subagent_profiles self !! q))
  ∧ (str_truthy (py_join ", " names) = true → available_profiles self = py_join ", " names)
  ∧ (subagent_profiles self = ∅ → available_profiles self = "(none)").
Proof.
  intros names. split; [|split; [|split; [|split]]].
  - apply (StronglySorted_merge_sort _).
  - subst names. unfold py_sorted. rewrite merge_sort_Permutation. apply NoDup_elements.
  - intros q. subst names. unfold py_sorted.
    by rewrite merge_sort_Permutation, elem_of_elements, elem_of_dom.
  - intros Hj. unfold available_profiles. fold names. by rewrite Hj.
  - intros Hempty. unfold available_profiles. rewrite Hempty. reflexivity.
Qed.

End More.
(** A profile that whitelists nothing, names no model and allows no
    iteration, in a manager confined to its workspace. *)
Definition idle : SubagentProfile := mkProfile (Some "") 0 (Some []) None.

Definition idle_manager : SubagentManager :=
  {| workspace := "/ws";
     model := "default-model";
     temperature := FloatLit "0.7";
     max_tokens := 4096;
     brave_api_key := None;
     exec_config := mkExecConfig true 60;
     restrict_to_workspace := true;
     subagent_profiles := <["idle" := idle]> ∅;
     default_max_iterations := 15 |}.

Definition silent : ScriptWorld := mkScript [] (Raise "provider must not be called").

(** The [setup] and the state with which a concrete run reaches the loop from
    state [st]. *)
Ltac reaches_loop RT self task profile st k :=
  let r := eval vm_compute in (@prepare RT self task profile st) in
  lazymatch r with
  | Some (Ok ?setup, ?st1) =>
      let H := fresh "Hprep" in
      assert (@prepare RT self task profile st = Some (Ok setup, st1)) as H
        by (vm_compute; reflexivity);
      k setup st1 H
  end.

Lemma nonpositive_bound_calls_nothing_witness :
  ∃ st', @_run_subagent scripted idle_manager "id1" "wait" "wait" example_origin
           (Some "idle") (@initial_state scripted silent) = Some (Ok tt, st')
         ∧ chat_log st' = []
         ∧ bus st' = [announcement "wait" "wait" (exhausted_text 0) example_origin "error"].
Proof.
  reaches_loop scripted idle_manager "wait" (Some "idle")
    (@started scripted "id1" "wait" (@initial_state scripted silent))
    ltac:(fun setup st1 H =>
      destruct (@nonpositive_bound_calls_nothing scripted idle_manager "id1" "wait" "wait"
                  example_origin (Some "idle") _ setup st1 H ltac:(simpl; lia))
        as [Hrun Hlog]).
  eexists. split; [exact Hrun|]. split; reflexivity.
Defined.

Lemma run_registry_holds_builtins_witness :
  ∃ setup st1,
    @prepare scripted idle_manager "wait" None (@initial_state scripted silent)
      = Some (Ok setup, st1)
    ∧ ToolRegistry.get (run_tools setup) "read_file" = Some (ReadFileTool "/ws" (Some "/ws"))
    ∧ ToolRegistry.has (run_tools setup) "message" = false
    ∧ ToolRegistry.has (run_tools setup) "spawn" = false.
Proof.
  reaches_loop scripted idle_manager "wait" (@None string) (@initial_state scripted silent)
    ltac:(fun setup st1 H =>
      destruct (@run_registry_holds_builtins scripted idle_manager "wait" None _ setup st1 H)
        as (_ & _ & _ & Hmsg & Hspawn);
      exists setup, st1; split; [exact H|]; split; [reflexivity|];
      split; [exact Hmsg | exact Hspawn]).
Defined.

Lemma empty_whitelist_means_default_tools_witness :
  ∃ setup st1,
    @prepare scripted idle_manager "wait" (Some "idle") (@initial_state scripted silent)
      = Some (Ok setup, st1)
    ∧ run_max_iterations setup = 0
    ∧ run_tools setup = _register_default_subagent_tools idle_manager
    ∧ run_model setup = "default-model".
Proof.
  reaches_loop scripted idle_manager "wait" (Some "idle") (@initial_state scripted silent)
    ltac:(fun setup st1 H =>
      destruct (@empty_whitelist_means_default_tools scripted idle_manager "wait" "idle" idle
                  _ setup st1 ltac:(discriminate) ltac:(vm_compute; reflexivity) H)
        as (Hmax & Htools & Hmodel & _);
      exists setup, st1; split; [exact H|]; split; [exact Hmax|];
      split; [exact (Htools (or_intror eq_refl)) | exact (Hmodel (or_intror eq_refl))]).
Defined.

Lemma no_profile_means_defaults_witness :
  ∃ setup st1,
    @prepare scripted idle_manager "wait" (Some "") (@initial_state scripted silent)
      = Some (Ok setup, st1)
    ∧ run_model setup = "default-model"
    ∧ run_max_iterations setup = 15
    ∧ run_tools setup = _register_default_subagent_tools idle_manager.
Proof.
  reaches_loop scripted idle_manager "wait" (Some "") (@initial_state scripted silent)
    ltac:(fun setup st1 H =>
      destruct (@no_profile_means_defaults scripted idle_manager "wait" (Some "") _ setup st1
                  eq_refl H) as (Hmodel & Hmax & Htools);
      exists setup, st1; split; [exact H|]; split; [exact Hmodel|];
      split; [exact Hmax | exact Htools]).
Defined.


End SubagentMore.

(** ** The webhook *)

Module WebhookFacts.
Import Subagent Webhook.

Lemma substring_from_0 (s : string) : String.substring 0 (String.length s) s = s.
Proof. induction s as [|c s IH]; simpl; [done | by rewrite IH]. Qed.

Lemma slice_from_prefix (p s : string) : py_slice_from (String.length p) (p +:+ s) = s.
Proof.
  unfold py_slice_from. induction p as [|c p IH]; simpl.
  - rewrite Nat.sub_0_r. apply substring_from_0.
  - exact IH.
Qed.

Lemma startswith_split (p s : string) :
  py_startswith p s = true → s = p +:+ py_slice_from (String.length p) s.
Proof.
  unfold py_startswith. revert s. induction p as [|c p IH]; intros s Hp.
  - unfold py_slice_from. simpl. rewrite Nat.sub_0_r. by rewrite substring_from_0.
  - destruct s as [|d s]; simpl in Hp; [done|].
    destruct (Ascii.ascii_dec c d) as [->|]; [|done].
    change (py_slice_from (String.length (String d p)) (String d s))
      with (py_slice_from (String.length p) s).
    change (String d p +:+ py_slice_from (String.length p) s)
      with (String d (p +:+ py_slice_from (String.length p) s)).
    by rewrite <- IH.
Qed.

Lemma startswith_append (p s : string) : py_startswith p (p +:+ s) = true.
Proof.
  unfold py_startswith. induction p as [|c p IH]; simpl; [by destruct s|].
  by destruct (Ascii.ascii_dec c c).
Qed.

(** The two tests of the [Auth] step pass exactly for the header
    [Bearer <secret>]. *)
Lemma bearer_accepted (sec auth : string) :
  negb (py_startswith "Bearer " auth) || negb (String.eqb (py_slice_from 7 auth) sec) = false
  ↔ auth = "Bearer " +:+ sec.
Proof.
  rewrite orb_false_iff, !negb_false_iff, String.eqb_eq. split.
  - intros [Hp Hs]. apply startswith_split in Hp. simpl String.length in Hp.
    by rewrite Hs in Hp.
  - intros ->. split; [apply startswith_append|].
    apply (slice_from_prefix "Bearer " sec).
Qed.

Lemma handle_notify_authorized repr self request st :
  authorization request = Some ("Bearer " +:+ secret self) →
  _handle_notify repr self request st =
    match json_body request with
    | Raise _ => (Ok (mkJsonResponse 400 "error" "invalid JSON body"), st)
    | Ok (JObject body) => notify_body repr self body st
    | Ok v => (Raise ("'" +:+ py_type_name v +:+ "' object has no attribute 'get'"), st)
    end.
Proof.
  intros Hauth. unfold _handle_notify. rewrite Hauth. simpl default.
  by rewrite (proj2 (bearer_accepted (secret self) _) eq_refl).
Qed.

(** X15. A request whose [Authorization] header is missing, or is anything but
    [Bearer <secret>], is answered 401 and changes nothing: nothing is
    published or logged, whatever its body. *)
Theorem unauthorized_changes_nothing (repr : Json → string) (self : WebhookServer)
    (request : Request) (st : State) :
  authorization request ≠ Some ("Bearer " +:+ secret self) →
  _handle_notify repr self request st = (Ok (mkJsonResponse 401 "error" "unauthorized"), st).
Proof.
  intros Hauth. unfold _handle_notify.
  destruct (negb (py_startswith "Bearer " (default "" (authorization request))) ||
            negb (String.eqb (py_slice_from 7 (default "" (authorization request)))
                    (secret self))) eqn:Hcheck; [done|].
  apply bearer_accepted in Hcheck. destruct (authorization request) as [auth|]; simpl in *.
  - by subst auth.
  - discriminate Hcheck.
Qed.

(** X16. The bus changes only with a 202. Every answer of [_handle_notify] is a
    202 that has appended exactly one [system] message from [webhook] carrying
    the request's non-empty string [message], or a 400 or 401 that has changed
    nothing; and a 202 is only ever given to a request that presents
    [Bearer <secret>] with a JSON object as its body. The handler raises
    exactly when such a request has a body that decodes to something other
    than an object: it then raises the [AttributeError] of the missing [get],
    with nothing changed, and gives no answer. *)
Theorem notify_outcomes (repr : Json → string) (self : WebhookServer)
    (request : Request) (st : State) :
  match _handle_notify repr self request st with
  | (Ok response, st') =>
      (response = mkJsonResponse 202 "status" "accepted"
       ∧ authorization request = Some ("Bearer " +:+ secret self)
       ∧ ∃ body text destination,
           json_body request = Ok (JObject body)
           ∧ json_get body "message" = JString text ∧ text ≠ ""
           ∧ bus st' = bus st ++ [mkInbound "system" "webhook" destination text]
           ∧ length (log st') = S (length (log st)))
      ∨ ((status response = 400 ∨ status response = 401) ∧ st' = st)
  | (Raise e, st') =>
      st' = st
      ∧ authorization request = Some ("Bearer " +:+ secret self)
      ∧ ∃ v, json_body request = Ok v ∧ py_type_name v ≠ "dict"
  end
  ∧ (∀ v,
       authorization request = Some ("Bearer " +:+ secret self) →
       json_body request = Ok v →
       py_type_name v ≠ "dict" →
       _handle_notify repr self request st =
         (Raise ("'" +:+ py_type_name v +:+ "' object has no attribute 'get'"), st))
  ∧ (∀ v, py_type_name v = "dict" ↔ ∃ body, v = JObject body).
Proof.
  split; [|split].
  - destruct (decide (authorization request = Some ("Bearer " +:+ secret self)))
      as [Hauth|Hauth]; cycle 1.
    { rewrite unauthorized_changes_nothing by done. right. split; [by right | done]. }
    rewrite handle_notify_authorized by done.
    destruct (json_body request) as [v|e] eqn:Hbody; [|right; split; [by left | done]].
    destruct v as [|b|n|z r|s|items|body];
      try (split; [done|]; split; [done|]; eexists; split; [done | discriminate]).
    unfold notify_body.
    destruct (negb (json_truthy (json_get body "message")) ||
              negb (json_is_str (json_get body "message"))) eqn:Hmsg;
      [right; split; [by left | done]|].
    match goal with |- context [if ?c then (Ok (mkJsonResponse 400 _ _), _) else _] =>
      destruct c; [right; split; [by left | done]|] end.
    left. split; [done|]. split; [done|].
    apply orb_false_iff in Hmsg as [Ht%negb_false_iff Hs%negb_false_iff].
    destruct (json_get body "message") as [| | | |text| |] eqn:Hget; try discriminate Hs.
    eexists body, text, _. split; [done|]. split; [done|]. split; [by destruct text|].
    simpl. split; [done|]. rewrite length_app. simpl. lia.
  - intros v Hauth Hbody Hv. rewrite handle_notify_authorized, Hbody by done.
    by destruct v.
  - intros v. split.
    + destruct v; try discriminate. by eexists.
    + by intros [body ->].
Qed.

(** X17. Where an accepted message goes. For an authorized request whose body is
    an object with a non-empty string [message]: a non-empty string [channel]
    and [chat_id] in the payload give the destination [channel:chat_id],
    whatever the defaults are; a payload with neither gets the server's
    defaults when both are non-empty, and a 400 that publishes nothing when
    one of them is empty. The message text is published unchanged. *)
Theorem accepted_message_routing (repr : Json → string) (self : WebhookServer)
    (body : PyDict.t Json) (text : string) (st : State) :
  text ≠ "" →
  json_get body "message" = JString text →
  let request := mkRequest (Some ("Bearer " +:+ secret self)) (Ok (JObject body)) in
  (∀ c i, c ≠ "" → i ≠ "" →
      json_get body "channel" = JString c → json_get body "chat_id" = JString i →
      _handle_notify repr self request st =
        (Ok (mkJsonResponse 202 "status" "accepted"),
         {| bus := bus st ++ [mkInbound "system" "webhook" (c +:+ ":" +:+ i) text];
            log := log st ++ [mkLog DEBUG "Webhook accepted message for {}:{}" [c; i]] |}))
  ∧ (PyDict.get body "channel" = None → PyDict.get body "chat_id" = None →
      default_channel self ≠ "" → default_chat_id self ≠ "" →
      _handle_notify repr self request st =
        (Ok (mkJsonResponse 202 "status" "accepted"),
         {| bus := bus st ++
              [mkInbound "system" "webhook"
                 (default_channel self +:+ ":" +:+ default_chat_id self) text];
            log := log st ++
              [mkLog DEBUG "Webhook accepted message for {}:{}"
                 [default_channel self; default_chat_id self]] |}))
  ∧ (PyDict.get body "channel" = None → PyDict.get body "chat_id" = None →
      default_channel self = "" ∨ default_chat_id self = "" →
      _handle_notify repr self request st =
        (Ok (mkJsonResponse 400 "error"
               "no destination: provide 'channel' and 'chat_id' in payload or configure defaults"),
         st)).
Proof.
  intros Htext Hmsg request.
  assert (_handle_notify repr self request st = notify_body repr self body st) as ->.
  { by rewrite handle_notify_authorized. }
  unfold notify_body. rewrite Hmsg.
  assert (str_truthy text = true) as Htruthy by by destruct text.
  simpl. rewrite Htruthy. simpl.
  split; [|split].
  - intros c i Hc Hi -> ->.
    destruct c as [|c0 c]; [done|]. destruct i as [|i0 i]; [done|]. reflexivity.
  - intros Hch Hid Hdc Hdi. unfold json_get. rewrite Hch, Hid. simpl.
    destruct (default_channel self) as [|c0 c]; [done|].
    destruct (default_chat_id self) as [|i0 i]; [done|]. reflexivity.
  - intros Hch Hid Hempty. unfold json_get. rewrite Hch, Hid. simpl.
    destruct Hempty as [-> | ->]; simpl; [done|]. by rewrite orb_true_r.
Qed.

(** X18. A server created without a secret is ephemeral and guards [/notify] with
    the generated token; a server created with a secret keeps it. Either way
    only [Bearer <that secret>] is let through. *)
Theorem init_secret (repr : Json → string) (host : string) (port : Z)
    (given default_channel default_chat_id token : string) (request : Request) (st : State) :
  let server := init host port given default_channel default_chat_id token in
  secret server = (if str_truthy given then given else token)
  ∧ ephemeral server = negb (str_truthy given)
  ∧ (authorization request ≠ Some ("Bearer " +:+ (if str_truthy given then given else token)) →
      _handle_notify repr server request st = (Ok (mkJsonResponse 401 "error" "unauthorized"), st)).
Proof.
  intros server.
  assert (secret server = if str_truthy given then given else token) as Hsecret.
  { subst server. unfold init. by destruct (str_truthy given). }
  split; [done|]. split.
  - subst server. unfold init. by destruct (str_truthy given).
  - intros Hauth. apply unauthorized_changes_nothing. by rewrite Hsecret.
Qed.

(** An example server and request. *)
Definition example_server : WebhookServer := init "0.0.0.0" 18790 "s3cret" "cli" "direct" "unused".

Definition no_repr (v : Json) : string := "".

Lemma unauthorized_changes_nothing_witness :
  _handle_notify no_repr example_server
    (mkRequest (Some "Bearer wrong") (Ok (JObject [("message", JString "hi")])))
    (mkHookState [] [])
  = (Ok (mkJsonResponse 401 "error" "unauthorized"), mkHookState [] []).
Proof.
  apply (unauthorized_changes_nothing no_repr example_server
           (mkRequest (Some "Bearer wrong") (Ok (JObject [("message", JString "hi")])))
           (mkHookState [] [])).
  discriminate.
Defined.

Lemma notify_outcomes_witness :
  _handle_notify no_repr example_server
    (mkRequest (Some "Bearer s3cret") (Ok (JArray [JString "build finished"])))
    (mkHookState [] [])
  = (Raise "'list' object has no attribute 'get'", mkHookState [] []).
Proof.
  apply (proj1 (proj2 (notify_outcomes no_repr example_server
                         (mkRequest (Some "Bearer s3cret")
                            (Ok (JArray [JString "build finished"])))
                         (mkHookState [] [])))
           (JArray [JString "build finished"]) eq_refl eq_refl).
  discriminate.
Defined.

Lemma accepted_message_routing_witness :
  _handle_notify no_repr example_server
    (mkRequest (Some "Bearer s3cret")
       (Ok (JObject [("message", JString "build finished"); ("channel", JString "telegram");
                     ("chat_id", JString "42")])))
    (mkHookState [] [])
  = (Ok (mkJsonResponse 202 "status" "accepted"),
     {| bus := [mkInbound "system" "webhook" "telegram:42" "build finished"];
        log := [mkLog DEBUG "Webhook accepted message for {}:{}" ["telegram"; "42"]] |}).
Proof.
  apply (proj1 (accepted_message_routing no_repr example_server
                  [("message", JString "build finished"); ("channel", JString "telegram");
                   ("chat_id", JString "42")] "build finished" (mkHookState [] [])
                  ltac:(discriminate) eq_refl)
           "telegram" "42" ltac:(discriminate) ltac:(discriminate) eq_refl eq_refl).
Defined.

End WebhookFacts.

(** ** The notes plugin *)

Module NotesFacts.
Import NotesPlugin.

Section SafeName.
Variable isalnum : Ascii.ascii → bool.

Lemma safe_name_cons c rest :
  safe_name isalnum (String c rest) =
    String (if kept isalnum c then c else Ascii.ascii_of_nat 95) (safe_name isalnum rest).
Proof. simpl. by destruct (kept isalnum c). Qed.

Lemma kept_underscore : kept isalnum (Ascii.ascii_of_nat 95) = true.
Proof. unfold kept. apply orb_true_r. Qed.

(** X19. The sanitized title has as many characters as the title, every one of
    them alphanumeric or one of [-], [_] and the space, so a character that is
    neither (a path separator, a dot) cannot occur in the file name stem.
    Sanitizing is idempotent and leaves an already clean title unchanged. *)
Theorem safe_name_is_safe (title : string) :
  String.length (safe_name isalnum title) = String.length title
  ∧ Forall (λ c, kept isalnum c = true)
      (String.list_ascii_of_string (safe_name isalnum title))
  ∧ (∀ c, kept isalnum c = false →
          c ∉ String.list_ascii_of_string (safe_name isalnum title))
  ∧ safe_name isalnum (safe_name isalnum title) = safe_name isalnum title
  ∧ (Forall (λ c, kept isalnum c = true) (String.list_ascii_of_string title) →
       safe_name isalnum title = title).
Proof.
  assert (Forall (λ c, kept isalnum c = true)
            (String.list_ascii_of_string (safe_name isalnum title))) as Hall.
  { induction title as [|c rest IH]; [constructor|].
    rewrite safe_name_cons. simpl. constructor; [|done].
    destruct (kept isalnum c) eqn:Hk; [done | apply kept_underscore]. }
  assert (∀ s, Forall (λ c, kept isalnum c = true) (String.list_ascii_of_string s) →
            safe_name isalnum s = s) as Hclean.
  { intros s. induction s as [|c rest IH]; [done|]. simpl String.list_ascii_of_string.
    intros Hs. inversion Hs as [|? ? Hc Hrest]; subst.
    rewrite safe_name_cons, Hc. by rewrite IH. }
  split; [|split; [done|split; [|split]]].
  - clear Hall. induction title as [|c rest IH]; [done|].
    rewrite safe_name_cons. simpl String.length. by rewrite IH.
  - intros c Hc Hin. rewrite Forall_forall in Hall. specialize (Hall c Hin). congruence.
  - by apply Hclean.
  - apply Hclean.
Qed.

End SafeName.
End NotesFacts.
